(** * Agentic shopper: price parsing, ranking, planning fallback,
      browser teardown and the session workflow of [agent.py] / [app.py]

    The development embeds the pure parts of the two Python modules as Rocq
    functions and the effectful parts (browser automation, the planning
    oracle, the session table) with explicit state passing and outcomes
    supplied by the environment. *)

From Stdlib Require Import ZArith NArith List Bool Lia Ascii String.
From Stdlib Require Import Floats.SpecFloat Sorting.Sorted Sorting.Permutation.
From stdpp Require Import gmap list fin_maps.

Import ListNotations.
Local Open Scope N_scope.

(** ** Text

    A Python [str] is a sequence of Unicode code points. *)

Module Text.

Abbreviation text := (list N).

(** ASCII literals of the source are written with [str]. *)
Definition str (s : string) : text :=
  List.map N_of_ascii (list_ascii_of_string s).

Definition pound : N := 163.   (* U+00A3 *)
Definition dollar : N := 36.
Definition euro : N := 8364.   (* U+20AC *)
Definition comma : N := 44.
Definition dot : N := 46.

Definition is_digit (c : N) : bool := (48 <=? c) && (c <=? 57).

(** [\s] of a [str] pattern and the characters removed by [str.strip()]:
    the code points for which CPython's [Py_UNICODE_ISSPACE] holds. *)
Definition is_space (c : N) : bool :=
  ((9 <=? c) && (c <=? 13)) || ((28 <=? c) && (c <=? 32))
  || (c =? 133) || (c =? 160) || (c =? 5760)
  || ((8192 <=? c) && (c <=? 8202))
  || (c =? 8232) || (c =? 8233) || (c =? 8239) || (c =? 8287) || (c =? 12288).

(** [text.replace(c, "")] for a one-character [c]. *)
Definition remove_char (c : N) (t : text) : text :=
  List.filter (fun x => negb (x =? c)) t.

(** Longest prefix of characters satisfying [p], and the rest. *)
Fixpoint span (p : N -> bool) (t : text) : text * text :=
  match t with
  | c :: r => if p c then let '(a, b) := span p r in (c :: a, b) else ([], t)
  | [] => ([], [])
  end.

Fixpoint prefixb (s t : text) : bool :=
  match s, t with
  | [], _ => true
  | a :: s', b :: t' => (a =? b) && prefixb s' t'
  | _ :: _, [] => false
  end.

(** [s in t] on strings: substring test. *)
Fixpoint contains (s t : text) : bool :=
  prefixb s t || match t with [] => false | _ :: t' => contains s t' end.

(** [str.lower()] restricted to what it does on ASCII letters; code points
    outside ASCII are left alone here (Python applies the Unicode case
    mapping to them).  The ranking theorems below are stated for an
    arbitrary lowering function and so do not depend on this choice. *)
Definition lower_char (c : N) : N :=
  if (65 <=? c) && (c <=? 90) then c + 32 else c.
Definition ascii_lower (t : text) : text := List.map lower_char t.

End Text.
Import Text.

(** ** Python floats

    A Python [float] is an IEEE-754 binary64 value; they are the
    [spec_float]s of the standard library at precision 53. *)

Module PyFloat.

Definition prec : Z := 53.
Definition emax : Z := 1024.

Abbreviation float := spec_float.

Definition zero : float := S754_zero false.

Definition is_nan (x : float) : bool :=
  match x with S754_nan => true | _ => false end.

(** [x < y], [x > y], [x <= y] on floats (all false when a NaN is involved). *)
Definition ltb (x y : float) : bool := SFltb x y.
Definition gtb (x y : float) : bool := SFltb y x.

(** Truth value of a float: false exactly for [0.0] and [-0.0]. *)
Definition truthy (x : float) : bool :=
  match x with S754_zero _ => false | _ => true end.

(** The correctly rounded (nearest, ties to even) quotient of two
    non-negative integers, [den > 0]. *)
Definition of_ratio (num den : Z) : float :=
  match num, den with
  | Zpos n, Zpos d =>
      SFdiv prec emax (S754_finite false n 0) (S754_finite false d 0)
  | _, _ => zero
  end.

(** Value of a run of decimal digits. *)
Definition digits_value (t : text) : Z :=
  fold_left (fun acc c => (acc * 10 + (Z.of_N c - 48))%Z) t 0%Z.

(** [float(s)] for [s] made of decimal digits, optionally followed by a
    dot and more digits: the double nearest to the decimal [s] denotes. *)
Definition of_decimal (s : text) : float :=
  let '(ip, rest) := span is_digit s in
  let fr := match rest with
            | c :: r => if c =? dot then fst (span is_digit r) else []
            | [] => []
            end in
  of_ratio (digits_value (ip ++ fr)) (10 ^ Z.of_nat (length fr)).

(** Position of a non-NaN float in the order that [<] tests: the class
    (negative infinity, negative, zero, positive, positive infinity), then
    exponent and mantissa, mirrored for negative numbers. *)
Definition ord (x : float) : Z * Z * Z :=
  match x with
  | S754_infinity true => (-2, 0, 0)%Z
  | S754_finite true m e => (-1, - e, Zneg m)%Z
  | S754_zero _ => (0, 0, 0)%Z
  | S754_finite false m e => (1, e, Zpos m)%Z
  | S754_infinity false => (2, 0, 0)%Z
  | S754_nan => (3, 0, 0)%Z
  end.

Definition lex_lt (a b : Z * Z * Z) : Prop :=
  let '(a1, a2, a3) := a in
  let '(b1, b2, b3) := b in
  (a1 < b1 \/ (a1 = b1 /\ (a2 < b2 \/ (a2 = b2 /\ a3 < b3))))%Z.

(** Neither is smaller: what the sort treats as equal keys. *)
Definition same (x y : float) : bool := negb (ltb x y) && negb (ltb y x).

End PyFloat.

(** ** [agent.py]: data classes and [parse_price] *)

Record Product := mkProduct {
  title : text;
  price : option PyFloat.float;
  currency : option text;
  url : text;
  store : text
}.

Module PriceParser.

Definition is_currency (c : N) : bool :=
  (c =? pound) || (c =? dollar) || (c =? euro).

(** [(?:\.[0-9]{1,2})?] tried at the head of [t]: the matched text. *)
Definition match_fraction (t : text) : text :=
  match t with
  | c :: d1 :: r =>
      if (c =? dot) && is_digit d1 then
        match r with
        | d2 :: _ => if is_digit d2 then [c; d1; d2] else [c; d1]
        | [] => [c; d1]
        end
      else []
  | _ => []
  end.

(** The pattern [([£$€])?\s*([0-9]+(?:\.[0-9]{1,2})?)] anchored at the head
    of [t]; the result is (group 1, group 2).  Every quantifier is greedy
    and no shorter choice can rescue a failed attempt: giving the currency
    symbol or a blank back leaves a non-digit where [[0-9]+] must start. *)
Definition match_here (t : text) : option (option text * text) :=
  let '(cur, t1) :=
    match t with
    | c :: r => if is_currency c then (Some [c], r) else (None, t)
    | [] => (None, t)
    end in
  let t2 := snd (span is_space t1) in
  let '(ds, t3) := span is_digit t2 in
  match ds with
  | [] => None
  | _ :: _ => Some (cur, ds ++ match_fraction t3)
  end.

(** [re.search]: the match at the leftmost position where one exists. *)
Fixpoint re_search (t : text) : option (option text * text) :=
  match match_here t with
  | Some r => Some r
  | None => match t with
            | [] => None
            | _ :: t' => re_search t'
            end
  end.

Definition parse_price (txt : option text)
  : option PyFloat.float * option text :=
  match txt with
  | None | Some [] => (None, None)
  | Some s =>
      let t := remove_char comma s in
      match re_search t with
      | None => (None, None)
      | Some (cur, num) => (Some (PyFloat.of_decimal num), cur)
      end
  end.

(** Price strings: after the currency symbol, digits grouped by commas... *)
Definition is_grouped_digits (body : text) : bool :=
  forallb (fun c => is_digit c || (c =? comma)) body && existsb is_digit body.

(** ... and then nothing, or a dot and one or two digits. *)
Definition is_fraction (fr : text) : bool :=
  match fr with
  | [] => true
  | [c; d1] => (c =? dot) && is_digit d1
  | [c; d1; d2] => (c =? dot) && is_digit d1 && is_digit d2
  | _ => false
  end.

End PriceParser.

(** ** [list.sort(key=..., reverse=...)]

    Python specifies [list.sort] as a stable sort that compares keys with
    [<] only.  It is embedded as left-to-right insertion, each element going
    behind the elements that are not greater than it; with [reverse=True]
    CPython reverses the list, sorts it forward and reverses the result, which
    keeps equal elements in their original order.  On keys that [<] orders
    totally every stable sort computes this same list. *)

Module PySort.
Section Sort.
Context {A K : Type}.
Variable ltb : K -> K -> bool.
Variable key : A -> K.

Fixpoint insert (x : A) (l : list A) : list A :=
    match l with
    | [] => [x]
    | y :: l' => if ltb (key x) (key y) then x :: l else y :: insert x l'
    end.

Definition sort_forward (l : list A) : list A :=
    fold_left (fun acc x => insert x acc) l [].

Definition sort (reverse : bool) (l : list A) : list A :=
    if reverse then rev (sort_forward (rev l)) else sort_forward l.

(** [x] may stand before [y] in ascending order: [y] is not smaller. *)
Definition before (x y : A) : Prop := ltb (key y) (key x) = false.

(** [x] belongs to the key class of [k]: neither key is smaller. *)
Definition same_key (k : K) (x : A) : bool :=
    negb (ltb k (key x)) && negb (ltb (key x) k).
End Sort.
End PySort.

(** ** [ProductSelector] *)

(** A JSON number, as [json.loads] delivers it: an [int] or a [float]. *)
Inductive number :=
  | PyInt (z : Z)
  | PyFloat (f : PyFloat.float).

Record Constraints := mkConstraints {
  max_price : option number;
  must_have : list text
}.

Module ProductSelector.

(** Exact comparison of a float with an integer, as Python performs it for
    mixed operands; [None] for a NaN. *)
Definition compare_int (x : PyFloat.float) (z : Z) : option comparison :=
  match x with
  | S754_nan => None
  | S754_infinity s => Some (if s then Lt else Gt)
  | S754_zero _ => Some (0 ?= z)%Z
  | S754_finite s m e =>
      let v := if s then Zneg m else Zpos m in
      Some (if (0 <=? e)%Z then (v * 2 ^ e ?= z)%Z
            else (v ?= z * 2 ^ (- e))%Z)
  end.

(** [x > P] and [x <= P] for a float price [x] and a numeric ceiling [P]. *)
Definition price_gt (x : PyFloat.float) (P : number) : bool :=
  match P with
  | PyFloat y => PyFloat.gtb x y
  | PyInt z => match compare_int x z with Some Gt => true | _ => false end
  end.


Definition number_is_nan (P : number) : bool :=
  match P with PyFloat y => PyFloat.is_nan y | PyInt _ => false end.

(** The local function [score]: [0] unless the price is present and
    non-zero, in which case [0 + price].  The integer [0] it starts from
    compares with every float exactly as [0.0] does, and [0 + x] is [x] for
    every non-zero float, so the key is embedded as a float. *)
Definition score (p : Product) : PyFloat.float :=
  match price p with
  | Some x => if PyFloat.truthy x then x else PyFloat.zero
  | None => PyFloat.zero
  end.

Section Rank.
(** [str.lower] *)
Variable lower : text -> text.

(** First [continue]: the price test of the loop body. *)
Definition over_budget (c : Constraints) (p : Product) : bool :=
    match max_price c, price p with
    | Some P, Some x => price_gt x P
    | _, _ => false
    end.

(** Second [continue]: the keyword test of the loop body. *)
Definition lacks_keyword (c : Constraints) (p : Product) : bool :=
    match must_have c with
    | [] => false
    | ks => negb (forallb (fun k => contains (lower k) (lower (title p))) ks)
    end.

Definition keep (c : Constraints) (p : Product) : bool :=
    negb (over_budget c p) && negb (lacks_keyword c p).

Definition filter_pass (products : list Product) (c : Constraints)
    : list Product :=
    List.filter (keep c) products.

(** [if not filtered: filtered = products[:]] *)
Definition filtered_or_all (products : list Product) (c : Constraints)
    : list Product :=
    match filter_pass products c with
    | [] => products
    | filtered => filtered
    end.

Definition rank (prefer_low_price : bool) (products : list Product)
      (c : Constraints) : list Product :=
    PySort.sort PyFloat.ltb score (negb prefer_low_price)
      (filtered_or_all products c).
End Rank.

(** The price, when there is one, is a number. *)
Definition price_is_number (p : Product) : Prop :=
  price p <> Some S754_nan.

End ProductSelector.

(** ** Errors and effects

    Exceptions that leave a request handler: the [HTTPException]s that
    [app.py] raises itself, and the exceptions of other libraries (the
    browser automation, the planning service), which pass through. *)

Inductive exn := Exn (what : text).

Inductive error :=
  | HTTPException (status_code : Z) (detail : text)
  | Foreign (e : exn).

(** Computations that perform calls on the outside world, in order, and
    either return or raise. *)
Module Eff.
Section Eff.
Context {C E : Type}.

Definition t (A : Type) : Type := list C * (E + A).

Definition ret {A} (a : A) : t A := ([], inr a).

Definition bind {A B} (m : t A) (k : A -> t B) : t B :=
  match m with
  | (tr, inl e) => (tr, inl e)
  | (tr, inr a) => let '(tr', r) := k a in (tr ++ tr', r)
  end.

(** One call [c] whose outcome the world decides. *)
Definition call (c : C) (outcome : option E) : t unit :=
  ([c], match outcome with Some e => inl e | None => inr tt end).

(** [if b: m] *)
Definition when (b : bool) (m : t unit) : t unit :=
  if b then m else ret tt.

(** [try: body finally: fin].  The [finally] block always runs; what it
    raises replaces what the body raised. *)
Definition try_finally (body fin : t unit) : t unit :=
  let '(tr1, r1) := body in
  let '(tr2, r2) := fin in
  (tr1 ++ tr2, match r2 with inl e => inl e | inr _ => r1 end).

Definition trace {A} (m : t A) : list C := fst m.
Definition outcome {A} (m : t A) : E + A := snd m.
End Eff.
End Eff.

Declare Scope eff_scope.
Delimit Scope eff_scope with eff.
Notation "m1 ;; m2" := (Eff.bind m1 (fun _ => m2))
  (at level 100, m2 at level 200, right associativity) : eff_scope.

(** ** [BrowserController] *)

Module BrowserController.

Inductive call := CloseContext | CloseBrowser | StopPlaywright.

(** Which of the three attributes hold an object (are truthy). *)
Record controller := mkController {
  context : bool;
  browser : bool;
  playwright : bool
}.

(** What each teardown call does when it is made: [None] returns,
    [Some e] raises [e]. *)
Record teardown_world := mkWorld {
  context_close : option exn;
  browser_close : option exn;
  playwright_stop : option exn
}.

Definition aexit (self : controller) (w : teardown_world) : Eff.t unit :=
  Eff.try_finally
    (Eff.when (context self) (Eff.call CloseContext (context_close w)) ;;
     Eff.when (browser self) (Eff.call CloseBrowser (browser_close w)))%eff
    (Eff.when (playwright self) (Eff.call StopPlaywright (playwright_stop w))).

(** The controller as [__aenter__] leaves it. *)
Definition entered : controller := mkController true true true.

(** The teardown in the order of the source. *)
Definition teardown_order : list call :=
  [CloseContext; CloseBrowser; StopPlaywright].

End BrowserController.

(** ** [LLMPlanner] *)

Record Plan := mkPlan {
  plan_query : option text;
  plan_store : option text;
  plan_max_price : option number;
  plan_must_have : list text
}.

Module LLMPlanner.

(** [str.strip()] *)
Definition strip (t : text) : text :=
  rev (snd (span is_space (rev (snd (span is_space t))))).

Definition lbrace : N := 123.
Definition rbrace : N := 125.

(** [re.search(r"\{.*\}", text, re.DOTALL)]: from the first opening brace
    to the last closing brace behind it. *)
Definition search_braces (t : text) : option text :=
  match snd (span (fun c => negb (c =? lbrace)) t) with
  | [] => None
  | _ :: r =>
      match snd (span (fun c => negb (c =? rbrace)) (rev r)) with
      | [] => None
      | back => Some (lbrace :: rev back)
      end
  end.

(** Lines 331-334: the text handed to [json.loads]. *)
Definition json_text (resp_text : text) : text :=
  let text := strip resp_text in
  match search_braces text with
  | Some j => j
  | None => text
  end.

(** The pattern [under\s*\$?([0-9]+)] anchored at the head of [t]; the
    result is group 1. *)
Definition match_under_here (t : text) : option text :=
  if prefixb (str "under") t then
    let t1 := snd (span is_space (skipn 5 t)) in
    let t2 := match t1 with
              | c :: r => if c =? dollar then r else t1
              | [] => t1
              end in
    match fst (span is_digit t2) with
    | [] => None
    | ds => Some ds
    end
  else None.

Fixpoint search_under (t : text) : option text :=
  match match_under_here t with
  | Some g => Some g
  | None => match t with
            | [] => None
            | _ :: t' => search_under t'
            end
  end.

Section Plan.
(** [str.lower] *)
Variable lower : text -> text.
(** [json.loads], seen through the four keys the caller reads; [None]
    when it raises. *)
Variable json_loads : text -> option Plan.

(** The [except] branch of [plan]. *)
Definition fallback (user_request : text) : Plan :=
  let max_price :=
    match search_under user_request with
    | Some g => Some (PyFloat (PyFloat.of_decimal g))
    | None => None
    end in
  let store :=
    fold_left
      (fun store s => if contains s (lower user_request) then Some s else store)
      [str "amazon"; str "ebay"; str "walmart"] None in
  mkPlan (Some user_request) store max_price [].

(** [plan], given the text the model answered with. *)
Definition plan (resp_text user_request : text) : Plan :=
  match json_loads (json_text resp_text) with
  | Some plan => plan
  | None => fallback user_request
  end.
End Plan.

End LLMPlanner.

(** ** [app.py]: the request handlers over the session table *)

Record PlanRequest := mkPlanRequest {
  user_request : text;
  site_hint : option text
}.

Record ChooseRequest := mkChooseRequest {
  product_index : option Z;
  product_url : option text
}.

Record CheckoutRequest := mkCheckoutRequest {
  shipping : option (list (text * text))
}.

(** One entry of [SESSIONS].  The key ["chosen"] is absent until [choose]
    stores it; [session.get("chosen")] reads an absent key as [None]. *)
Record Session := mkSession {
  plan : Plan;
  products : list Product;
  page_url : option text;
  last_page_html : option text;
  chosen : option Product
}.

Record ProductSummary := mkSummary {
  s_index : nat;
  s_title : text;
  s_price : option PyFloat.float;
  s_currency : option text;
  s_url : text;
  s_store : text
}.

Record PlanResponse := mkPlanResponse {
  r_session_id : text;
  r_plan : Plan;
  r_products : list ProductSummary
}.

Record ChooseResponse := mkChooseResponse {
  c_status : text;
  c_page_url : text;
  c_screenshot_b64 : text
}.

Record CheckoutResponse := mkCheckoutResponse {
  k_status : text;
  k_checkout_url : text;
  k_filled_shipping : bool;
  k_screenshot_b64 : text;
  k_note : text
}.

Module App.

Abbreviation sessions := (gmap text Session).

Definition session_not_found : error :=
  HTTPException 404 (str "Session not found").
Definition product_not_found : error :=
  HTTPException 400 (str "Product not found in session").
Definition no_product_chosen : error :=
  HTTPException 400 (str "No product chosen for this session").

(** *** [plan_and_search] *)

(** The four scrapers, as the browser answers them for a query. *)
Record Scraper := mkScraper {
  search_amazon : text -> exn + list Product;
  search_ebay : text -> exn + list Product;
  search_walmart : text -> exn + list Product;
  search_generic : text -> text -> exn + list Product
}.

(** Everything the outside world contributes to one [plan_and_search].
    [new_page] is counted with [__aenter__]: when it raises, the model
    raises its exception, where Python runs [__aexit__] first and raises
    what that raises, if it raises. *)
Record SearchWorld := mkSearchWorld {
  oracle_text : exn + text;        (* [resp.text], or the call raising *)
  browser_enter : option exn;      (* [__aenter__] and [new_page] *)
  scraper : Scraper;
  urandom_token : text;            (* the encoded [os.urandom(9)] *)
  browser_exit : option exn        (* [__aexit__] *)
}.

Definition bind_sum {E A B} (m : E + A) (k : A -> E + B) : E + B :=
  match m with inl e => inl e | inr a => k a end.

Notation "x <- m ;; k" := (bind_sum m (fun x => k))
  (at level 100, m at next level, k at level 200, right associativity,
   only parsing) : eff_scope.

(** [a or b] on optional strings: [a] unless it is [None] or empty. *)
Definition or_else (a b : option text) : option text :=
  match a with
  | Some (_ :: _) => a
  | _ => b
  end.

Definition or_text (a : option text) (b : text) : text :=
  match a with
  | Some ((_ :: _) as t) => t
  | _ => b
  end.

(** The store dispatch of lines 53-66. *)
Definition scrape (sc : Scraper) (store : option text) (query : text)
  : exn + list Product :=
  if bool_decide (store = Some (str "amazon")) then search_amazon sc query
  else if bool_decide (store = Some (str "ebay")) then search_ebay sc query
  else if bool_decide (store = Some (str "walmart")) then search_walmart sc query
  else
    (products <- search_amazon sc query ;;
     products <- (if (length products <? 4)%nat
                  then (more <- search_ebay sc query ;; inr (products ++ more))
                  else inr products) ;;
     products <- (if (length products <? 6)%nat
                  then (more <- search_walmart sc query ;; inr (products ++ more))
                  else inr products) ;;
     if (length products <? 6)%nat
     then (more <- search_generic sc (str "https://www.example.com") query ;;
           inr (products ++ more))
     else inr products)%eff.

(** [enumerate(ranked[:10])] turned into response entries. *)
Definition summary (i : nat) (p : Product) : ProductSummary :=
  mkSummary i (title p) (price p) (currency p) (url p) (store p).

Definition summaries (ranked : list Product) : list ProductSummary :=
  imap summary (firstn 10 ranked).

(** The exception that leaves an [async with] block whose body raised [e]:
    what [__aexit__] raises, if it raises, else [e]. *)
Definition raised_after_exit (e : exn) (exit : option exn) : error :=
  match exit with Some e' => Foreign e' | None => Foreign e end.

Section Handlers.
Variable lower : text -> text.
Variable json_loads : text -> option Plan.

(** Lines 41-46 and 69: what is ranked, from the plan and the scraped
    products. *)
Definition constraints_of (plan : Plan) : Constraints :=
  mkConstraints (plan_max_price plan) (plan_must_have plan).

Definition plan_and_search (S : sessions) (req : PlanRequest) (w : SearchWorld)
  : (error + PlanResponse) * sessions :=
  match oracle_text w with
  | inl e => (inl (Foreign e), S)
  | inr resp_text =>
      let plan := LLMPlanner.plan lower json_loads resp_text (user_request req) in
      let query := or_text (plan_query plan) (user_request req) in
      let store := or_else (plan_store plan) (site_hint req) in
      let constraints := constraints_of plan in
      match browser_enter w with
      | Some e => (inl (Foreign e), S)
      | None =>
          match scrape (scraper w) store query with
          | inl e => (inl (raised_after_exit e (browser_exit w)), S)
          | inr products =>
              let ranked := ProductSelector.rank lower true products constraints in
              let sid := urandom_token w in
              let S' := <[sid := mkSession plan ranked None None None]> S in
              let out := summaries ranked in
              match browser_exit w with
              | Some e => (inl (Foreign e), S')
              | None => (inr (mkPlanResponse sid plan out), S')
              end
          end
      end
  end.
End Handlers.

(** *** [choose] *)

(** Lines 85-93: the product a request selects from the stored list. *)
Definition select_product (products : list Product) (body : ChooseRequest)
  : option Product :=
  match product_url body with
  | Some ((_ :: _) as u) =>
      List.find (fun p => bool_decide (url p = u)) products
  | _ =>
      match product_index body with
      | Some i =>
          if (0 <=? i)%Z && (i <? Z.of_nat (length products))%Z
          then nth_error products (Z.to_nat i)
          else None
      | None => None
      end
  end.

(** What the browser session of one [choose] does with the selected
    product.  Entering the session is counted with the first steps of the
    body: the model lets a raising [__aexit__] replace their exception also
    when it was [__aenter__] that raised, where Python does not run
    [__aexit__]; [drive_checkout] below does the same. *)
Record ChooseWorld := mkChooseWorld {
  (* lines 97-105: open the page, try to add to the cart, read the url,
     take the screenshot: [(added, page.url, screenshot_b64)] *)
  add_to_cart : exn + (bool * text * text);
  page_content : exn + text;          (* line 108 *)
  choose_exit : option exn            (* [__aexit__] *)
}.

Definition choose (S : sessions) (session_id : text) (body : ChooseRequest)
    (w : Product -> ChooseWorld) : (error + ChooseResponse) * sessions :=
  match S !! session_id with
  | None => (inl session_not_found, S)
  | Some session =>
      match select_product (products session) body with
      | None => (inl product_not_found, S)
      | Some p =>
          match add_to_cart (w p) with
          | inl e => (inl (raised_after_exit e (choose_exit (w p))), S)
          | inr (added, url_now, shot) =>
              let s1 := mkSession (plan session) (products session)
                          (Some url_now) (last_page_html session) (Some p) in
              match page_content (w p) with
              | inl e =>
                  (inl (raised_after_exit e (choose_exit (w p))),
                   <[session_id := s1]> S)
              | inr html =>
                  let s2 := mkSession (plan session) (products session)
                              (Some url_now) (Some html) (Some p) in
                  let S' := <[session_id := s2]> S in
                  match choose_exit (w p) with
                  | Some e => (inl (Foreign e), S')
                  | None =>
                      (inr (mkChooseResponse
                              (if added then str "added" else str "needs_manual_add")
                              url_now shot), S')
                  end
              end
          end
      end
  end.

(** *** [checkout] *)

(** What the browser session of one [checkout] does: lines 121-139 as a
    whole, raising or delivering
    [(proceeded, fill_shipping result, page.url, screenshot_b64)]. *)
Record CheckoutWorld := mkCheckoutWorld {
  drive_checkout : exn + (bool * bool * text * text);
  checkout_exit : option exn
}.

Definition payment_note : text :=
  str "Agent stopped before payment. Please verify and complete payment manually in the browser.".

Definition checkout (S : sessions) (session_id : text) (body : CheckoutRequest)
    (w : Product -> CheckoutWorld) : (error + CheckoutResponse) * sessions :=
  match S !! session_id with
  | None => (inl session_not_found, S)
  | Some session =>
      match chosen session with
      | None => (inl no_product_chosen, S)
      | Some p =>
          match drive_checkout (w p) with
          | inl e => (inl (raised_after_exit e (checkout_exit (w p))), S)
          | inr (proceeded, fill, checkout_url, shot) =>
              let filled :=
                match shipping body with
                | Some (_ :: _) => fill
                | _ => false
                end in
              match checkout_exit (w p) with
              | Some e => (inl (Foreign e), S)
              | None =>
                  (inr (mkCheckoutResponse
                          (if proceeded then str "at_checkout"
                           else str "could_not_navigate_to_checkout")
                          checkout_url filled shot payment_note),
                   S)
              end
          end
      end
  end.

End App.

(** ** Sample data *)

Module Sample.

Definition dollars (s : string) : option PyFloat.float :=
  Some (PyFloat.of_decimal (str s)).

Definition item (name : string) (cost : option PyFloat.float) (link : string)
  : Product :=
  mkProduct (str name) cost (Some (str "$")) (str link) (str "amazon").

Definition mouse_a : Product :=
  item "Wireless Mouse A" (dollars "25.00") "https://www.amazon.com/a".
Definition mouse_b : Product :=
  item "Wireless Mouse B" (dollars "12.50") "https://www.amazon.com/b".
Definition mouse_c : Product :=
  item "Wireless Mouse C" None "https://www.amazon.com/c".
Definition mouse_d : Product :=
  item "Wired Mouse D" (dollars "12.50") "https://www.amazon.com/d".

Definition catalogue : list Product := [mouse_a; mouse_b; mouse_c; mouse_d].

Definition twenty : number := PyFloat (PyFloat.of_decimal (str "20")).

Definition under_twenty : Constraints := mkConstraints (Some twenty) [].
Definition keyboard_under_five : Constraints :=
  mkConstraints (Some (PyInt 5)) [str "Keyboard"].

Definition mouse_request : text := str "wireless mouse under $20".

(** A model answer that is no JSON, and a [json.loads] that rejects it. *)
Definition chatter : text := str "Sorry, I can only chat about mice.".
Definition rejects : text -> option Plan := fun _ => None.

(** The plan the scenario of the specification expects. *)
Definition expected_plan : Plan :=
  mkPlan (Some (str "wireless mouse")) None (Some twenty) [].

Definition boom : exn := Exn (str "Target closed").

(** A session table holding one discovered session. *)
Definition sid : text := str "c2Vzc2lvbjAx".
Definition unknown_sid : text := str "bm8tc3VjaC1p".

Definition mouse_plan : Plan :=
  mkPlan (Some mouse_request) None (Some twenty) [].

Definition table : App.sessions :=
  <[sid := mkSession mouse_plan catalogue None None None]> ∅.

Definition by_index (i : Z) : ChooseRequest := mkChooseRequest (Some i) None.

(** A browser in which every step of [choose] and [checkout] goes well. *)
Definition smooth_choose (p : Product) : App.ChooseWorld :=
  App.mkChooseWorld (inr (true, url p, str "iVBORw0KGgo=")) (inr (str "<html>"))
    None.
Definition smooth_checkout (p : Product) : App.CheckoutWorld :=
  App.mkCheckoutWorld (inr (true, false, url p, str "iVBORw0KGgo=")) None.

Definition mouse_search : PlanRequest := mkPlanRequest mouse_request None.

(** Twelve mice, all under twenty dollars, and a search that finds them. *)
Definition shelf_item (n : nat) : Product :=
  mkProduct (str "Wireless Mouse " ++ [N.of_nat (65 + n)])
    (Some (PyFloat.of_ratio (Z.of_nat (19 - n)) 1)) (Some (str "$"))
    (str "https://www.amazon.com/dp/" ++ [N.of_nat (65 + n)]) (str "amazon").
Definition shelf : list Product := List.map shelf_item (seq 0 12).

Definition shelf_world : App.SearchWorld :=
  App.mkSearchWorld (inr chatter) None
    (App.mkScraper (fun _ => inr shelf) (fun _ => inr []) (fun _ => inr [])
       (fun _ _ => inr []))
    sid None.

Definition shelf_outcome : (error + PlanResponse) * App.sessions :=
  App.plan_and_search ascii_lower rejects ∅ mouse_search shelf_world.
Definition shelf_response : PlanResponse :=
  match fst shelf_outcome with
  | inr r => r
  | inl _ => mkPlanResponse [] mouse_plan []
  end.

End Sample.

(** ** [ActionExecutor]

    The methods drive a page through an ordered list of selectors.  The page
    is given by what each call on it does while no interaction has succeeded
    yet: a query raises or tells whether the element exists, and the
    interaction with a found element (the awaits between the query and the
    [return True] or [break]) raises or completes. *)

Module Exc.
Section Exc.
Context {C E : Type}.

(** A call that returns a value, or raises. *)
Definition perform {A} (c : C) (result : E + A) : Eff.t (C:=C) (E:=E) A :=
  ([c], result).

(** [try: body except Exception: handler] *)
Definition try_except {A} (body : Eff.t (C:=C) (E:=E) A)
    (handler : E -> Eff.t (C:=C) (E:=E) A) : Eff.t (C:=C) (E:=E) A :=
  match body with
  | (tr, inl e) => let '(tr', r) := handler e in (tr ++ tr', r)
  | (tr, inr a) => (tr, inr a)
  end.
End Exc.
End Exc.

Module ActionExecutor.

Inductive call :=
  | QuerySelector (sel : text)
  | Act (sel : text)                (* scroll, click and the pauses *)
  | Fill (sel value : text)
  | Goto (url : text).

Record page := mkPage {
  query : text -> exn + bool;
  act : text -> option exn;
  fill : text -> text -> option exn;
  navigate : text -> option exn;
  current_url : text
}.

Definition add_selectors : list text :=
  [str "button#add-to-cart-button"; str "input#add-to-cart-button";
   str "button[name='add']"; str "button.add-to-cart";
   str "button:has-text('Add to cart')"; str "button:has-text('Add to Cart')";
   str "button:has-text('Add to Basket')"].

Definition cart_selectors : list text :=
  [str "a#nav-cart"; str "a[href*='/cart']"; str "a[aria-label*='cart']";
   str "a:has-text('Cart')"; str "a:has-text('Basket')"].

Definition checkout_selectors : list text :=
  [str "a#hlb-ptc-btn-native"; str "a[href*='/checkout']";
   str "button:has-text('Proceed to checkout')"; str "button:has-text('Checkout')"].

Definition mapping : list (text * list text) :=
  [(str "first_name", [str "input[name='firstName']"; str "input#firstName";
                       str "input[name='firstname']"]);
   (str "last_name", [str "input[name='lastName']"; str "input#lastName";
                      str "input[name='lastname']"]);
   (str "address1", [str "input[name='address1']"; str "input#addressLine1";
                     str "input[name='address1']"]);
   (str "address2", [str "input[name='address2']"; str "input#addressLine2"]);
   (str "city", [str "input[name='city']"]);
   (str "state", [str "input[name='state']"; str "select[name='state']"]);
   (str "zip", [str "input[name='postalCode']"; str "input[name='zip']"]);
   (str "phone", [str "input[name='phone']"]);
   (str "email", [str "input[name='email']"])].

(** One turn of the selector loops: the [try] block with its
    [except Exception: continue].  The result tells whether the turn ended
    the loop ([return True], or [success = True; break]). *)
Definition try_candidate (pg : page) (interaction : call * option exn)
    (sel : text) : Eff.t bool :=
  Exc.try_except
    (Eff.bind (Exc.perform (QuerySelector sel) (query pg sel)) (fun el =>
       if el : bool
       then Eff.bind (Eff.call (fst interaction) (snd interaction))
              (fun _ => Eff.ret true)
       else Eff.ret false))
    (fun _ => Eff.ret false).

(** [for sel in selectors: ...], up to the first turn that ends the loop. *)
Fixpoint first_hit (pg : page) (interaction : text -> call * option exn)
    (selectors : list text) : Eff.t bool :=
  match selectors with
  | [] => Eff.ret false
  | sel :: rest =>
      Eff.bind (try_candidate pg (interaction sel) sel) (fun hit =>
        if hit : bool then Eff.ret true else first_hit pg interaction rest)
  end.

Definition click (pg : page) (sel : text) : call * option exn :=
  (Act sel, act pg sel).

Definition attempt_add_to_cart (pg : page) : Eff.t bool :=
  first_hit pg (click pg) add_selectors.

Definition slash : N := 47.

(** [t.split(c)] for a one-character separator. *)
Fixpoint split_on (c : N) (t : text) : list text :=
  match t with
  | [] => [[]]
  | x :: r =>
      if x =? c then [] :: split_on c r
      else match split_on c r with
           | part :: parts => (x :: part) :: parts
           | [] => [[x]]
           end
  end.

(** [sep.join(parts)] *)
Fixpoint join (sep : text) (parts : list text) : text :=
  match parts with
  | [] => []
  | [part] => part
  | part :: rest => part ++ sep ++ join sep rest
  end.

(** ["/".join(self.page.url.split("/")[:3])] *)
Definition base_of (url : text) : text :=
  join [slash] (firstn 3 (split_on slash url)).

(** The second tier of [go_to_cart] and [proceed_to_checkout]: navigate to a
    path below the origin of the current page. *)
Definition direct (pg : page) (path : text) : Eff.t bool :=
  Exc.try_except
    (let target := base_of (current_url pg) ++ path in
     Eff.bind (Eff.call (Goto target) (navigate pg target))
       (fun _ => Eff.ret true))
    (fun _ => Eff.ret false).

Definition go_to_cart (pg : page) : Eff.t bool :=
  Eff.bind (first_hit pg (click pg) cart_selectors) (fun hit =>
    if hit : bool then Eff.ret true else direct pg (str "/cart")).

Definition proceed_to_checkout (pg : page) : Eff.t bool :=
  Eff.bind (first_hit pg (click pg) checkout_selectors) (fun hit =>
    if hit : bool then Eff.ret true else direct pg (str "/checkout")).

(** The outer loop of [fill_shipping] over the fields that remain. *)
Fixpoint fill_fields (pg : page) (shipping : gmap text text)
    (fields : list (text * list text)) (success : bool) : Eff.t bool :=
  match fields with
  | [] => Eff.ret success
  | (key, candidates) :: rest =>
      match shipping !! key with
      | Some ((_ :: _) as val) =>
          Eff.bind
            (first_hit pg (fun sel => (Fill sel val, fill pg sel val)) candidates)
            (fun hit => fill_fields pg shipping rest (success || hit))
      | _ => fill_fields pg shipping rest success
      end
  end.

Definition fill_shipping (pg : page) (shipping : gmap text text) : Eff.t bool :=
  fill_fields pg shipping mapping false.

(** The selectors a trace queried, in order. *)
Definition queried (tr : list call) : list text :=
  flat_map (fun c => match c with QuerySelector sel => [sel] | _ => [] end) tr.

(** A selector on which a loop turn ends the loop: the element exists and the
    interaction with it completes. *)
Definition hits (pg : page) (interaction : text -> call * option exn)
    (sel : text) : bool :=
  match query pg sel, snd (interaction sel) with
  | inr true, None => true
  | _, _ => false
  end.

(** A navigation that completes. *)
Definition completes (o : option exn) : bool :=
  match o with None => true | Some _ => false end.

(** A field of the mapping that the caller supplied and for which one of
    the candidate inputs exists and takes the value. *)
Definition field_filled (pg : page) (shipping : gmap text text)
    (field : text * list text) : bool :=
  match shipping !! fst field with
  | Some ((_ :: _) as val) =>
      existsb (hits pg (fun sel => (Fill sel val, fill pg sel val))) (snd field)
  | _ => false
  end.

End ActionExecutor.

(** ** [async with BrowserController(...) as bc]

    [__aenter__] starts Playwright, launches Chromium and opens a context;
    the [async with] statement then runs its body and, only if [__aenter__]
    returned, [__aexit__]. *)

Module BrowserSession.

Inductive enter_call := StartPlaywright | LaunchChromium | NewContext.

(** What each call of [__aenter__] does when it is made. *)
Record enter_world := mkEnterWorld {
  start : option exn;
  launch : option exn;
  new_context : option exn
}.

Definition aenter (w : enter_world)
  : Eff.t (C:=enter_call) (E:=exn) BrowserController.controller :=
  (Eff.call StartPlaywright (start w) ;;
   Eff.call LaunchChromium (launch w) ;;
   Eff.call NewContext (new_context w) ;;
   Eff.ret BrowserController.entered)%eff.

(** The calls of one [async with] statement whose body makes calls [B]. *)
Inductive call (B : Type) :=
  | Enter (c : enter_call)
  | Body (b : B)
  | Exit (c : BrowserController.call).
Arguments Enter {B} c.
Arguments Body {B} b.
Arguments Exit {B} c.

Definition lift {C C' A : Type} (f : C -> C')
    (m : Eff.t (C:=C) (E:=exn) A) : Eff.t (C:=C') (E:=exn) A :=
  (List.map f (fst m), snd m).

(** The statement: if [__aenter__] raises, nothing else happens; otherwise
    the body runs, then [__aexit__], which returns [None] and so lets an
    exception of the body pass, unless it raises itself. *)
Definition async_with {B A : Type} (ew : enter_world)
    (tw : BrowserController.teardown_world)
    (body : Eff.t (C:=B) (E:=exn) A) : Eff.t (C:=call B) (E:=exn) A :=
  match lift Enter (aenter ew) with
  | (tr, inl e) => (tr, inl e)
  | (tr, inr self) =>
      let '(tr_body, r_body) := lift Body body in
      let '(tr_exit, r_exit) := lift Exit (BrowserController.aexit self tw) in
      (tr ++ tr_body ++ tr_exit,
       match r_exit with inl e => inl e | inr _ => r_body end)
  end.

(** An [__aenter__] in which every call returns. *)
Definition enters (ew : enter_world) : bool :=
  match start ew, launch ew, new_context ew with
  | None, None, None => true
  | _, _, _ => false
  end.

End BrowserSession.

(** ** [StoreScraper]

    BeautifulSoup is taken as given: a loaded page is what its [select]
    calls return, each element reduced to what the scraper reads from it (the
    stripped text of a tag that exists, an attribute that may be missing). *)

Module StoreScraper.

(** [t.replace(c, by)] for a one-character [c]. *)
Definition replace_char (c : N) (by_ : text) (t : text) : text :=
  flat_map (fun x => if x =? c then by_ else [x]) t.

(** [t.rstrip(c)] for a one-character [c]. *)
Definition rstrip_char (c : N) (t : text) : text :=
  rev (snd (span (fun x => x =? c) (rev t))).

Definition space : N := 32.

(** A card of [soup.select("div[data-asin]")]. *)
Record AmazonCard := mkAmazonCard {
  asin : option text;             (* [card.get("data-asin")] *)
  a_title : option text;          (* text of ["h2 a span"], if the tag exists *)
  a_price : option text;          (* text of [".a-price .a-offscreen"] *)
  a_link : option (option text)   (* ["h2 a"], and its [href] *)
}.

(** An item of [soup.select(".s-item")] or a tile of Walmart's grid. *)
Record Item := mkItem {
  i_title : option text;
  i_price : option text;
  i_link : option (option text)
}.

(** An anchor of [soup.select("a")]. *)
Record Anchor := mkAnchor {
  g_href : option text;
  g_text : text;
  g_parent : option (list text)   (* texts of the elements under the parent *)
}.

Record Page := mkPage {
  amazon_cards : list AmazonCard;
  ebay_items : list Item;
  walmart_tiles : list Item;
  anchors : list Anchor
}.

(** [goto], the pause and [content()] for a url: raising, or the page. *)
Abbreviation web := (text -> exn + Page).

(** Adding [None] to a string. *)
Definition type_error : exn := Exn (str "TypeError").

(** [parse_price(price_text) if price_text else (None, None)] *)
Definition price_of (price_text : option text)
  : option PyFloat.float * option text :=
  match price_text with
  | Some ((_ :: _) as t) => PriceParser.parse_price (Some t)
  | _ => (None, None)
  end.

Definition amazon_root : text := str "https://www.amazon.com".
Definition walmart_root : text := str "https://www.walmart.com".

Definition amazon_url (query : text) : text :=
  str "https://www.amazon.com/s?k=" ++ replace_char space (str "+") query.
Definition ebay_url (query : text) : text :=
  str "https://www.ebay.com/sch/i.html?_nkw=" ++ replace_char space (str "+") query.
Definition walmart_url (query : text) : text :=
  str "https://www.walmart.com/search/?query="
  ++ replace_char space (str "%20") query.

(** The loop of [search_amazon]; [url] is the variable of that name, which
    the loop overwrites whenever a card has a link. *)
Fixpoint amazon_loop (url : text) (cards : list AmazonCard)
  : exn + list Product :=
  match cards with
  | [] => inr []
  | card :: rest =>
      match asin card with
      | None | Some [] => amazon_loop url rest
      | Some _ =>
          let title := match a_title card with
                       | Some t => t
                       | None => str "Unknown"
                       end in
          let '(price, currency) := price_of (a_price card) in
          match a_link card with
          | Some None => inl type_error
          | Some (Some href) =>
              let url := amazon_root ++ href in
              App.bind_sum (amazon_loop url rest) (fun products =>
                inr (mkProduct title price currency url (str "amazon") :: products))
          | None =>
              App.bind_sum (amazon_loop url rest) (fun products =>
                inr (mkProduct title price currency url (str "amazon") :: products))
          end
      end
  end.

Definition search_amazon (w : web) (query : text) : exn + list Product :=
  App.bind_sum (w (amazon_url query)) (fun page =>
    amazon_loop (amazon_url query) (amazon_cards page)).

(** The loop body of [search_ebay]. *)
Definition ebay_item (item : Item) : option Product :=
  let '(price, currency) := price_of (i_price item) in
  match i_link item, i_title item with
  | Some (Some ((_ :: _) as url)), Some ((_ :: _) as title) =>
      Some (mkProduct title price currency url (str "ebay"))
  | _, _ => None
  end.

Definition search_ebay (w : web) (query : text) : exn + list Product :=
  App.bind_sum (w (ebay_url query)) (fun page =>
    inr (omap ebay_item (ebay_items page))).

(** The loop of [search_walmart]: a link without [href] raises. *)
Fixpoint walmart_loop (tiles : list Item) : exn + list Product :=
  match tiles with
  | [] => inr []
  | tile :: rest =>
      match i_link tile with
      | Some None => inl type_error
      | link =>
          let '(price, currency) := price_of (i_price tile) in
          App.bind_sum (walmart_loop rest) (fun products =>
            inr match link, i_title tile with
                | Some (Some href), Some ((_ :: _) as title) =>
                    mkProduct title price currency (walmart_root ++ href)
                      (str "walmart") :: products
                | _, _ => products
                end)
      end
  end.

Definition search_walmart (w : web) (query : text) : exn + list Product :=
  App.bind_sum (w (walmart_url query)) (fun page =>
    walmart_loop (walmart_tiles page)).

Section Generic.
(** [str.lower] *)
Variable lower : text -> text.

(** [if price or ...]: a price that is present and not zero. *)
Definition price_truthy (price : option PyFloat.float) : bool :=
  match price with
  | Some x => PyFloat.truthy x
  | None => false
  end.

(** The body of the anchor loop of [search_generic]. *)
Definition generic_anchor (site_url : text) (a : Anchor) : option Product :=
  match g_href a, g_text a with
  | Some ((_ :: _) as href), (_ :: _) as text =>
      let combined := match g_parent a with
                      | Some texts => ActionExecutor.join (str " ") texts
                      | None => text
                      end in
      let '(price, currency) := PriceParser.parse_price (Some combined) in
      if price_truthy price || contains (str "add to cart") (lower combined)
      then Some (mkProduct text price currency
                   (if prefixb (str "http") href then href
                    else rstrip_char ActionExecutor.slash site_url ++ href)
                   (str "generic"))
      else None
  | _, _ => None
  end.

Definition try_urls (site_url query : text) : list text :=
  let root := rstrip_char ActionExecutor.slash site_url in
  [root ++ str "/search?q=" ++ replace_char space (str "+") query;
   root ++ str "/search/" ++ replace_char space (str "%20") query;
   root ++ str "/?s=" ++ replace_char space (str "+") query].

(** One turn of the url loop: the [try] block, which ends the loop when it
    has results, and its [except Exception: continue]. *)
Definition try_url (w : web) (site_url : text) (results : list Product)
    (u : text) : Eff.t (C:=text) (E:=exn) (list Product * bool) :=
  Exc.try_except
    (Eff.bind (Exc.perform u (w u)) (fun page =>
       let results := results ++ omap (generic_anchor site_url) (anchors page) in
       Eff.ret (results, match results with [] => false | _ :: _ => true end)))
    (fun _ => Eff.ret (results, false)).

Fixpoint generic_loop (w : web) (site_url : text) (urls : list text)
    (results : list Product) : Eff.t (C:=text) (E:=exn) (list Product) :=
  match urls with
  | [] => Eff.ret results
  | u :: rest =>
      Eff.bind (try_url w site_url results u) (fun '(results, done) =>
        if done : bool then Eff.ret results
        else generic_loop w site_url rest results)
  end.

(** [search_generic]; the calls are the urls visited. *)
Definition search_generic (w : web) (site_url query : text)
  : Eff.t (C:=text) (E:=exn) (list Product) :=
  generic_loop w site_url (try_urls site_url query) [].

(** The products that the anchors of the page at [u] give: none when the
    page does not load. *)
Definition found (w : web) (site_url u : text) : list Product :=
  match w u with
  | inr page => omap (generic_anchor site_url) (anchors page)
  | inl _ => []
  end.

(** The four scrapers on one web, as [plan_and_search] uses them. *)
Definition scraper_of (w : web) : App.Scraper :=
  App.mkScraper (search_amazon w) (search_ebay w) (search_walmart w)
    (fun site_url query => Eff.outcome (search_generic w site_url query)).
End Generic.

(** A card that [search_amazon] does not skip. *)
Definition has_asin (card : AmazonCard) : bool :=
  match asin card with
  | Some (_ :: _) => true
  | _ => false
  end.

(** A link tag without [href]. *)
Definition broken_link (link : option (option text)) : bool :=
  match link with
  | Some None => true
  | _ => false
  end.

(** What the scrapers guarantee about a product. *)
Definition ebay_ok (p : Product) : Prop :=
  title p <> [] /\ url p <> [] /\ store p = str "ebay"
  /\ ProductSelector.price_is_number p.

Definition walmart_ok (p : Product) : Prop :=
  title p <> [] /\ prefixb walmart_root (url p) = true
  /\ store p = str "walmart" /\ ProductSelector.price_is_number p.

Definition amazon_ok (p : Product) : Prop :=
  prefixb amazon_root (url p) = true /\ store p = str "amazon"
  /\ ProductSelector.price_is_number p.

Definition generic_ok (site_url : text) (p : Product) : Prop :=
  title p <> [] /\ store p = str "generic"
  /\ (prefixb (str "http") (url p) = true
      \/ prefixb (rstrip_char ActionExecutor.slash site_url) (url p) = true)
  /\ ProductSelector.price_is_number p.

(** What every scraped product has: a price that is a number or absent, and
    the name of the scraper that built it. *)
Definition scraped_ok (p : Product) : Prop :=
  ProductSelector.price_is_number p
  /\ In (store p) [str "amazon"; str "ebay"; str "walmart"; str "generic"].

End StoreScraper.

(** ** Shapes of results *)

Module Shape.

(** A float that is [0.0], a positive number or positive infinity. *)
Definition nonneg_number (x : PyFloat.float) : bool :=
  match x with
  | S754_zero false | S754_finite false _ _ | S754_infinity false => true
  | _ => false
  end.

(** A one-character string holding a currency symbol. *)
Definition currency_symbol (c : text) : bool :=
  match c with
  | [x] => PriceParser.is_currency x
  | _ => false
  end.

Definition has_digit (t : text) : bool := existsb is_digit t.

(** The text has an opening brace with a closing brace somewhere behind it. *)
Definition brace_pair (t : text) : bool :=
  match snd (span (fun c => negb (c =? LLMPlanner.lbrace)) t) with
  | [] => false
  | _ :: r => existsb (fun c => c =? LLMPlanner.rbrace) r
  end.

End Shape.

(** ** Sequences of requests

    [choose] and [checkout] requests served one after the other on the
    shared table. *)

Module Workflow.

Inductive request :=
  | Choose (session_id : text) (body : ChooseRequest)
      (w : Product -> App.ChooseWorld)
  | Checkout (session_id : text) (body : CheckoutRequest)
      (w : Product -> App.CheckoutWorld).

(** The table after one request. *)
Definition handle (S : App.sessions) (q : request) : App.sessions :=
  match q with
  | Choose sid body w => snd (App.choose S sid body w)
  | Checkout sid body w => snd (App.checkout S sid body w)
  end.

Definition serve (S : App.sessions) (qs : list request) : App.sessions :=
  fold_left handle qs S.

(** The same search, with another outcome of the browser teardown. *)
Definition with_exit (w : App.SearchWorld) (exit : option exn)
  : App.SearchWorld :=
  App.mkSearchWorld (App.oracle_text w) (App.browser_enter w) (App.scraper w)
    (App.urandom_token w) exit.

End Workflow.

(** ** More sample data *)

Module MoreSample.

(** A second search, under another token, on the sample table. *)
Definition second_world : App.SearchWorld :=
  App.mkSearchWorld (inr Sample.chatter) None (App.scraper Sample.shelf_world)
    Sample.unknown_sid None.

(** A browser whose page vanishes after the screenshot of [choose]. *)
Definition flaky_choose (p : Product) : App.ChooseWorld :=
  App.mkChooseWorld (inr (false, url p, str "iVBORw0KGgo=")) (inl Sample.boom)
    None.

(** The sample search again, with a teardown that raises. *)
Definition crashing_exit : App.SearchWorld :=
  Workflow.with_exit Sample.shelf_world (Some Sample.boom).

(** Three requests on the sample session. *)
Definition three_requests : list Workflow.request :=
  [Workflow.Checkout Sample.sid (mkCheckoutRequest None) Sample.smooth_checkout;
   Workflow.Choose Sample.sid (Sample.by_index 2) Sample.smooth_choose;
   Workflow.Choose Sample.sid (Sample.by_index 9) Sample.smooth_choose].

(** The third summary of the sample response. *)
Definition third_summary : ProductSummary :=
  nth 2 (r_products Sample.shelf_response)
    (mkSummary 0 [] None None [] []).

(** The sample table after the first product was chosen. *)
Definition chosen_table : App.sessions :=
  snd (App.choose Sample.table Sample.sid (Sample.by_index 0)
         Sample.smooth_choose).

Definition wireless_only : Constraints := mkConstraints None [str "Wireless"].

(** A web that answers every url with one page: two Amazon cards, one eBay
    item, one Walmart tile and one anchor. *)
Definition shop_page : StoreScraper.Page :=
  StoreScraper.mkPage
    [StoreScraper.mkAmazonCard (Some (str "B01")) (Some (str "Wireless Mouse A"))
       (Some (str "$25.00")) (Some (Some (str "/dp/B01")));
     StoreScraper.mkAmazonCard (Some (str "B02")) (Some (str "Wireless Mouse B"))
       None None]
    [StoreScraper.mkItem (Some (str "Wireless Mouse E")) (Some (str "$1,012.50"))
       (Some (Some (str "https://www.ebay.com/itm/1")))]
    [StoreScraper.mkItem (Some (str "Wireless Mouse W")) (Some (str "$9.99"))
       (Some (Some (str "/ip/7")))]
    [StoreScraper.mkAnchor (Some (str "/p/3")) (str "Wireless Mouse G")
       (Some [str "Wireless Mouse G"; str "$14"; str "Add to cart"])].

Definition shop_web : StoreScraper.web := fun _ => inr shop_page.

Definition shop_world : App.SearchWorld :=
  App.mkSearchWorld (inr Sample.chatter) None
    (StoreScraper.scraper_of ascii_lower shop_web) Sample.sid None.

Definition shop_outcome : (error + PlanResponse) * App.sessions :=
  App.plan_and_search ascii_lower Sample.rejects ∅ Sample.mouse_search shop_world.
Definition shop_response : PlanResponse :=
  match fst shop_outcome with
  | inr r => r
  | inl _ => mkPlanResponse [] Sample.mouse_plan []
  end.

End MoreSample.

(** * Properties *)

(** ** The embedding on concrete inputs

    Values that CPython 3 computes for the same inputs. *)

Module Checks.

Example parse_price_free_shipping :
  PriceParser.parse_price (Some (str "Free shipping")) = (None, None).
Proof. reflexivity. Qed.

Example parse_price_absent : PriceParser.parse_price None = (None, None).
Proof. reflexivity. Qed.

Example parse_price_first_of_two :
  PriceParser.parse_price (Some (str "was $30 now $25"))
  = (Some (S754_finite false 8444249301319680 (-48)), Some (str "$")).
Proof. vm_compute. reflexivity. Qed.

Example parse_price_symbol_then_text :
  PriceParser.parse_price (Some (str "$ x 5"))
  = (Some (S754_finite false 5629499534213120 (-50)), None).
Proof. vm_compute. reflexivity. Qed.

Example parse_price_three_fraction_digits :
  PriceParser.parse_price (Some (pound :: str " 12.345"))
  = (Some (S754_finite false 6946802425218990 (-49)), Some [pound]).
Proof. vm_compute. reflexivity. Qed.

Example float_of_tenth :
  PyFloat.of_decimal (str "0.1") = S754_finite false 7205759403792794 (-56).
Proof. vm_compute. reflexivity. Qed.

Example float_of_tie_rounds_to_even :
  PyFloat.of_decimal (str "9007199254740993") = S754_finite false 4503599627370496 (1).
Proof. vm_compute. reflexivity. Qed.

Example search_under_needs_lower_case :
  LLMPlanner.search_under (str "Under $20") = None
  /\ LLMPlanner.search_under (str "thunder   $ 5") = None
  /\ LLMPlanner.search_under (str "plunder under$ under 9") = Some (str "9").
Proof. repeat split. Qed.

Example json_text_outermost_braces :
  LLMPlanner.json_text (str "  x { y } z } w ") = str "{ y } z }".
Proof. reflexivity. Qed.

Example fallback_store_last_match :
  plan_store (LLMPlanner.fallback ascii_lower (str "Amazon or eBay mouse"))
  = Some (str "ebay").
Proof. vm_compute. reflexivity. Qed.

Example rank_descending_keeps_ties_in_order :
  ProductSelector.rank ascii_lower false Sample.catalogue (mkConstraints None [])
  = [Sample.mouse_a; Sample.mouse_b; Sample.mouse_d; Sample.mouse_c].
Proof. vm_compute. reflexivity. Qed.

End Checks.

(** ** The order of floats *)

Module PyFloatFacts.
Import PyFloat.

Lemma ltb_ord (x y : float) :
  is_nan x = false -> is_nan y = false ->
  (ltb x y = true <-> lex_lt (ord x) (ord y)).
Proof.
  intros Hx Hy. unfold ltb, SFltb, SFcompare.
  destruct x as [sx|sx| |sx mx ex], y as [sy|sy| |sy my ey];
    try discriminate; try destruct sx; try destruct sy; cbn;
    try (split; [discriminate | lia]);
    try (split; [intros _; lia | reflexivity]).
  - destruct (Z.compare_spec ex ey) as [E|E|E]; subst.
    + change (Pos.compare_cont Eq mx my) with (Pos.compare mx my).
      destruct (Pos.compare_spec mx my) as [E'|E'|E']; cbn;
        (split; [try discriminate; intros _ | try reflexivity]); lia.
    + split; [discriminate | lia].
    + split; [intros _; lia | reflexivity].
  - destruct (Z.compare_spec ex ey) as [E|E|E]; subst.
    + change (Pos.compare_cont Eq mx my) with (Pos.compare mx my).
      destruct (Pos.compare_spec mx my) as [E'|E'|E']; cbn;
        (split; [try discriminate; intros _ | try reflexivity]); lia.
    + split; [intros _; lia | reflexivity].
    + split; [discriminate | lia].
Qed.

Lemma ltb_false_ord (x y : float) :
  is_nan x = false -> is_nan y = false ->
  (ltb x y = false <-> ~ lex_lt (ord x) (ord y)).
Proof.
  intros Hx Hy. rewrite <- (ltb_ord x y Hx Hy).
  destruct (ltb x y); split; congruence.
Qed.

Lemma ltb_asym (x y : float) :
  is_nan x = false -> is_nan y = false ->
  ltb x y = true -> ltb y x = false.
Proof.
  intros Hx Hy H. apply (ltb_ord x y Hx Hy) in H.
  apply (ltb_false_ord y x Hy Hx).
  destruct (ord x) as [[a1 a2] a3], (ord y) as [[b1 b2] b3]. cbn in *. lia.
Qed.

Lemma ltb_negtrans (x y z : float) :
  is_nan x = false -> is_nan y = false -> is_nan z = false ->
  ltb x y = false -> ltb y z = false -> ltb x z = false.
Proof.
  intros Hx Hy Hz H1 H2.
  apply (ltb_false_ord x y Hx Hy) in H1. apply (ltb_false_ord y z Hy Hz) in H2.
  apply (ltb_false_ord x z Hx Hz).
  destruct (ord x) as [[a1 a2] a3], (ord y) as [[b1 b2] b3],
           (ord z) as [[c1 c2] c3]. cbn in *. lia.
Qed.


End PyFloatFacts.

(** ** The sort *)

Module PySortFacts.
Import PySort.

Section Facts.
Context {A K : Type}.
Variable ltb : K -> K -> bool.
Variable key : A -> K.

Local Abbreviation insert := (PySort.insert ltb key).
Local Abbreviation sort_forward := (PySort.sort_forward ltb key).
Local Abbreviation sort := (PySort.sort ltb key).

Lemma insert_perm (x : A) (l : list A) : Permutation (insert x l) (x :: l).
  Proof.
    induction l as [|y l IH]; cbn; [reflexivity|].
    destruct (ltb (key x) (key y)); [reflexivity|].
    rewrite IH. apply perm_swap.
  Qed.

Lemma fold_insert_perm (l acc : list A) :
    Permutation (fold_left (fun acc x => insert x acc) l acc) (acc ++ l).
  Proof.
    revert acc. induction l as [|x l IH]; intros acc; cbn.
    - rewrite app_nil_r. reflexivity.
    - rewrite IH, insert_perm. apply Permutation_middle.
  Qed.

Lemma sort_forward_perm (l : list A) : Permutation (sort_forward l) l.
  Proof. apply (fold_insert_perm l []). Qed.

Lemma sort_perm (reverse : bool) (l : list A) : Permutation (sort reverse l) l.
  Proof.
    unfold PySort.sort. destruct reverse; [|apply sort_forward_perm].
    rewrite <- Permutation_rev, sort_forward_perm. symmetry. apply Permutation_rev.
  Qed.

Lemma sort_length (reverse : bool) (l : list A) :
    length (sort reverse l) = length l.
  Proof. apply Permutation_length, sort_perm. Qed.

(** From here on the keys in play are ordered by [ltb]. *)
Variable ok : K -> Prop.
Hypothesis ltb_asym :
    forall a b, ok a -> ok b -> ltb a b = true -> ltb b a = false.
Hypothesis ltb_negtrans :
    forall a b c, ok a -> ok b -> ok c ->
      ltb a b = false -> ltb b c = false -> ltb a c = false.

Local Abbreviation before := (PySort.before ltb key).
Local Abbreviation same_key := (PySort.same_key ltb key).

Lemma lt_before_lt (x y z : A) :
    ok (key x) -> ok (key y) -> ok (key z) ->
    ltb (key x) (key y) = true -> before y z -> ltb (key x) (key z) = true.
  Proof.
    unfold PySort.before. intros Hx Hy Hz Hxy Hyz.
    destruct (ltb (key x) (key z)) eqn:E; [reflexivity|].
    rewrite (ltb_negtrans _ _ _ Hx Hz Hy E Hyz) in Hxy. discriminate.
  Qed.

Lemma insert_sorted (x : A) (l : list A) :
    ok (key x) -> Forall (fun y => ok (key y)) l ->
    StronglySorted before l -> StronglySorted before (insert x l).
  Proof.
    intros Hx Hl Hs. induction Hs as [|y l Hs IH Hy]; cbn.
    - repeat constructor.
    - apply Forall_cons_iff in Hl as [Hoy Hl].
      destruct (ltb (key x) (key y)) eqn:E.
      + constructor; [constructor; assumption|].
        constructor.
        * apply ltb_asym; assumption.
        * rewrite List.Forall_forall in *. intros z Hz.
          apply ltb_asym; auto.
          apply (lt_before_lt x y z); auto.
      + constructor; [auto|].
        rewrite List.Forall_forall in *. intros z Hz.
        apply (Permutation_in _ (insert_perm x l)) in Hz.
        destruct Hz as [<-|Hz]; [exact E | auto].
  Qed.

Lemma fold_insert_sorted (l acc : list A) :
    Forall (fun y => ok (key y)) l -> Forall (fun y => ok (key y)) acc ->
    StronglySorted before acc ->
    StronglySorted before (fold_left (fun acc x => insert x acc) l acc).
  Proof.
    revert acc. induction l as [|x l IH]; intros acc Hl Hacc Hs; cbn; [exact Hs|].
    apply Forall_cons_iff in Hl as [Hx Hl].
    apply IH; [assumption| |apply insert_sorted; assumption].
    rewrite List.Forall_forall in *. intros z Hz.
    apply (Permutation_in _ (insert_perm x acc)) in Hz.
    destruct Hz as [<-|Hz]; auto.
  Qed.

Lemma sort_forward_sorted (l : list A) :
    Forall (fun y => ok (key y)) l -> StronglySorted before (sort_forward l).
  Proof. intros Hl. apply fold_insert_sorted; [assumption|constructor|constructor]. Qed.

(** Inserting [x] behind everything that is not greater keeps the
    elements of every key class in their order, [x] last in its own. *)
Lemma insert_stable (k : K) (x : A) (l : list A) :
    ok k -> ok (key x) -> Forall (fun y => ok (key y)) l ->
    StronglySorted before l ->
    List.filter (same_key k) (insert x l)
    = List.filter (same_key k) l ++ (if same_key k x then [x] else []).
  Proof.
    intros Hk Hx Hl Hs. induction Hs as [|y l Hs IH Hy]; cbn.
    - destruct (same_key k x); reflexivity.
    - apply Forall_cons_iff in Hl as [Hoy Hl].
      destruct (ltb (key x) (key y)) eqn:E.
      + cbn [List.filter].
        destruct (same_key k x) eqn:Ex; [|rewrite app_nil_r; reflexivity].
        (* everything from [y] on is greater than [k] *)
        assert (Hgt : forall z, In z (y :: l) -> same_key k z = false).
        { intros z Hz. unfold PySort.same_key in *.
          apply andb_prop in Ex as [E1 E2].
          apply negb_true_iff in E1, E2.
          assert (Hoz : ok (key z)).
          { destruct Hz as [<-|Hz]; [assumption|].
            rewrite List.Forall_forall in Hl. auto. }
          assert (Hxz : ltb (key x) (key z) = true).
          { destruct Hz as [<-|Hz]; [assumption|].
            rewrite List.Forall_forall in Hy.
            apply (lt_before_lt x y z); auto. }
          destruct (ltb k (key z)) eqn:Ekz; [reflexivity|].
          rewrite (ltb_negtrans _ _ _ Hx Hk Hoz E2 Ekz) in Hxz. discriminate. }
        assert (Hnil : List.filter (same_key k) (y :: l) = []).
        { generalize Hgt. generalize (y :: l). intros l0 H0.
          induction l0 as [|z l0 IH0]; cbn; [reflexivity|].
          rewrite (H0 z (or_introl eq_refl)). apply IH0.
          intros z' Hz'. apply H0. right. assumption. }
        cbn [List.filter] in Hnil. rewrite Hnil. reflexivity.
      + cbn [List.filter]. rewrite (IH Hl).
        destruct (same_key k y); reflexivity.
  Qed.

Lemma fold_insert_stable (k : K) (l acc : list A) :
    ok k -> Forall (fun y => ok (key y)) l -> Forall (fun y => ok (key y)) acc ->
    StronglySorted before acc ->
    List.filter (same_key k) (fold_left (fun acc x => insert x acc) l acc)
    = List.filter (same_key k) acc ++ List.filter (same_key k) l.
  Proof.
    intros Hk. revert acc.
    induction l as [|x l IH]; intros acc Hl Hacc Hs; cbn [fold_left List.filter].
    - rewrite app_nil_r. reflexivity.
    - apply Forall_cons_iff in Hl as [Hx Hl].
      rewrite IH; [|assumption| |apply insert_sorted; assumption].
      + rewrite (insert_stable k x acc Hk Hx Hacc Hs), <- app_assoc.
        destruct (same_key k x); reflexivity.
      + rewrite List.Forall_forall in *. intros z Hz.
        apply (Permutation_in _ (insert_perm x acc)) in Hz.
        destruct Hz as [<-|Hz]; auto.
  Qed.

(** Stability of the forward sort: within one key class the input order
    is the output order. *)
Lemma sort_forward_stable (k : K) (l : list A) :
    ok k -> Forall (fun y => ok (key y)) l ->
    List.filter (same_key k) (sort_forward l) = List.filter (same_key k) l.
  Proof.
    intros Hk Hl. unfold PySort.sort_forward.
    rewrite (fold_insert_stable k l [] Hk Hl); [reflexivity|constructor|constructor].
  Qed.
End Facts.

End PySortFacts.

(** ** Prices that [parse_price] produces are numbers *)

Module PriceIsNumber.

Lemma iter_pos_invariant {A : Type} (f : A -> A) (Inv : A -> Prop) :
  (forall x, Inv x -> Inv (f x)) ->
  forall p x, Inv x -> Inv (SpecFloat.iter_pos f p x).
Proof.
  intros Hf. induction p as [p IH|p IH|]; intros x Hx; cbn; auto.
Qed.

Lemma shr_1_nonneg (mrs : shr_record) :
  (0 <= shr_m mrs)%Z -> (0 <= shr_m (shr_1 mrs))%Z.
Proof.
  destruct mrs as [m r s]. cbn.
  destruct m as [|[p|p|]|[p|p|]]; cbn; lia.
Qed.

Lemma shr_fexp_nonneg (m e : Z) (l : location) :
  (0 <= m)%Z ->
  (0 <= shr_m (fst (shr_fexp PyFloat.prec PyFloat.emax m e l)))%Z.
Proof.
  intros Hm. unfold shr_fexp, shr.
  assert (H0 : (0 <= shr_m (shr_record_of_loc m l))%Z).
  { destruct l as [|[]]; cbn; exact Hm. }
  destruct (_ - e)%Z; cbn; try exact H0.
  apply (iter_pos_invariant shr_1 (fun r => (0 <= shr_m r)%Z) shr_1_nonneg).
  exact H0.
Qed.

Lemma round_nearest_even_nonneg (m : Z) (l : location) :
  (0 <= m)%Z -> (0 <= round_nearest_even m l)%Z.
Proof.
  intros Hm. unfold round_nearest_even.
  destruct l as [|[]]; try destruct (Z.even m); lia.
Qed.

Lemma binary_round_aux_number (sx : bool) (mx ex : Z) (lx : location) :
  (0 <= mx)%Z ->
  PyFloat.is_nan (binary_round_aux PyFloat.prec PyFloat.emax sx mx ex lx) = false.
Proof.
  intros Hm. unfold binary_round_aux.
  pose proof (shr_fexp_nonneg mx ex lx Hm) as H1.
  destruct (shr_fexp PyFloat.prec PyFloat.emax mx ex lx) as [mrs' e']. cbn in H1.
  pose proof (shr_fexp_nonneg _ e' loc_Exact
                (round_nearest_even_nonneg _ (loc_of_shr_record mrs') H1)) as H2.
  destruct (shr_fexp PyFloat.prec PyFloat.emax _ e' loc_Exact) as [mrs'' e''].
  cbn in H2. destruct (shr_m mrs''); [reflexivity| |lia].
  destruct (_ <=? _)%Z; reflexivity.
Qed.

Lemma of_ratio_number (num den : Z) : PyFloat.is_nan (PyFloat.of_ratio num den) = false.
Proof.
  unfold PyFloat.of_ratio.
  destruct num as [|n|n]; try reflexivity.
  destruct den as [|d|d]; try reflexivity.
  unfold SFdiv, SFdiv_core_binary.
  set (m' := match _ with Z0 => _ | Zpos _ => _ | Zneg _ => _ end).
  assert (Hm' : (0 <= m')%Z).
  { subst m'. destruct (_ - _)%Z; try lia. apply Z.shiftl_nonneg. lia. }
  pose proof (Z_div_mod m' (Zpos d) eq_refl) as Hdiv.
  destruct (Z.div_eucl m' (Zpos d)) as [q r].
  apply binary_round_aux_number. nia.
Qed.

(** No price that [parse_price] returns is a NaN. *)
Lemma parse_price_number (txt : option text) :
  fst (PriceParser.parse_price txt) <> Some S754_nan.
Proof.
  unfold PriceParser.parse_price.
  destruct txt as [[|c s]|]; try discriminate.
  destruct (PriceParser.re_search _) as [[cur num]|]; [|discriminate].
  cbn. intros [= H]. unfold PyFloat.of_decimal in H.
  destruct (span is_digit num) as [ip rest].
  pose proof (of_ratio_number
                (PyFloat.digits_value
                   (ip ++ match rest with
                          | [] => []
                          | c0 :: r => if c0 =? dot then fst (span is_digit r) else []
                          end))
                (10 ^ Z.of_nat
                        (length match rest with
                                | [] => []
                                | c0 :: r =>
                                    if c0 =? dot then fst (span is_digit r) else []
                                end))) as Hn.
  rewrite H in Hn. discriminate.
Qed.

End PriceIsNumber.

(** ** The sort is determined by being sorted and stable

    Whatever algorithm [list.sort] runs, a result that is in ascending order
    of the keys and keeps every key class in input order is the list that
    [PySort.sort_forward] computes. *)

Module PySortUnique.
Section Unique.
Context {A K : Type}.
Variable ltb : K -> K -> bool.
Variable key : A -> K.
Variable ok : K -> Prop.
Hypothesis ltb_asym :
  forall a b, ok a -> ok b -> ltb a b = true -> ltb b a = false.
Hypothesis ltb_negtrans :
  forall a b c, ok a -> ok b -> ok c ->
    ltb a b = false -> ltb b c = false -> ltb a c = false.

Local Abbreviation before := (PySort.before ltb key).
Local Abbreviation same_key := (PySort.same_key ltb key).
Local Abbreviation all_ok := (Forall (fun y => ok (key y))).

Lemma ltb_irrefl (a : K) : ok a -> ltb a a = false.
Proof.
  intros Ha. destruct (ltb a a) eqn:E; [|reflexivity].
  rewrite (ltb_asym a a Ha Ha E) in E. discriminate.
Qed.

Lemma same_key_refl (x : A) : ok (key x) -> same_key (key x) x = true.
Proof.
  intros Hx. unfold PySort.same_key. rewrite (ltb_irrefl _ Hx). reflexivity.
Qed.

Lemma head_not_above (x y : A) (l : list A) :
  ok (key x) -> StronglySorted before (y :: l) -> In x (y :: l) ->
  ltb (key x) (key y) = false.
Proof.
  intros Hx Hs [->|Hin]; [apply ltb_irrefl; exact Hx|].
  apply StronglySorted_inv in Hs as [_ Hall].
  rewrite List.Forall_forall in Hall. exact (Hall x Hin).
Qed.

(** The class of the head's key starts with the head. *)
Lemma class_of_head (x : A) (l : list A) :
  ok (key x) ->
  List.filter (same_key (key x)) (x :: l)
  = x :: List.filter (same_key (key x)) l.
Proof. intros Hx. cbn. rewrite (same_key_refl x Hx). reflexivity. Qed.

Lemma heads_equal (x y : A) (l1 l2 : list A) :
  all_ok (x :: l1) -> all_ok (y :: l2) ->
  StronglySorted before (x :: l1) -> StronglySorted before (y :: l2) ->
  (forall k, ok k ->
     List.filter (same_key k) (x :: l1) = List.filter (same_key k) (y :: l2)) ->
  x = y.
Proof.
  intros Ho1 Ho2 Hs1 Hs2 Hf.
  assert (Hx : ok (key x)) by (apply Forall_cons_iff in Ho1 as [H _]; exact H).
  assert (Hy : ok (key y)) by (apply Forall_cons_iff in Ho2 as [H _]; exact H).
  pose proof (Hf (key x) Hx) as Fx. rewrite (class_of_head x l1 Hx) in Fx.
  pose proof (Hf (key y) Hy) as Fy. rewrite (class_of_head y l2 Hy) in Fy.
  destruct (same_key (key x) y) eqn:Exy.
  { cbn in Fx. rewrite Exy in Fx. injection Fx as Fx _. exact Fx. }
  destruct (same_key (key y) x) eqn:Eyx.
  { cbn in Fy. rewrite Eyx in Fy. injection Fy as Fy _. exact Fy. }
  exfalso.
  assert (Hxin : In x (y :: l2)).
  { assert (H : In x (List.filter (same_key (key x)) (y :: l2)))
      by (rewrite <- Fx; left; reflexivity).
    apply List.filter_In in H as [H _]. exact H. }
  assert (Hyin : In y (x :: l1)).
  { assert (H : In y (List.filter (same_key (key y)) (x :: l1)))
      by (rewrite Fy; left; reflexivity).
    apply List.filter_In in H as [H _]. exact H. }
  pose proof (head_not_above x y l2 Hx Hs2 Hxin) as L1.
  pose proof (head_not_above y x l1 Hy Hs1 Hyin) as L2.
  unfold PySort.same_key in Exy. rewrite L1, L2 in Exy. discriminate.
Qed.

Lemma sorted_stable_unique (l1 l2 : list A) :
  all_ok l1 -> all_ok l2 ->
  StronglySorted before l1 -> StronglySorted before l2 ->
  (forall k, ok k ->
     List.filter (same_key k) l1 = List.filter (same_key k) l2) ->
  l1 = l2.
Proof.
  revert l2. induction l1 as [|x l1 IH]; intros [|y l2] Ho1 Ho2 Hs1 Hs2 Hf.
  - reflexivity.
  - apply Forall_cons_iff in Ho2 as [Hy _].
    specialize (Hf (key y) Hy). rewrite (class_of_head y l2 Hy) in Hf.
    discriminate.
  - apply Forall_cons_iff in Ho1 as [Hx _].
    specialize (Hf (key x) Hx). rewrite (class_of_head x l1 Hx) in Hf.
    discriminate.
  - pose proof (heads_equal x y l1 l2 Ho1 Ho2 Hs1 Hs2 Hf) as <-.
    f_equal.
    apply Forall_cons_iff in Ho1 as [_ Ho1]. apply Forall_cons_iff in Ho2 as [_ Ho2].
    apply StronglySorted_inv in Hs1 as [Hs1 _].
    apply StronglySorted_inv in Hs2 as [Hs2 _].
    apply (IH l2 Ho1 Ho2 Hs1 Hs2).
    intros k Hk. specialize (Hf k Hk). cbn in Hf.
    destruct (same_key k x); [injection Hf as Hf|]; exact Hf.
Qed.

(** Every sorted, stable arrangement of [l] is [sort_forward l]. *)
Lemma sort_forward_unique (l l' : list A) :
  all_ok l -> all_ok l' ->
  StronglySorted before l' ->
  (forall k, ok k ->
     List.filter (same_key k) l' = List.filter (same_key k) l) ->
  l' = PySort.sort_forward ltb key l.
Proof.
  intros Ho Ho' Hs Hf.
  apply sorted_stable_unique; try assumption.
  - rewrite List.Forall_forall in *. intros z Hz. apply Ho.
    apply (Permutation_in _ (PySortFacts.sort_forward_perm ltb key l)). exact Hz.
  - apply (PySortFacts.sort_forward_sorted ltb key ok ltb_asym ltb_negtrans l Ho).
  - intros k Hk. rewrite Hf by exact Hk. symmetry.
    apply (PySortFacts.sort_forward_stable ltb key ok ltb_asym ltb_negtrans k l Hk Ho).
Qed.
End Unique.
End PySortUnique.

(** ** [ProductSelector.rank] *)

Module RankFacts.
Import ProductSelector.

Section Facts.
Variable lower : text -> text.

Lemma rank_perm (prefer : bool) (products : list Product) (c : Constraints) :
    Permutation (rank lower prefer products c) (filtered_or_all lower products c).
  Proof. apply PySortFacts.sort_perm. Qed.

Lemma filtered_or_all_fallback (products : list Product) (c : Constraints) :
    filter_pass lower products c = [] ->
    filtered_or_all lower products c = products.
  Proof. unfold filtered_or_all. intros ->. reflexivity. Qed.

Lemma filtered_or_all_filtered (products : list Product) (c : Constraints) :
    filter_pass lower products c <> [] ->
    filtered_or_all lower products c = filter_pass lower products c.
  Proof.
    unfold filtered_or_all. destruct (filter_pass lower products c); congruence.
  Qed.

Lemma filtered_or_all_nonempty (products : list Product) (c : Constraints) :
    products <> [] -> filtered_or_all lower products c <> [].
  Proof.
    unfold filtered_or_all. intros H.
    destruct (filter_pass lower products c); [assumption|discriminate].
  Qed.

Lemma filtered_or_all_sublist (products : list Product) (c : Constraints) :
    sublist (filtered_or_all lower products c) products.
  Proof.
    unfold filtered_or_all.
    assert (H : sublist (filter_pass lower products c) products).
    { unfold filter_pass. induction products as [|p l IH]; cbn; [constructor|].
      destruct (keep lower c p); [apply sublist_skip|apply sublist_cons]; exact IH. }
    destruct (filter_pass lower products c); [reflexivity|exact H].
  Qed.


Lemma score_is_number (p : Product) :
    price_is_number p -> PyFloat.is_nan (score p) = false.
  Proof.
    unfold price_is_number, score. destruct (price p) as [[]|]; cbn; congruence.
  Qed.
End Facts.

End RankFacts.

(** C1. A non-empty product list never ranks to an empty list, whatever the
    constraints and the sort direction: when the filter pass leaves nothing,
    [rank] sorts the whole original list instead. *)
Theorem rank_never_empty (lower : text -> text) (prefer_low_price : bool)
    (products : list Product) (c : Constraints) :
  products <> [] ->
  ProductSelector.rank lower prefer_low_price products c <> []
  /\ (ProductSelector.filter_pass lower products c = [] ->
      ProductSelector.rank lower prefer_low_price products c
      = PySort.sort PyFloat.ltb ProductSelector.score (negb prefer_low_price)
          products).
Proof.
  intros Hne. split.
  - intros Hnil.
    apply (RankFacts.filtered_or_all_nonempty lower products c Hne).
    apply Permutation_nil. rewrite <- Hnil. apply RankFacts.rank_perm.
  - intros Hf. unfold ProductSelector.rank.
    rewrite (RankFacts.filtered_or_all_fallback lower products c Hf). reflexivity.
Qed.

Lemma rank_never_empty_witness :
  Sample.catalogue <> []
  /\ ProductSelector.filter_pass ascii_lower Sample.catalogue Sample.keyboard_under_five = []
  /\ ProductSelector.rank ascii_lower true Sample.catalogue Sample.keyboard_under_five
     = [Sample.mouse_c; Sample.mouse_b; Sample.mouse_d; Sample.mouse_a].
Proof.
  assert (Hne : Sample.catalogue <> []) by discriminate.
  assert (Hf : ProductSelector.filter_pass ascii_lower Sample.catalogue
                 Sample.keyboard_under_five = []) by (vm_compute; reflexivity).
  split; [exact Hne|]. split; [exact Hf|].
  rewrite (proj2 (rank_never_empty ascii_lower true Sample.catalogue
                    Sample.keyboard_under_five Hne) Hf).
  vm_compute. reflexivity.
Defined.




Lemma sorted_front_before {A : Type} (R : A -> A -> Prop)
    (front back : list A) (u : A) :
  StronglySorted R (front ++ u :: back) -> Forall (fun q => R q u) front.
Proof.
  induction front as [|q front IH]; cbn; intros Hs; [constructor|].
  apply StronglySorted_inv in Hs as [Hs Hq]. constructor.
  - rewrite List.Forall_forall in Hq. apply Hq.
    apply in_or_app. right. left. reflexivity.
  - apply IH. exact Hs.
Qed.

(** C8. In the default ascending mode [rank] sorts the surviving products
    stably by effective price, an absent price counting as zero: the output
    is in ascending order of [score]; the products of one price class
    (unpriced ones included) stand in the order they had in the input; and
    no product with a price above zero stands before an unpriced one.
    Prices are taken to be numbers. *)
Theorem rank_ascending_stable (lower : text -> text)
    (products : list Product) (c : Constraints) :
  Forall ProductSelector.price_is_number products ->
  sublist (ProductSelector.filtered_or_all lower products c) products
  /\ Permutation (ProductSelector.rank lower true products c)
       (ProductSelector.filtered_or_all lower products c)
  /\ StronglySorted (PySort.before PyFloat.ltb ProductSelector.score)
       (ProductSelector.rank lower true products c)
  /\ (forall k, PyFloat.is_nan k = false ->
        List.filter (PySort.same_key PyFloat.ltb ProductSelector.score k)
          (ProductSelector.rank lower true products c)
        = List.filter (PySort.same_key PyFloat.ltb ProductSelector.score k)
            (ProductSelector.filtered_or_all lower products c))
  /\ (forall p, price p = None -> ProductSelector.score p = PyFloat.zero)
  /\ (forall front u back,
        ProductSelector.rank lower true products c = front ++ u :: back ->
        price u = None ->
        Forall (fun q => PyFloat.ltb PyFloat.zero (ProductSelector.score q) = false)
          front).
Proof.
  intros Hnum.
  assert (Hok : Forall (fun p => PyFloat.is_nan (ProductSelector.score p) = false)
                  (ProductSelector.filtered_or_all lower products c)).
  { rewrite List.Forall_forall in *. intros p Hp.
    apply RankFacts.score_is_number, Hnum.
    apply list_elem_of_In.
    eapply elem_of_sublist; [apply list_elem_of_In; exact Hp|].
    apply RankFacts.filtered_or_all_sublist. }
  assert (Hsorted : StronglySorted (PySort.before PyFloat.ltb ProductSelector.score)
                      (ProductSelector.rank lower true products c)).
  { apply (PySortFacts.sort_forward_sorted PyFloat.ltb ProductSelector.score
             (fun k => PyFloat.is_nan k = false)
             PyFloatFacts.ltb_asym PyFloatFacts.ltb_negtrans _ Hok). }
  split; [apply RankFacts.filtered_or_all_sublist|].
  split; [apply RankFacts.rank_perm|].
  split; [exact Hsorted|].
  split.
  { intros k Hk.
    apply (PySortFacts.sort_forward_stable PyFloat.ltb ProductSelector.score
             (fun k => PyFloat.is_nan k = false)
             PyFloatFacts.ltb_asym PyFloatFacts.ltb_negtrans k _ Hk Hok). }
  split.
  { intros p Hp. unfold ProductSelector.score. rewrite Hp. reflexivity. }
  intros front u back Hout Hu. rewrite Hout in Hsorted.
  apply sorted_front_before in Hsorted.
  unfold PySort.before in Hsorted.
  unfold ProductSelector.score at 1 in Hsorted. rewrite Hu in Hsorted.
  exact Hsorted.
Qed.

Lemma rank_ascending_stable_witness :
  ProductSelector.rank ascii_lower true Sample.catalogue (mkConstraints None [])
  = [Sample.mouse_c; Sample.mouse_b; Sample.mouse_d; Sample.mouse_a]
  /\ StronglySorted (PySort.before PyFloat.ltb ProductSelector.score)
       (ProductSelector.rank ascii_lower true Sample.catalogue
          (mkConstraints None [])).
Proof.
  split; [vm_compute; reflexivity|].
  apply (rank_ascending_stable ascii_lower Sample.catalogue (mkConstraints None [])).
  repeat constructor; discriminate.
Defined.

(** ** [parse_price] *)

Module PriceParserFacts.
Import PriceParser.

Lemma digit_cases (c : N) :
  is_digit c = true ->
  c = 48 \/ c = 49 \/ c = 50 \/ c = 51 \/ c = 52 \/ c = 53 \/ c = 54 \/ c = 55
  \/ c = 56 \/ c = 57.
Proof.
  unfold is_digit. intros H. apply andb_prop in H as [H1 H2].
  apply N.leb_le in H1, H2. lia.
Qed.

Ltac by_digit H :=
  apply digit_cases in H;
  repeat (destruct H as [H|H]); subst; reflexivity.

Lemma digit_not_space (c : N) : is_digit c = true -> is_space c = false.
Proof. intros H. by_digit H. Qed.

Lemma digit_not_comma (c : N) : is_digit c = true -> (c =? comma) = false.
Proof. intros H. by_digit H. Qed.

Lemma currency_not_comma (c : N) : is_currency c = true -> (c =? comma) = false.
Proof.
  unfold is_currency, pound, dollar, euro, comma. intros H.
  apply orb_prop in H as [H|H]; [apply orb_prop in H as [H|H]|];
    apply N.eqb_eq in H; subst; reflexivity.
Qed.

Lemma span_digits_app (ds rest : text) :
  forallb is_digit ds = true ->
  match rest with [] => true | c :: _ => negb (is_digit c) end = true ->
  span is_digit (ds ++ rest) = (ds, rest).
Proof.
  intros Hds Hrest. induction ds as [|d ds IH]; cbn.
  - destruct rest as [|c r]; [reflexivity|].
    cbn. apply negb_true_iff in Hrest. rewrite Hrest. reflexivity.
  - cbn in Hds. apply andb_prop in Hds as [Hd Hds].
    rewrite Hd, (IH Hds). reflexivity.
Qed.

Lemma remove_commas_digits (body : text) :
  forallb (fun c => is_digit c || (c =? comma)) body = true ->
  forallb is_digit (remove_char comma body) = true.
Proof.
  unfold remove_char. induction body as [|c body IH]; cbn; [reflexivity|].
  intros H. apply andb_prop in H as [Hc H].
  destruct (c =? comma) eqn:E; cbn; [apply IH; exact H|].
  rewrite orb_false_r in Hc. rewrite Hc. apply IH. exact H.
Qed.

Lemma remove_commas_nonempty (body : text) :
  existsb is_digit body = true -> remove_char comma body <> [].
Proof.
  unfold remove_char. induction body as [|c body IH]; cbn; [discriminate|].
  intros H. destruct (is_digit c) eqn:Hc.
  - rewrite (digit_not_comma c Hc). discriminate.
  - destruct (negb (c =? comma)); [discriminate|]. apply IH. exact H.
Qed.

Lemma fraction_no_comma (fr : text) :
  is_fraction fr = true -> remove_char comma fr = fr.
Proof.
  unfold is_fraction, remove_char.
  destruct fr as [|c [|d1 [|d2 [|? ?]]]]; try discriminate; [reflexivity| |].
  - intros H. apply andb_prop in H as [Hc H1]. apply N.eqb_eq in Hc. subst c.
    cbn. rewrite (digit_not_comma d1 H1). reflexivity.
  - intros H. apply andb_prop in H as [H H2]. apply andb_prop in H as [Hc H1].
    apply N.eqb_eq in Hc. subst c.
    cbn. rewrite (digit_not_comma d1 H1), (digit_not_comma d2 H2). reflexivity.
Qed.

Lemma fraction_matches (fr : text) :
  is_fraction fr = true ->
  match_fraction fr = fr
  /\ match fr with [] => true | c :: _ => negb (is_digit c) end = true.
Proof.
  unfold is_fraction, match_fraction.
  destruct fr as [|c [|d1 [|d2 [|? ?]]]]; try discriminate; [split; reflexivity| |].
  - intros H. apply andb_prop in H as [Hc H1]. rewrite Hc, H1.
    apply N.eqb_eq in Hc. subst c. split; reflexivity.
  - intros H. apply andb_prop in H as [H H2]. apply andb_prop in H as [Hc H1].
    rewrite Hc, H1, H2. apply N.eqb_eq in Hc. subst c. split; reflexivity.
Qed.

Lemma span_space_digit (d : N) (t : text) :
  is_digit d = true -> span is_space (d :: t) = ([], d :: t).
Proof. intros H. cbn. rewrite (digit_not_space d H). reflexivity. Qed.

(** [re.search] returns the match at the first position that has one. *)
Lemma re_search_leftmost (t : text) (r : option text * text) :
  re_search t = Some r ->
  exists n, match_here (skipn n t) = Some r
            /\ forall k, (k < n)%nat -> match_here (skipn k t) = None.
Proof.
  induction t as [|c t IH]; cbn [re_search].
  - destruct (match_here []) eqn:E; [|discriminate].
    intros [= ->]. exists 0%nat. split; [exact E|lia].
  - destruct (match_here (c :: t)) eqn:E.
    + intros [= ->]. exists 0%nat. split; [exact E|lia].
    + intros H. destruct (IH H) as (n & Hn & Hlt).
      exists (S n). split; [exact Hn|].
      intros [|k] Hk; [exact E|]. apply Hlt. lia.
Qed.

(** Conversely, the first position that has a match is the one that
    [re.search] returns: the search does not stop short of it. *)
Lemma re_search_first (n : nat) (t : text) (r : option text * text) :
  match_here (skipn n t) = Some r ->
  (forall k, (k < n)%nat -> match_here (skipn k t) = None) ->
  re_search t = Some r.
Proof.
  revert t. induction n as [|n IH]; intros t Hn Hlt.
  - change (match_here t = Some r) in Hn.
    destruct t; cbn [re_search]; rewrite Hn; reflexivity.
  - pose proof (Hlt 0%nat ltac:(lia)) as H0.
    change (match_here t = None) in H0.
    destruct t as [|c t].
    + change (match_here [] = Some r) in Hn. congruence.
    + change (match_here (skipn n t) = Some r) in Hn.
      cbn [re_search]. rewrite H0. apply IH; [exact Hn|].
      intros k Hk. apply (Hlt (S k)). lia.
Qed.

Lemma re_search_none_all (t : text) :
  re_search t = None <-> forall n, match_here (skipn n t) = None.
Proof.
  split.
  - induction t as [|c t IH]; cbn [re_search].
    + destruct (match_here []) eqn:E; [discriminate|].
      intros _ [|n]; exact E.
    + destruct (match_here (c :: t)) eqn:E; [discriminate|].
      intros H [|n]; [exact E|]. exact (IH H n).
  - intros H. destruct (re_search t) as [r|] eqn:E; [|reflexivity].
    apply re_search_leftmost in E as (n & Hn & _). rewrite H in Hn.
    discriminate.
Qed.

Lemma currency_not_digit (c : N) : is_currency c = true -> is_digit c = false.
Proof.
  unfold is_currency, pound, dollar, euro. intros H.
  apply orb_prop in H as [H|H]; [apply orb_prop in H as [H|H]|];
    apply N.eqb_eq in H; subst; reflexivity.
Qed.

Lemma currency_not_space (c : N) : is_currency c = true -> is_space c = false.
Proof.
  unfold is_currency, pound, dollar, euro. intros H.
  apply orb_prop in H as [H|H]; [apply orb_prop in H as [H|H]|];
    apply N.eqb_eq in H; subst; reflexivity.
Qed.

(** In front of a currency symbol, text without a digit offers the pattern
    no digit to start from: the blanks end at the symbol or before it. *)
Lemma no_digit_before_symbol (p rest : text) (sym : N) :
  existsb is_digit p = false -> is_currency sym = true ->
  fst (span is_digit (snd (span is_space (p ++ sym :: rest)))) = [].
Proof.
  intros Hp Hsym. induction p as [|c p IH]; cbn [app span].
  - rewrite (currency_not_space sym Hsym). cbn [snd span].
    rewrite (currency_not_digit sym Hsym). reflexivity.
  - cbn in Hp. apply orb_false_elim in Hp as [Hc Hp]. specialize (IH Hp).
    destruct (is_space c).
    + destruct (span is_space (p ++ sym :: rest)) as [a b]. exact IH.
    + cbn [snd span]. rewrite Hc. reflexivity.
Qed.

Lemma match_here_before_symbol (c : N) (p rest : text) (sym : N) :
  existsb is_digit (c :: p) = false -> is_currency sym = true ->
  match_here (c :: p ++ sym :: rest) = None.
Proof.
  intros Hp Hsym. unfold match_here. destruct (is_currency c).
  - cbn in Hp. apply orb_false_elim in Hp as [_ Hp].
    pose proof (no_digit_before_symbol p rest sym Hp Hsym) as H.
    destruct (span is_digit (snd (span is_space (p ++ sym :: rest))))
      as [ds t3]. cbn in H. subst ds. reflexivity.
  - pose proof (no_digit_before_symbol (c :: p) rest sym Hp Hsym) as H.
    change ((c :: p) ++ sym :: rest) with (c :: p ++ sym :: rest) in H.
    destruct (span is_digit (snd (span is_space (c :: p ++ sym :: rest))))
      as [ds t3]. cbn in H. subst ds. reflexivity.
Qed.

(** The search passes over text without a digit that stands before a
    currency symbol. *)
Lemma re_search_skips_prefix (p rest : text) (sym : N) :
  existsb is_digit p = false -> is_currency sym = true ->
  re_search (p ++ sym :: rest) = re_search (sym :: rest).
Proof.
  induction p as [|c p IH]; intros Hp Hsym; [reflexivity|].
  change ((c :: p) ++ sym :: rest) with (c :: p ++ sym :: rest).
  cbn [re_search]. rewrite (match_here_before_symbol c p rest sym Hp Hsym).
  apply IH; [|exact Hsym].
  cbn in Hp. apply orb_false_elim in Hp as [_ Hp]. exact Hp.
Qed.

Lemma remove_commas_no_digit (p : text) :
  existsb is_digit p = false -> existsb is_digit (remove_char comma p) = false.
Proof.
  unfold remove_char. induction p as [|c p IH]; cbn; [reflexivity|].
  intros H. apply orb_false_elim in H as [Hc Hp].
  destruct (negb (c =? comma)); cbn; [rewrite Hc|]; exact (IH Hp).
Qed.

Lemma parse_price_text (s : text) :
  s <> [] ->
  parse_price (Some s)
  = match re_search (remove_char comma s) with
    | None => (None, None)
    | Some (cur, num) => (Some (PyFloat.of_decimal num), cur)
    end.
Proof. destruct s; [congruence|reflexivity]. Qed.

(** The amount of a price string, once the commas are gone. *)
Lemma remove_commas_amount (sym : N) (body fr : text) :
  is_currency sym = true -> is_fraction fr = true ->
  remove_char comma (sym :: body ++ fr) = sym :: remove_char comma body ++ fr.
Proof.
  intros Hsym Hfr. unfold remove_char. cbn [List.filter].
  rewrite (currency_not_comma sym Hsym). cbn [negb].
  rewrite List.filter_app. f_equal. f_equal.
  apply (fraction_no_comma fr Hfr).
Qed.

Lemma re_search_amount (sym : N) (body fr : text) :
  is_currency sym = true -> is_grouped_digits body = true ->
  is_fraction fr = true ->
  re_search (sym :: remove_char comma body ++ fr)
  = Some (Some [sym], remove_char comma body ++ fr).
Proof.
  intros Hsym Hbody Hfr. unfold is_grouped_digits in Hbody.
  apply andb_prop in Hbody as [Hall Hex].
  pose proof (remove_commas_digits body Hall) as Hds.
  pose proof (remove_commas_nonempty body Hex) as Hne.
  destruct (fraction_matches fr Hfr) as [Hmf Hhd].
  destruct (remove_char comma body) as [|d ds] eqn:Eds; [congruence|].
  assert (Hd : is_digit d = true).
  { cbn in Hds. apply andb_prop in Hds as [Hd _]. exact Hd. }
  cbn [re_search]. unfold match_here. rewrite Hsym.
  change ((d :: ds) ++ fr) with (d :: (ds ++ fr)).
  rewrite (span_space_digit d (ds ++ fr) Hd). cbn [snd].
  change (d :: (ds ++ fr)) with ((d :: ds) ++ fr).
  rewrite (span_digits_app (d :: ds) fr Hds Hhd).
  rewrite Hmf. reflexivity.
Qed.

(** A price string behind text that has no digit. *)
Lemma parse_price_behind_text (pre : text) (sym : N) (body fr : text) :
  existsb is_digit pre = false ->
  is_currency sym = true -> is_grouped_digits body = true ->
  is_fraction fr = true ->
  parse_price (Some (pre ++ sym :: body ++ fr))
  = (Some (PyFloat.of_decimal (remove_char comma body ++ fr)), Some [sym]).
Proof.
  intros Hpre Hsym Hbody Hfr.
  rewrite parse_price_text by (destruct pre; discriminate).
  unfold remove_char at 1. rewrite List.filter_app.
  change (List.filter (fun x => negb (x =? comma)) pre)
    with (remove_char comma pre).
  change (List.filter (fun x => negb (x =? comma)) (sym :: body ++ fr))
    with (remove_char comma (sym :: body ++ fr)).
  rewrite (remove_commas_amount sym body fr Hsym Hfr).
  rewrite (re_search_skips_prefix _ _ sym (remove_commas_no_digit pre Hpre) Hsym).
  rewrite (re_search_amount sym body fr Hsym Hbody Hfr). reflexivity.
Qed.

End PriceParserFacts.

(** C7. A currency symbol followed by comma-grouped digits and at most two
    fraction digits parses to the amount that remains once the commas are
    removed, paired with the symbol; ["$1,299.99"] gives 1299.99 (the double
    5717416483970089 * 2^-42) and ["$"].  The match that decides is the
    leftmost one in the string: the search returns a match exactly when
    some position has one, and then the match of the first such position,
    which fixes the result of [parse_price]; so a price string that stands
    behind text without a digit is still found, and of two prices the first
    is taken (["was $30 now $25"] gives 30.0 and ["$"]). *)
Theorem parse_price_grouped_amount :
  (forall sym body fr,
      PriceParser.is_currency sym = true ->
      PriceParser.is_grouped_digits body = true ->
      PriceParser.is_fraction fr = true ->
      PriceParser.parse_price (Some (sym :: body ++ fr))
      = (Some (PyFloat.of_decimal (remove_char comma body ++ fr)), Some [sym]))
  /\ PriceParser.parse_price (Some (str "$1,299.99"))
     = (Some (S754_finite false 5717416483970089 (-42)), Some (str "$"))
  /\ (forall t r,
        PriceParser.re_search t = Some r ->
        exists n, PriceParser.match_here (skipn n t) = Some r
                  /\ forall k, (k < n)%nat ->
                       PriceParser.match_here (skipn k t) = None)
  /\ (forall t n r,
        PriceParser.match_here (skipn n t) = Some r ->
        (forall k, (k < n)%nat -> PriceParser.match_here (skipn k t) = None) ->
        PriceParser.re_search t = Some r)
  /\ (forall t,
        PriceParser.re_search t = None
        <-> forall n, PriceParser.match_here (skipn n t) = None)
  /\ (forall s n cur num,
        s <> [] ->
        PriceParser.match_here (skipn n (remove_char comma s)) = Some (cur, num) ->
        (forall k, (k < n)%nat ->
           PriceParser.match_here (skipn k (remove_char comma s)) = None) ->
        PriceParser.parse_price (Some s) = (Some (PyFloat.of_decimal num), cur))
  /\ (forall pre sym body fr,
        existsb is_digit pre = false ->
        PriceParser.is_currency sym = true ->
        PriceParser.is_grouped_digits body = true ->
        PriceParser.is_fraction fr = true ->
        PriceParser.parse_price (Some (pre ++ sym :: body ++ fr))
        = (Some (PyFloat.of_decimal (remove_char comma body ++ fr)),
           Some [sym]))
  /\ PriceParser.parse_price (Some (str "was $30 now $25"))
     = (Some (S754_finite false 8444249301319680 (-48)), Some (str "$")).
Proof.
  split; [|split; [vm_compute; reflexivity|]].
  { intros sym body fr.
    apply (PriceParserFacts.parse_price_behind_text [] sym body fr eq_refl). }
  split; [apply PriceParserFacts.re_search_leftmost|].
  split; [intros t n r; apply PriceParserFacts.re_search_first|].
  split; [apply PriceParserFacts.re_search_none_all|].
  split; [|split; [apply PriceParserFacts.parse_price_behind_text
                  |vm_compute; reflexivity]].
  intros s n cur num Hs Hn Hlt.
  rewrite (PriceParserFacts.parse_price_text s Hs).
  rewrite (PriceParserFacts.re_search_first n _ (cur, num) Hn Hlt). reflexivity.
Qed.

Lemma parse_price_grouped_amount_witness :
  PriceParser.parse_price (Some (euro :: str "12,000.5"))
  = (Some (PyFloat.of_decimal (str "12000.5")), Some [euro]).
Proof.
  apply (proj1 parse_price_grouped_amount euro (str "12,000") (str ".5"));
    reflexivity.
Defined.

(** ** [LLMPlanner.plan] *)

(** C3 as stated fails: with an unparseable answer the fallback plan for
    ["wireless mouse under $20"] is not the plan with query
    ["wireless mouse"]. *)
Lemma plan_fallback_not_short_query :
  LLMPlanner.plan ascii_lower Sample.rejects Sample.chatter Sample.mouse_request
  <> Sample.expected_plan
  /\ plan_query (LLMPlanner.plan ascii_lower Sample.rejects Sample.chatter
                   Sample.mouse_request)
     <> Some (str "wireless mouse").
Proof. split; vm_compute; discriminate. Qed.

(** C3, amended. When [json.loads] rejects the model's answer, the plan for
    ["wireless mouse under $20"] is the fallback plan: the query is the whole
    request, no store, [max_price] 20.0 (the double 5629499534213120 * 2^-48),
    no keywords. *)
Theorem plan_fallback_mouse (lower : text -> text)
    (json_loads : text -> option Plan) (resp_text : text) :
  json_loads (LLMPlanner.json_text resp_text) = None ->
  lower Sample.mouse_request = Sample.mouse_request ->
  LLMPlanner.plan lower json_loads resp_text Sample.mouse_request
  = mkPlan (Some (str "wireless mouse under $20")) None
      (Some (PyFloat (S754_finite false 5629499534213120 (-48)))) [].
Proof.
  intros Hjson Hlower. unfold LLMPlanner.plan. rewrite Hjson.
  unfold LLMPlanner.fallback. rewrite Hlower. vm_compute. reflexivity.
Qed.

Lemma plan_fallback_mouse_witness :
  LLMPlanner.plan ascii_lower Sample.rejects Sample.chatter Sample.mouse_request
  = mkPlan (Some (str "wireless mouse under $20")) None
      (Some (PyFloat (S754_finite false 5629499534213120 (-48)))) [].
Proof.
  apply (plan_fallback_mouse ascii_lower Sample.rejects Sample.chatter);
    reflexivity.
Defined.

(** ** [BrowserController.__aexit__] *)

(** C4 as stated fails: when closing the context raises, the browser is not
    closed; only the release of Playwright still happens. *)
Lemma aexit_skips_browser_close :
  Eff.trace (BrowserController.aexit BrowserController.entered
               (BrowserController.mkWorld (Some Sample.boom) None None))
  = [BrowserController.CloseContext; BrowserController.StopPlaywright]
  /\ ~ In BrowserController.CloseBrowser
         (Eff.trace (BrowserController.aexit BrowserController.entered
                       (BrowserController.mkWorld (Some Sample.boom) None None))).
Proof.
  split; [reflexivity|]. cbn. intros [H|[H|[]]]; discriminate.
Qed.

(** C4, amended. On every exit the teardown calls are made in the order
    context, browser, Playwright; the release of Playwright is made whatever
    the two calls before it do; closing the browser is made exactly when
    closing the context did not raise; and if no call raises, the teardown
    returns normally. *)
Theorem aexit_teardown (self : BrowserController.controller)
    (w : BrowserController.teardown_world) :
  sublist (Eff.trace (BrowserController.aexit self w))
    BrowserController.teardown_order
  /\ (BrowserController.context self = true ->
      In BrowserController.CloseContext
        (Eff.trace (BrowserController.aexit self w)))
  /\ (BrowserController.playwright self = true ->
      In BrowserController.StopPlaywright
        (Eff.trace (BrowserController.aexit self w)))
  /\ (BrowserController.browser self = true ->
      (In BrowserController.CloseBrowser
         (Eff.trace (BrowserController.aexit self w))
       <-> (BrowserController.context self = false
            \/ BrowserController.context_close w = None)))
  /\ (BrowserController.context_close w = None ->
      BrowserController.browser_close w = None ->
      BrowserController.playwright_stop w = None ->
      Eff.outcome (BrowserController.aexit self w) = inr tt).
Proof.
  destruct self as [[] [] []], w as [[e1|] [e2|] [e3|]]; cbn;
    (split; [repeat constructor|]);
    repeat split; intros; try discriminate; try reflexivity; auto;
    repeat match goal with
           | H : _ \/ _ |- _ => destruct H
           | H : False |- _ => destruct H
           end; try discriminate.
Qed.

Lemma aexit_teardown_witness :
  In BrowserController.StopPlaywright
    (Eff.trace (BrowserController.aexit BrowserController.entered
                  (BrowserController.mkWorld (Some Sample.boom)
                     (Some Sample.boom) None)))
  /\ Eff.trace (BrowserController.aexit BrowserController.entered
                  (BrowserController.mkWorld None None None))
     = BrowserController.teardown_order.
Proof.
  split; [|reflexivity].
  apply (aexit_teardown BrowserController.entered
           (BrowserController.mkWorld (Some Sample.boom) (Some Sample.boom) None)).
  reflexivity.
Defined.

(** ** The request handlers *)

Module AppFacts.
Import App.

Lemma choose_unknown (S : sessions) (sid : text) (body : ChooseRequest)
    (w : Product -> ChooseWorld) :
  S !! sid = None -> choose S sid body w = (inl session_not_found, S).
Proof. intros H. unfold choose. rewrite H. reflexivity. Qed.

Lemma choose_no_product (S : sessions) (sid : text) (session : Session)
    (body : ChooseRequest) (w : Product -> ChooseWorld) :
  S !! sid = Some session ->
  select_product (products session) body = None ->
  choose S sid body w = (inl product_not_found, S).
Proof. intros H Hsel. unfold choose. rewrite H, Hsel. reflexivity. Qed.

(** Once a product is selected, whatever goes wrong afterwards is an
    exception of the browser automation. *)
Lemma choose_selected (S : sessions) (sid : text) (session : Session)
    (body : ChooseRequest) (w : Product -> ChooseWorld) (p : Product) :
  S !! sid = Some session ->
  select_product (products session) body = Some p ->
  forall code detail, fst (choose S sid body w) <> inl (HTTPException code detail).
Proof.
  intros H Hsel code detail. unfold choose. rewrite H, Hsel.
  destruct (add_to_cart (w p)) as [e|[[added u] shot]]; cbn.
  - unfold raised_after_exit. destruct (choose_exit (w p)); discriminate.
  - destruct (page_content (w p)) as [e|html]; cbn.
    + unfold raised_after_exit. destruct (choose_exit (w p)); discriminate.
    + destruct (choose_exit (w p)); discriminate.
Qed.

(** A [choose] that returns a response has recorded the selected product. *)
Lemma choose_records (S S' : sessions) (sid : text) (body : ChooseRequest)
    (w : Product -> ChooseWorld) (r : ChooseResponse) :
  choose S sid body w = (inr r, S') ->
  exists session p, S' !! sid = Some session /\ chosen session = Some p.
Proof.
  unfold choose. destruct (S !! sid) as [session|]; [|discriminate].
  destruct (select_product (products session) body) as [p|]; [|discriminate].
  destruct (add_to_cart (w p)) as [e|[[added u] shot]]; [discriminate|].
  destruct (page_content (w p)) as [e|html]; [discriminate|].
  destruct (choose_exit (w p)); [discriminate|].
  intros [= _ <-]. eexists _, p. split; [apply lookup_insert_eq|reflexivity].
Qed.

Lemma select_by_url (l : list Product) (idx : option Z) (u : text) :
  u <> [] ->
  select_product l (mkChooseRequest idx (Some u))
  = List.find (fun p => bool_decide (url p = u)) l.
Proof. intros Hu. unfold select_product. cbn. destruct u; [congruence|reflexivity]. Qed.

Lemma select_by_index (l : list Product) (i : Z) (u : option text) :
  u = None \/ u = Some [] ->
  select_product l (mkChooseRequest (Some i) u)
  = if (0 <=? i)%Z && (i <? Z.of_nat (length l))%Z
    then nth_error l (Z.to_nat i) else None.
Proof. intros [-> | ->]; reflexivity. Qed.

Lemma find_url_none (l : list Product) (u : text) :
  Forall (fun p => url p <> u) l ->
  List.find (fun p => bool_decide (url p = u)) l = None.
Proof.
  induction 1 as [|p l Hp _ IH]; cbn; [reflexivity|].
  rewrite bool_decide_eq_false_2 by exact Hp. exact IH.
Qed.

Lemma checkout_state (S : sessions) (sid : text) (body : CheckoutRequest)
    (w : Product -> CheckoutWorld) :
  snd (checkout S sid body w) = S.
Proof.
  unfold checkout. destruct (S !! sid) as [session|]; [|reflexivity].
  destruct (chosen session) as [p|]; [|reflexivity].
  destruct (drive_checkout (w p)) as [e|[[[proceeded fill] u] shot]]; [reflexivity|].
  destruct (checkout_exit (w p)); reflexivity.
Qed.

Lemma checkout_not_chosen (S : sessions) (sid : text) (session : Session)
    (body : CheckoutRequest) (w : Product -> CheckoutWorld) :
  S !! sid = Some session -> chosen session = None ->
  checkout S sid body w = (inl no_product_chosen, S).
Proof. intros H Hc. unfold checkout. rewrite H, Hc. reflexivity. Qed.

Lemma checkout_chosen (S : sessions) (sid : text) (session : Session)
    (p : Product) (body : CheckoutRequest) (w : Product -> CheckoutWorld) :
  S !! sid = Some session -> chosen session = Some p ->
  forall code detail,
    fst (checkout S sid body w) <> inl (HTTPException code detail).
Proof.
  intros H Hc code detail. unfold checkout. rewrite H, Hc.
  destruct (drive_checkout (w p)) as [e|[[[proceeded fill] u] shot]]; cbn.
  - unfold raised_after_exit. destruct (checkout_exit (w p)); discriminate.
  - destruct (checkout_exit (w p)); discriminate.
Qed.

(** What a [plan_and_search] that returns a response has done. *)
Lemma plan_and_search_returns (lower : text -> text)
    (json_loads : text -> option Plan) (S S' : sessions) (req : PlanRequest)
    (w : SearchWorld) (r : PlanResponse) :
  plan_and_search lower json_loads S req w = (inr r, S') ->
  exists scraped,
    let ranked :=
      ProductSelector.rank lower true scraped (constraints_of (r_plan r)) in
    r_session_id r = urandom_token w
    /\ r_products r = summaries ranked
    /\ S' = <[urandom_token w := mkSession (r_plan r) ranked None None None]> S.
Proof.
  unfold plan_and_search.
  destruct (oracle_text w) as [e|resp_text]; [discriminate|].
  destruct (browser_enter w); [discriminate|].
  destruct (scrape _ _ _) as [e|scraped]; [discriminate|].
  destruct (browser_exit w); [discriminate|].
  intros [= <- <-]. exists scraped. cbn. repeat split; reflexivity.
Qed.

(** The same, with where the plan and the products came from. *)
Lemma plan_and_search_answer (lower : text -> text)
    (json_loads : text -> option Plan) (S S' : sessions) (req : PlanRequest)
    (w : SearchWorld) (r : PlanResponse) :
  plan_and_search lower json_loads S req w = (inr r, S') ->
  exists resp_text scraped,
    oracle_text w = inr resp_text
    /\ r_plan r = LLMPlanner.plan lower json_loads resp_text (user_request req)
    /\ scrape (scraper w) (or_else (plan_store (r_plan r)) (site_hint req))
         (or_text (plan_query (r_plan r)) (user_request req))
       = inr scraped
    /\ r_session_id r = urandom_token w
    /\ r_products r
       = summaries (ProductSelector.rank lower true scraped
                      (constraints_of (r_plan r)))
    /\ S' = <[urandom_token w :=
               mkSession (r_plan r)
                 (ProductSelector.rank lower true scraped
                    (constraints_of (r_plan r))) None None None]> S.
Proof.
  unfold plan_and_search.
  destruct (oracle_text w) as [e|resp_text]; [discriminate|].
  destruct (browser_enter w); [discriminate|].
  destruct (scrape _ _ _) as [e|scraped] eqn:E; [discriminate|].
  destruct (browser_exit w); [discriminate|].
  intros [= <- <-]. exists resp_text, scraped. cbn [r_plan r_session_id r_products].
  repeat split; try reflexivity. exact E.
Qed.

(** A [choose] on which every browser step goes well. *)
Lemma choose_smooth (S : sessions) (sid : text) (session : Session)
    (body : ChooseRequest) (w : Product -> ChooseWorld) (p : Product)
    (added : bool) (u shot html : text) :
  S !! sid = Some session ->
  select_product (products session) body = Some p ->
  add_to_cart (w p) = inr (added, u, shot) ->
  page_content (w p) = inr html ->
  choose_exit (w p) = None ->
  choose S sid body w
  = (inr (mkChooseResponse
            (if added then str "added" else str "needs_manual_add") u shot),
     <[sid := mkSession (plan session) (products session) (Some u) (Some html)
                (Some p)]> S).
Proof.
  intros Hs Hsel Ha Hc He. unfold choose. rewrite Hs, Hsel, Ha, Hc, He.
  reflexivity.
Qed.

(** A [choose] that returns has recorded the product its request selects. *)
Lemma choose_returns_selected (S S' : sessions) (sid : text) (session : Session)
    (body : ChooseRequest) (w : Product -> ChooseWorld) (r : ChooseResponse) :
  S !! sid = Some session ->
  choose S sid body w = (inr r, S') ->
  exists p session',
    select_product (products session) body = Some p
    /\ S' !! sid = Some session'
    /\ chosen session' = Some p
    /\ products session' = products session.
Proof.
  intros Hs. unfold choose. rewrite Hs.
  destruct (select_product (products session) body) as [p|]; [|discriminate].
  destruct (add_to_cart (w p)) as [e|[[added u] shot]]; [discriminate|].
  destruct (page_content (w p)) as [e|html]; [discriminate|].
  destruct (choose_exit (w p)); [discriminate|].
  intros [= _ <-]. eexists p, _. split; [reflexivity|].
  split; [apply lookup_insert_eq|]. split; reflexivity.
Qed.

(** A [choose] that stops before the screenshot is taken raises and leaves
    the table alone. *)
Lemma choose_before_recording (S : sessions) (sid : text) (session : Session)
    (body : ChooseRequest) (w : Product -> ChooseWorld) :
  S !! sid = Some session ->
  select_product (products session) body = None
  \/ (exists p e, select_product (products session) body = Some p
                  /\ add_to_cart (w p) = inl e) ->
  snd (choose S sid body w) = S
  /\ exists err, fst (choose S sid body w) = inl err.
Proof.
  intros Hs [Hsel|(p & e & Hsel & Ha)]; unfold choose; rewrite Hs, Hsel.
  - split; [reflexivity|]. eexists. reflexivity.
  - rewrite Ha. split; [reflexivity|]. eexists. reflexivity.
Qed.

(** A [choose] that raises after the screenshot was taken has recorded the
    product all the same. *)
Lemma choose_after_recording (S : sessions) (sid : text) (session : Session)
    (body : ChooseRequest) (w : Product -> ChooseWorld) (p : Product)
    (r : bool * text * text) (e : exn) :
  S !! sid = Some session ->
  select_product (products session) body = Some p ->
  add_to_cart (w p) = inr r ->
  page_content (w p) = inl e \/ choose_exit (w p) = Some e ->
  (exists e', fst (choose S sid body w) = inl (Foreign e'))
  /\ exists session',
       snd (choose S sid body w) !! sid = Some session'
       /\ chosen session' = Some p.
Proof.
  intros Hs Hsel Ha Hfail. unfold choose. rewrite Hs, Hsel, Ha.
  destruct r as [[added u] shot].
  destruct (page_content (w p)) as [e1|html].
  - cbn [fst snd]. split.
    + unfold raised_after_exit. destruct (choose_exit (w p)); eexists; reflexivity.
    + eexists. split; [apply lookup_insert_eq|reflexivity].
  - destruct Hfail as [Hc|He]; [discriminate|]. rewrite He. cbn [fst snd].
    split; [eexists; reflexivity|].
    eexists. split; [apply lookup_insert_eq|reflexivity].
Qed.

End AppFacts.

Lemma sample_table_sid :
  Sample.table !! Sample.sid
  = Some (mkSession Sample.mouse_plan Sample.catalogue None None None).
Proof. apply lookup_insert_eq. Qed.

Lemma sample_table_unknown : Sample.table !! Sample.unknown_sid = None.
Proof.
  unfold Sample.table. rewrite lookup_insert_ne; [apply lookup_empty|].
  intros H. vm_compute in H. discriminate.
Qed.

(** C5 as stated fails: an out-of-range index on a known session is answered
    with status 400, not with the 404 of an unknown session id. *)
Lemma choose_miss_differs_from_unknown_session :
  fst (App.choose Sample.table Sample.sid (Sample.by_index 7)
         Sample.smooth_choose)
  = inl (HTTPException 400 (str "Product not found in session"))
  /\ fst (App.choose Sample.table Sample.unknown_sid (Sample.by_index 7)
            Sample.smooth_choose)
     = inl (HTTPException 404 (str "Session not found"))
  /\ fst (App.choose Sample.table Sample.sid (Sample.by_index 7)
            Sample.smooth_choose)
     <> fst (App.choose Sample.table Sample.unknown_sid (Sample.by_index 7)
               Sample.smooth_choose).
Proof.
  rewrite (AppFacts.choose_no_product Sample.table Sample.sid _
             (Sample.by_index 7) Sample.smooth_choose sample_table_sid eq_refl).
  rewrite (AppFacts.choose_unknown Sample.table Sample.unknown_sid
             (Sample.by_index 7) Sample.smooth_choose sample_table_unknown).
  repeat split. discriminate.
Qed.

(** C5, amended. On a known session, a request whose non-empty product url
    equals the url of no stored product, or which carries no url (or an empty
    one) and an index outside the stored list, fails with
    [HTTPException 400 "Product not found in session"] and leaves the session
    table as it was; an unknown session id fails with the different error
    [HTTPException 404 "Session not found"]. *)
Theorem choose_selector_misses (S : App.sessions) (sid : text)
    (session : Session) (body : ChooseRequest)
    (w : Product -> App.ChooseWorld) :
  S !! sid = Some session ->
  (exists u, product_url body = Some u /\ u <> []
             /\ Forall (fun p => url p <> u) (products session))
  \/ ((product_url body = None \/ product_url body = Some [])
      /\ exists i, product_index body = Some i
                   /\ (i < 0 \/ Z.of_nat (length (products session)) <= i)%Z) ->
  App.choose S sid body w
  = (inl (HTTPException 400 (str "Product not found in session")), S)
  /\ (forall sid', S !! sid' = None ->
        App.choose S sid' body w
        = (inl (HTTPException 404 (str "Session not found")), S))
  /\ HTTPException 400 (str "Product not found in session")
     <> HTTPException 404 (str "Session not found").
Proof.
  intros Hs Hmiss. split; [|split; [|discriminate]].
  - apply (AppFacts.choose_no_product S sid session body w Hs).
    destruct body as [idx u0]. cbn in Hmiss.
    destruct Hmiss as [(u & -> & Hu & Hall) | (Hurl & i & -> & Hrange)].
    + rewrite (AppFacts.select_by_url _ idx u Hu).
      apply AppFacts.find_url_none. exact Hall.
    + rewrite (AppFacts.select_by_index _ i u0 Hurl).
      destruct (0 <=? i)%Z eqn:E1; [|reflexivity].
      destruct (i <? Z.of_nat (length (products session)))%Z eqn:E2; [|reflexivity].
      apply Z.leb_le in E1. apply Z.ltb_lt in E2. lia.
  - intros sid' Hnone. apply AppFacts.choose_unknown. exact Hnone.
Qed.

Lemma choose_selector_misses_witness :
  App.choose Sample.table Sample.sid
    (mkChooseRequest (Some 1%Z) (Some (str "https://www.amazon.com/zz")))
    Sample.smooth_choose
  = (inl (HTTPException 400 (str "Product not found in session")), Sample.table).
Proof.
  apply (choose_selector_misses Sample.table Sample.sid _ _ _ sample_table_sid).
  left. exists (str "https://www.amazon.com/zz").
  split; [reflexivity|]. split; [discriminate|].
  repeat constructor; discriminate.
Defined.

(** C9 as stated fails: a request that supplies the empty string as
    [product_url] together with a valid [product_index] is decided by the
    index; it selects that product although no stored url equals the
    supplied one. *)
Lemma choose_empty_url_uses_index :
  Forall (fun p => url p <> []) Sample.catalogue
  /\ App.select_product Sample.catalogue (mkChooseRequest (Some 1%Z) (Some []))
     = Some Sample.mouse_b
  /\ fst (App.choose Sample.table Sample.sid
            (mkChooseRequest (Some 1%Z) (Some [])) Sample.smooth_choose)
     = inr (mkChooseResponse (str "added") (url Sample.mouse_b)
              (str "iVBORw0KGgo=")).
Proof.
  split; [repeat constructor; discriminate|]. split; [reflexivity|].
  unfold App.choose. rewrite sample_table_sid. reflexivity.
Qed.

(** C9, amended. On a known session, a request with a non-empty
    [product_url] is decided by exact url match alone, whatever
    [product_index] it carries: if no stored product has that url the request
    fails with the product-not-found error even when the index is in range.
    A request with neither field fails with the same error. *)
Theorem choose_url_decides (S : App.sessions) (sid : text) (session : Session)
    (u : text) (w : Product -> App.ChooseWorld) :
  S !! sid = Some session ->
  u <> [] ->
  (forall idx,
      App.select_product (products session) (mkChooseRequest idx (Some u))
      = List.find (fun p => bool_decide (url p = u)) (products session))
  /\ (Forall (fun p => url p <> u) (products session) ->
      forall idx,
        App.choose S sid (mkChooseRequest idx (Some u)) w
        = (inl App.product_not_found, S))
  /\ App.choose S sid (mkChooseRequest None None) w
     = (inl App.product_not_found, S).
Proof.
  intros Hs Hu. split; [|split].
  - intros idx. apply AppFacts.select_by_url. exact Hu.
  - intros Hall idx.
    apply (AppFacts.choose_no_product S sid session _ w Hs).
    rewrite (AppFacts.select_by_url _ idx u Hu).
    apply AppFacts.find_url_none. exact Hall.
  - apply (AppFacts.choose_no_product S sid session _ w Hs). reflexivity.
Qed.

Lemma choose_url_decides_witness :
  App.choose Sample.table Sample.sid
    (mkChooseRequest (Some 0%Z) (Some (str "https://www.amazon.com/zz")))
    Sample.smooth_choose
  = (inl App.product_not_found, Sample.table)
  /\ App.select_product Sample.catalogue
       (mkChooseRequest (Some 0%Z) (Some (str "https://www.amazon.com/d")))
     = Some Sample.mouse_d.
Proof.
  assert (Hu : str "https://www.amazon.com/zz" <> []) by discriminate.
  split.
  - apply (proj1 (proj2 (choose_url_decides Sample.table Sample.sid _
                           (str "https://www.amazon.com/zz")
                           Sample.smooth_choose sample_table_sid Hu))).
    repeat constructor; discriminate.
  - reflexivity.
Defined.

(** C6 as stated fails: a [choose] whose browser fails while the page
    content is read has not succeeded, it raises; yet it has recorded the
    product before, and a [checkout] on that session goes ahead instead of
    failing with the invalid-state error. *)
Lemma checkout_after_failed_choose :
  fst (App.choose Sample.table Sample.sid (Sample.by_index 0)
         MoreSample.flaky_choose)
  = inl (Foreign Sample.boom)
  /\ fst (App.checkout
            (snd (App.choose Sample.table Sample.sid (Sample.by_index 0)
                    MoreSample.flaky_choose))
            Sample.sid (mkCheckoutRequest None) Sample.smooth_checkout)
     = inr (mkCheckoutResponse (str "at_checkout") (url Sample.mouse_a) false
              (str "iVBORw0KGgo=") App.payment_note).
Proof.
  assert (Hch : App.choose Sample.table Sample.sid (Sample.by_index 0)
                  MoreSample.flaky_choose
                = (inl (Foreign Sample.boom),
                   <[Sample.sid :=
                       mkSession Sample.mouse_plan Sample.catalogue
                         (Some (url Sample.mouse_a)) None (Some Sample.mouse_a)]>
                     Sample.table)).
  { unfold App.choose. rewrite sample_table_sid. reflexivity. }
  rewrite Hch. split; [reflexivity|]. cbn [snd].
  unfold App.checkout. rewrite lookup_insert_eq. reflexivity.
Qed.

(** C6, amended. What decides is whether a chosen product is recorded in
    the session, not whether a [choose] has succeeded.  A session without a
    recorded product makes [checkout] fail with the invalid-state error
    [HTTPException 400 "No product chosen for this session"]: so does every
    session freshly created by [plan_and_search], and it stays so after a
    [choose] that fails before the screenshot is taken (no product
    selected, or the browser failing up to that point).  Once a product is
    recorded, [checkout] raises no [HTTPException] at all: that is the case
    after every [choose] that returned a response, and also after a
    [choose] that selected a product, took the screenshot and raised
    afterwards, while reading the page content or closing the browser.
    [checkout] itself never changes the session table. *)
Theorem checkout_requires_chosen :
  (forall (S : App.sessions) sid session body w,
      S !! sid = Some session -> chosen session = None ->
      App.checkout S sid body w
      = (inl (HTTPException 400 (str "No product chosen for this session")), S))
  /\ (forall lower json_loads (S S' : App.sessions) req sw r body w,
        App.plan_and_search lower json_loads S req sw = (inr r, S') ->
        App.checkout S' (r_session_id r) body w
        = (inl (HTTPException 400 (str "No product chosen for this session")),
           S'))
  /\ (forall (S : App.sessions) sid session p body w code detail,
        S !! sid = Some session -> chosen session = Some p ->
        fst (App.checkout S sid body w) <> inl (HTTPException code detail))
  /\ (forall (S S' : App.sessions) sid cbody cw r body w code detail,
        App.choose S sid cbody cw = (inr r, S') ->
        fst (App.checkout S' sid body w) <> inl (HTTPException code detail))
  /\ (forall (S : App.sessions) sid body w,
        snd (App.checkout S sid body w) = S)
  /\ (forall (S : App.sessions) sid session cbody cw body w,
        S !! sid = Some session -> chosen session = None ->
        App.select_product (products session) cbody = None
        \/ (exists p e, App.select_product (products session) cbody = Some p
                        /\ App.add_to_cart (cw p) = inl e) ->
        (exists err, fst (App.choose S sid cbody cw) = inl err)
        /\ App.checkout (snd (App.choose S sid cbody cw)) sid body w
           = (inl (HTTPException 400 (str "No product chosen for this session")),
              S))
  /\ (forall (S : App.sessions) sid session cbody cw p shot e body w code detail,
        S !! sid = Some session ->
        App.select_product (products session) cbody = Some p ->
        App.add_to_cart (cw p) = inr shot ->
        App.page_content (cw p) = inl e \/ App.choose_exit (cw p) = Some e ->
        (exists e', fst (App.choose S sid cbody cw) = inl (Foreign e'))
        /\ fst (App.checkout (snd (App.choose S sid cbody cw)) sid body w)
           <> inl (HTTPException code detail)).
Proof.
  split; [|split; [|split; [|split; [|split; [|split]]]]].
  - intros S sid session body w Hs Hc.
    apply (AppFacts.checkout_not_chosen S sid session body w Hs Hc).
  - intros lower json_loads S S' req sw r body w Hps.
    destruct (AppFacts.plan_and_search_returns _ _ _ _ _ _ _ Hps)
      as (scraped & Hid & _ & ->).
    rewrite Hid.
    eapply AppFacts.checkout_not_chosen; [apply lookup_insert_eq|reflexivity].
  - intros S sid session p body w code detail Hs Hc.
    apply (AppFacts.checkout_chosen S sid session p body w Hs Hc).
  - intros S S' sid cbody cw r body w code detail Hch.
    destruct (AppFacts.choose_records _ _ _ _ _ _ Hch) as (session & p & Hs & Hc).
    apply (AppFacts.checkout_chosen S' sid session p body w Hs Hc).
  - intros S sid body w. apply AppFacts.checkout_state.
  - intros S sid session cbody cw body w Hs Hc Hearly.
    destruct (AppFacts.choose_before_recording S sid session cbody cw Hs Hearly)
      as [Hsame Herr].
    split; [exact Herr|]. rewrite Hsame.
    apply (AppFacts.checkout_not_chosen S sid session body w Hs Hc).
  - intros S sid session cbody cw p shot e body w code detail Hs Hsel Ha Hfail.
    destruct (AppFacts.choose_after_recording S sid session cbody cw p shot e
                Hs Hsel Ha Hfail) as [Herr (session' & Hs' & Hc')].
    split; [exact Herr|].
    apply (AppFacts.checkout_chosen _ sid session' p body w Hs' Hc').
Qed.

Lemma checkout_requires_chosen_witness :
  App.checkout Sample.table Sample.sid (mkCheckoutRequest None)
    Sample.smooth_checkout
  = (inl (HTTPException 400 (str "No product chosen for this session")),
     Sample.table)
  /\ fst (App.checkout
            (snd (App.choose Sample.table Sample.sid (Sample.by_index 0)
                    Sample.smooth_choose))
            Sample.sid (mkCheckoutRequest None) Sample.smooth_checkout)
     <> inl (HTTPException 400 (str "No product chosen for this session")).
Proof.
  split.
  - apply (proj1 checkout_requires_chosen Sample.table Sample.sid _
             (mkCheckoutRequest None) Sample.smooth_checkout sample_table_sid).
    reflexivity.
  - assert (Hch : App.choose Sample.table Sample.sid (Sample.by_index 0)
                    Sample.smooth_choose
                  = (inr (mkChooseResponse (str "added") (url Sample.mouse_a)
                            (str "iVBORw0KGgo=")),
                     snd (App.choose Sample.table Sample.sid (Sample.by_index 0)
                            Sample.smooth_choose))).
    { unfold App.choose. rewrite sample_table_sid. reflexivity. }
    apply (proj1 (proj2 (proj2 (proj2 checkout_requires_chosen)))
             _ _ _ _ _ _ (mkCheckoutRequest None) Sample.smooth_checkout
             400%Z (str "No product chosen for this session") Hch).
Defined.

Lemma select_in_range (l : list Product) (i : nat) :
  (i < length l)%nat ->
  exists p, nth_error l i = Some p
            /\ App.select_product l (mkChooseRequest (Some (Z.of_nat i)) None)
               = Some p.
Proof.
  intros Hi. destruct (nth_error l i) as [p|] eqn:E.
  - exists p. split; [reflexivity|].
    rewrite (AppFacts.select_by_index l (Z.of_nat i) None (or_introl eq_refl)).
    replace (0 <=? Z.of_nat i)%Z with true by (symmetry; apply Z.leb_le; lia).
    replace (Z.of_nat i <? Z.of_nat (length l))%Z with true
      by (symmetry; apply Z.ltb_lt; lia).
    cbn. rewrite Nat2Z.id. exact E.
  - apply nth_error_None in E. lia.
Qed.

(** C10. A [plan_and_search] that answers has ranked everything the store
    dispatch scraped for the plan's query, stored that complete ranked list
    in the session it names, and returned the summaries of its first ten
    entries only.  Every index below the length of the stored list, shown
    or not, makes [choose] select the product at that index: the request
    fails with no [HTTPException]; when the browser steps go well it answers
    and has recorded exactly that product as chosen, the stored list
    untouched; and whenever it answers, that product is the chosen one. *)
Theorem plan_and_search_stores_all (lower : text -> text)
    (json_loads : text -> option Plan) (S S' : App.sessions)
    (req : PlanRequest) (sw : App.SearchWorld) (r : PlanResponse) :
  App.plan_and_search lower json_loads S req sw = (inr r, S') ->
  exists resp_text scraped session,
    App.oracle_text sw = inr resp_text
    /\ r_plan r = LLMPlanner.plan lower json_loads resp_text (user_request req)
    /\ App.scrape (App.scraper sw)
         (App.or_else (plan_store (r_plan r)) (site_hint req))
         (App.or_text (plan_query (r_plan r)) (user_request req))
       = inr scraped
    /\ S' !! r_session_id r = Some session
    /\ products session
       = ProductSelector.rank lower true scraped (App.constraints_of (r_plan r))
    /\ Permutation (products session)
         (ProductSelector.filtered_or_all lower scraped
            (App.constraints_of (r_plan r)))
    /\ r_products r = imap App.summary (firstn 10 (products session))
    /\ length (r_products r) = Nat.min 10 (length (products session))
    /\ forall i, (i < length (products session))%nat ->
         exists p,
           nth_error (products session) i = Some p
           /\ App.select_product (products session)
                (mkChooseRequest (Some (Z.of_nat i)) None) = Some p
           /\ (forall cw code detail,
                 fst (App.choose S' (r_session_id r)
                        (mkChooseRequest (Some (Z.of_nat i)) None) cw)
                 <> inl (HTTPException code detail))
           /\ (forall cw added u shot html,
                 App.add_to_cart (cw p) = inr (added, u, shot) ->
                 App.page_content (cw p) = inr html ->
                 App.choose_exit (cw p) = None ->
                 App.choose S' (r_session_id r)
                   (mkChooseRequest (Some (Z.of_nat i)) None) cw
                 = (inr (mkChooseResponse
                           (if added then str "added"
                            else str "needs_manual_add") u shot),
                    <[r_session_id r :=
                        mkSession (plan session) (products session) (Some u)
                          (Some html) (Some p)]> S'))
           /\ (forall cw answer S'',
                 App.choose S' (r_session_id r)
                   (mkChooseRequest (Some (Z.of_nat i)) None) cw
                 = (inr answer, S'') ->
                 exists session',
                   S'' !! r_session_id r = Some session'
                   /\ chosen session' = Some p
                   /\ products session' = products session).
Proof.
  intros Hps.
  destruct (AppFacts.plan_and_search_answer _ _ _ _ _ _ _ Hps)
    as (resp_text & scraped & Ho & Hplan & Hscr & Hid & Hout & ->).
  exists resp_text, scraped. eexists. rewrite Hid.
  split; [exact Ho|]. split; [exact Hplan|]. split; [exact Hscr|].
  split; [apply lookup_insert_eq|]. cbn [products plan].
  split; [reflexivity|]. split; [apply RankFacts.rank_perm|].
  split; [exact Hout|].
  split.
  { rewrite Hout. unfold App.summaries. rewrite length_imap. apply length_take. }
  intros i Hi. destruct (select_in_range _ i Hi) as (p & Hnth & Hsel).
  exists p. split; [exact Hnth|]. split; [exact Hsel|].
  split; [|split].
  - intros cw code detail.
    eapply AppFacts.choose_selected; [apply lookup_insert_eq|exact Hsel].
  - intros cw added u shot html Ha Hc He.
    apply (AppFacts.choose_smooth _ _ (mkSession _ _ None None None) _ cw p
             added u shot html (lookup_insert_eq _ _ _) Hsel Ha Hc He).
  - intros cw answer S'' Hch.
    destruct (AppFacts.choose_returns_selected _ _ _
                (mkSession _ _ None None None) _ _ _
                (lookup_insert_eq _ _ _) Hch)
      as (p' & session' & Hsel' & Hs' & Hc' & Hp').
    cbn [products] in Hsel'. rewrite Hsel in Hsel'. injection Hsel' as <-.
    exists session'. split; [exact Hs'|]. split; [exact Hc'|exact Hp'].
Qed.

Lemma plan_and_search_stores_all_witness :
  length (r_products Sample.shelf_response) = 10%nat
  /\ exists scraped session,
       App.scrape (App.scraper Sample.shelf_world)
         (App.or_else (plan_store (r_plan Sample.shelf_response))
            (site_hint Sample.mouse_search))
         (App.or_text (plan_query (r_plan Sample.shelf_response))
            (user_request Sample.mouse_search))
       = inr scraped
       /\ snd Sample.shelf_outcome !! r_session_id Sample.shelf_response
          = Some session
       /\ products session
          = ProductSelector.rank ascii_lower true scraped
              (App.constraints_of (r_plan Sample.shelf_response))
       /\ length (r_products Sample.shelf_response)
          = Nat.min 10 (length (products session)).
Proof.
  split; [vm_compute; reflexivity|].
  destruct (plan_and_search_stores_all ascii_lower Sample.rejects ∅
              (snd Sample.shelf_outcome) Sample.mouse_search Sample.shelf_world
              Sample.shelf_response)
    as (resp_text & scraped & session & _ & _ & H1 & H2 & H3 & _ & _ & H4 & _).
  - vm_compute. reflexivity.
  - exists scraped, session. repeat split; assumption.
Defined.

(** * Further properties of the request handlers *)

Module SessionFacts.
Import App.

Lemma lookup_nth_error {A : Type} (l : list A) (i : nat) :
  l !! i = nth_error l i.
Proof. revert i. induction l as [|x l IH]; intros [|i]; cbn; auto. Qed.

Lemma plan_and_search_table (lower : text -> text)
    (json_loads : text -> option Plan) (S : sessions) (req : PlanRequest)
    (w : SearchWorld) :
  snd (plan_and_search lower json_loads S req w) = S
  \/ exists session,
       chosen session = None
       /\ snd (plan_and_search lower json_loads S req w)
          = <[urandom_token w := session]> S.
Proof.
  unfold plan_and_search.
  destruct (oracle_text w) as [e|resp_text]; [left; reflexivity|].
  destruct (browser_enter w); [left; reflexivity|].
  destruct (scrape _ _ _) as [e|scraped]; [left; reflexivity|].
  right. eexists. split; [|destruct (browser_exit w); reflexivity]. reflexivity.
Qed.

End SessionFacts.

(** X1. [plan_and_search] writes at most the entry of its own fresh token:
    every other session of the table is left exactly as it was, whether the
    request answers or raises. *)
Theorem plan_and_search_writes_own_key (lower : text -> text)
    (json_loads : text -> option Plan) (S : App.sessions) (req : PlanRequest)
    (w : App.SearchWorld) (k : text) :
  k <> App.urandom_token w ->
  snd (App.plan_and_search lower json_loads S req w) !! k = S !! k.
Proof.
  intros Hk.
  destruct (SessionFacts.plan_and_search_table lower json_loads S req w)
    as [-> | (session & _ & ->)]; [reflexivity|].
  apply lookup_insert_ne. congruence.
Qed.

Lemma plan_and_search_writes_own_key_witness :
  snd (App.plan_and_search ascii_lower Sample.rejects Sample.table
         Sample.mouse_search MoreSample.second_world) !! Sample.sid
  = Sample.table !! Sample.sid.
Proof.
  apply plan_and_search_writes_own_key. intros H. vm_compute in H. discriminate.
Defined.

(** X2. A [plan_and_search] that raises although the browser teardown went
    well has not touched the table; and when only the teardown raises, the
    request fails with that exception but the session it would have answered
    with is stored all the same. *)
Theorem plan_and_search_failure (lower : text -> text)
    (json_loads : text -> option Plan) (S : App.sessions) (req : PlanRequest)
    (w : App.SearchWorld) :
  (forall e,
      fst (App.plan_and_search lower json_loads S req w) = inl e ->
      App.browser_exit w = None ->
      snd (App.plan_and_search lower json_loads S req w) = S)
  /\ (forall r S' e,
        App.plan_and_search lower json_loads S req (Workflow.with_exit w None)
        = (inr r, S') ->
        App.plan_and_search lower json_loads S req
          (Workflow.with_exit w (Some e))
        = (inl (Foreign e), S')).
Proof.
  split.
  - intros e. unfold App.plan_and_search.
    destruct (App.oracle_text w) as [e0|resp_text]; [reflexivity|].
    destruct (App.browser_enter w); [reflexivity|].
    destruct (App.scrape _ _ _) as [e0|scraped]; [reflexivity|].
    destruct (App.browser_exit w); [discriminate|]. discriminate.
  - intros r S' e. unfold App.plan_and_search, Workflow.with_exit. cbn.
    destruct (App.oracle_text w) as [e0|resp_text]; [discriminate|].
    destruct (App.browser_enter w); [discriminate|].
    destruct (App.scrape _ _ _) as [e0|scraped]; [discriminate|].
    intros [= _ <-]. reflexivity.
Qed.

Lemma plan_and_search_failure_witness :
  App.plan_and_search ascii_lower Sample.rejects ∅ Sample.mouse_search
    MoreSample.crashing_exit
  = (inl (Foreign Sample.boom), snd Sample.shelf_outcome).
Proof.
  apply (proj2 (plan_and_search_failure ascii_lower Sample.rejects ∅
                  Sample.mouse_search Sample.shelf_world)
           Sample.shelf_response).
  vm_compute. reflexivity.
Defined.

(** X3. Every product summary of a [plan_and_search] response leads back to
    the product it shows: [choose] with the summary's index selects the
    stored product with exactly the summary's title, price, currency, url and
    store; and with the summary's (non-empty) url it selects a stored product
    with that url. *)
Theorem response_summary_selects_product (lower : text -> text)
    (json_loads : text -> option Plan) (S S' : App.sessions)
    (req : PlanRequest) (w : App.SearchWorld) (r : PlanResponse)
    (s : ProductSummary) :
  App.plan_and_search lower json_loads S req w = (inr r, S') ->
  In s (r_products r) ->
  exists session p,
    S' !! r_session_id r = Some session
    /\ App.select_product (products session)
         (mkChooseRequest (Some (Z.of_nat (s_index s))) None) = Some p
    /\ App.summary (s_index s) p = s
    /\ (s_url s <> [] ->
        exists q,
          App.select_product (products session)
            (mkChooseRequest None (Some (s_url s))) = Some q
          /\ url q = s_url s).
Proof.
  intros Hps Hin.
  destruct (AppFacts.plan_and_search_returns _ _ _ _ _ _ _ Hps)
    as (scraped & Hid & Hout & ->).
  set (ranked := ProductSelector.rank lower true scraped
                   (App.constraints_of (r_plan r))) in *.
  rewrite Hout in Hin. unfold App.summaries in Hin.
  apply list_elem_of_In, elem_of_lookup_imap_1 in Hin as (i & p & -> & Hi).
  apply lookup_take_Some in Hi as [Hi _].
  exists (mkSession (r_plan r) ranked None None None), p.
  rewrite Hid. split; [apply lookup_insert_eq|]. cbn [products App.summary s_index].
  assert (Hlen : (i < length ranked)%nat) by (eapply lookup_lt_Some; exact Hi).
  destruct (select_in_range ranked i Hlen) as (p' & Hnth & Hsel).
  rewrite <- SessionFacts.lookup_nth_error, Hi in Hnth. injection Hnth as <-.
  split; [exact Hsel|]. split; [reflexivity|].
  change (s_url (App.summary i p)) with (url p). intros Hu.
  rewrite (AppFacts.select_by_url ranked None (url p) Hu).
  assert (Hp : In p ranked)
    by (apply list_elem_of_In, list_elem_of_lookup; exists i; exact Hi).
  destruct (List.find (fun p0 => bool_decide (url p0 = url p)) ranked) as [q|] eqn:E.
  - exists q. split; [reflexivity|].
    apply List.find_some in E as [_ E]. apply bool_decide_eq_true in E. exact E.
  - exfalso. pose proof (List.find_none _ _ E p Hp) as Hn. cbn in Hn.
    rewrite bool_decide_eq_true_2 in Hn by reflexivity. discriminate.
Qed.

Lemma response_summary_selects_product_witness :
  s_index MoreSample.third_summary = 2%nat
  /\ exists session p,
    snd Sample.shelf_outcome !! r_session_id Sample.shelf_response = Some session
    /\ App.select_product (products session)
         (mkChooseRequest (Some (Z.of_nat (s_index MoreSample.third_summary)))
            None) = Some p
    /\ App.summary (s_index MoreSample.third_summary) p = MoreSample.third_summary
    /\ (s_url MoreSample.third_summary <> [] ->
        exists q,
          App.select_product (products session)
            (mkChooseRequest None (Some (s_url MoreSample.third_summary)))
          = Some q
          /\ url q = s_url MoreSample.third_summary).
Proof.
  split; [vm_compute; reflexivity|].
  apply (response_summary_selects_product ascii_lower Sample.rejects ∅
           (snd Sample.shelf_outcome) Sample.mouse_search Sample.shelf_world
           Sample.shelf_response MoreSample.third_summary).
  - vm_compute. reflexivity.
  - vm_compute. right. right. left. reflexivity.
Defined.

(** X4. A [choose] that answers has selected a product of the stored list
    and recorded it in the session, together with the page url it reports;
    the plan and the product list of the session are unchanged, no other
    session is touched, and the status is ["added"] or
    ["needs_manual_add"]. *)
Theorem choose_response_effects (S S' : App.sessions) (sid : text)
    (body : ChooseRequest) (w : Product -> App.ChooseWorld)
    (r : ChooseResponse) :
  App.choose S sid body w = (inr r, S') ->
  exists session session' p,
    S !! sid = Some session
    /\ App.select_product (products session) body = Some p
    /\ S' !! sid = Some session'
    /\ plan session' = plan session
    /\ products session' = products session
    /\ chosen session' = Some p
    /\ page_url session' = Some (c_page_url r)
    /\ (c_status r = str "added" \/ c_status r = str "needs_manual_add")
    /\ forall k, k <> sid -> S' !! k = S !! k.
Proof.
  unfold App.choose. destruct (S !! sid) as [session|] eqn:Hs; [|discriminate].
  destruct (App.select_product (products session) body) as [p|] eqn:Hsel;
    [|discriminate].
  destruct (App.add_to_cart (w p)) as [e|[[added u] shot]]; [discriminate|].
  destruct (App.page_content (w p)) as [e|html]; [discriminate|].
  destruct (App.choose_exit (w p)); [discriminate|].
  intros [= <- <-]. eexists session, _, p.
  split; [reflexivity|]. split; [exact Hsel|].
  split; [apply lookup_insert_eq|]. cbn.
  repeat (split; [reflexivity|]).
  split; [destruct added; [left|right]; reflexivity|].
  intros k Hk. apply lookup_insert_ne. congruence.
Qed.

Lemma choose_response_effects_witness :
  exists session session' p,
    Sample.table !! Sample.sid = Some session
    /\ App.select_product (products session) (Sample.by_index 2) = Some p
    /\ snd (App.choose Sample.table Sample.sid (Sample.by_index 2)
              Sample.smooth_choose) !! Sample.sid = Some session'
    /\ plan session' = plan session
    /\ products session' = products session
    /\ chosen session' = Some p
    /\ page_url session' = Some (url Sample.mouse_c)
    /\ (str "added" = str "added" \/ str "added" = str "needs_manual_add")
    /\ forall k, k <> Sample.sid ->
         snd (App.choose Sample.table Sample.sid (Sample.by_index 2)
                Sample.smooth_choose) !! k = Sample.table !! k.
Proof.
  apply (choose_response_effects Sample.table _ Sample.sid (Sample.by_index 2)
           Sample.smooth_choose
           (mkChooseResponse (str "added") (url Sample.mouse_c)
              (str "iVBORw0KGgo="))).
  unfold App.choose. rewrite sample_table_sid. reflexivity.
Defined.

(** X5. What [choose] has recorded when it raises depends on where the
    browser failed: a failure before the screenshot is taken leaves the table
    untouched, but when only the final read of the page content raises, the
    selected product is already recorded, so that a later [checkout] on the
    session raises no [HTTPException]. *)
Theorem choose_failure_effects (S : App.sessions) (sid : text)
    (session : Session) (body : ChooseRequest)
    (w : Product -> App.ChooseWorld) (p : Product) :
  S !! sid = Some session ->
  App.select_product (products session) body = Some p ->
  (forall e, App.add_to_cart (w p) = inl e ->
     snd (App.choose S sid body w) = S)
  /\ (forall out e,
        App.add_to_cart (w p) = inr out -> App.page_content (w p) = inl e ->
        (exists e', fst (App.choose S sid body w) = inl (Foreign e'))
        /\ (exists session',
              snd (App.choose S sid body w) !! sid = Some session'
              /\ chosen session' = Some p
              /\ products session' = products session)
        /\ forall cbody cw code detail,
             fst (App.checkout (snd (App.choose S sid body w)) sid cbody cw)
             <> inl (HTTPException code detail)).
Proof.
  intros Hs Hsel. split.
  - intros e He. unfold App.choose. rewrite Hs, Hsel, He. reflexivity.
  - intros [[added u] shot] e Ha Hc.
    assert (Hch : App.choose S sid body w
                  = (inl (App.raised_after_exit e (App.choose_exit (w p))),
                     <[sid := mkSession (plan session) (products session)
                                (Some u) (last_page_html session) (Some p)]> S)).
    { unfold App.choose. rewrite Hs, Hsel, Ha, Hc. reflexivity. }
    rewrite Hch. cbn [fst snd]. split; [|split].
    + unfold App.raised_after_exit.
      destruct (App.choose_exit (w p)); eexists; reflexivity.
    + eexists. split; [apply lookup_insert_eq|]. split; reflexivity.
    + intros cbody cw code detail.
      eapply AppFacts.checkout_chosen; [apply lookup_insert_eq|reflexivity].
Qed.

Lemma choose_failure_effects_witness :
  (exists e', fst (App.choose Sample.table Sample.sid (Sample.by_index 0)
                     MoreSample.flaky_choose) = inl (Foreign e'))
  /\ (exists session',
        snd (App.choose Sample.table Sample.sid (Sample.by_index 0)
               MoreSample.flaky_choose) !! Sample.sid = Some session'
        /\ chosen session' = Some Sample.mouse_a
        /\ products session' = Sample.catalogue)
  /\ forall cbody cw code detail,
       fst (App.checkout
              (snd (App.choose Sample.table Sample.sid (Sample.by_index 0)
                      MoreSample.flaky_choose)) Sample.sid cbody cw)
       <> inl (HTTPException code detail).
Proof.
  apply (proj2 (choose_failure_effects Sample.table Sample.sid _
                  (Sample.by_index 0) MoreSample.flaky_choose Sample.mouse_a
                  sample_table_sid eq_refl)
           (false, url Sample.mouse_a, str "iVBORw0KGgo=") Sample.boom);
    reflexivity.
Defined.

Lemma choose_table (S : App.sessions) (sid : text) (body : ChooseRequest)
    (w : Product -> App.ChooseWorld) :
  snd (App.choose S sid body w) = S
  \/ exists session p u h,
       S !! sid = Some session
       /\ snd (App.choose S sid body w)
          = <[sid := mkSession (plan session) (products session) (Some u) h
                       (Some p)]> S.
Proof.
  unfold App.choose. destruct (S !! sid) as [session|] eqn:Hs; [|left; reflexivity].
  destruct (App.select_product (products session) body) as [p|];
    [|left; reflexivity].
  destruct (App.add_to_cart (w p)) as [e|[[added u] shot]]; [left; reflexivity|].
  right. exists session, p, u.
  destruct (App.page_content (w p)) as [e|html].
  - eexists. split; reflexivity.
  - eexists. split; [reflexivity|]. destruct (App.choose_exit (w p)); reflexivity.
Qed.

Lemma handle_keeps_session (S : App.sessions) (q : Workflow.request) (sid : text) :
  (Workflow.handle S q !! sid = None <-> S !! sid = None)
  /\ forall s, S !! sid = Some s ->
       exists s', Workflow.handle S q !! sid = Some s'
                  /\ plan s' = plan s /\ products s' = products s
                  /\ (chosen s <> None -> chosen s' <> None).
Proof.
  assert (Hid : forall S0 : App.sessions, S0 = S ->
            (S0 !! sid = None <-> S !! sid = None)
            /\ forall s, S !! sid = Some s ->
                 exists s', S0 !! sid = Some s'
                            /\ plan s' = plan s /\ products s' = products s
                            /\ (chosen s <> None -> chosen s' <> None)).
  { intros S0 ->. split; [reflexivity|]. intros s Hs. exists s. auto. }
  destruct q as [sid0 body w|sid0 body w]; cbn.
  - destruct (choose_table S sid0 body w) as [E|(session & p & u & h & Hs0 & E)];
      [apply Hid; exact E|].
    rewrite E. destruct (decide (sid0 = sid)) as [->|Hne].
    + rewrite lookup_insert_eq. split.
      * split; [discriminate|]. rewrite Hs0. discriminate.
      * intros s Hs. rewrite Hs0 in Hs. injection Hs as <-.
        eexists. split; [reflexivity|]. cbn. repeat split. discriminate.
    + rewrite lookup_insert_ne by exact Hne. split; [reflexivity|].
      intros s Hs. exists s. auto.
  - apply Hid. apply AppFacts.checkout_state.
Qed.

(** X6. No sequence of [choose] and [checkout] requests creates or removes a
    session, changes the plan or the product list of one, or takes back a
    recorded choice: the indices and urls of a search response stay valid for
    the life of its session, and a session that passed the chosen-product
    test of [checkout] once passes it for good. *)
Theorem serve_keeps_sessions (qs : list Workflow.request) (S : App.sessions)
    (sid : text) :
  (Workflow.serve S qs !! sid = None <-> S !! sid = None)
  /\ forall s, S !! sid = Some s ->
       exists s', Workflow.serve S qs !! sid = Some s'
                  /\ plan s' = plan s /\ products s' = products s
                  /\ (chosen s <> None -> chosen s' <> None).
Proof.
  revert S. induction qs as [|q qs IH]; intros S; cbn.
  - split; [reflexivity|]. intros s Hs. exists s. auto.
  - destruct (handle_keeps_session S q sid) as [Hn Hs].
    destruct (IH (Workflow.handle S q)) as [IHn IHs].
    split; [rewrite IHn; exact Hn|].
    intros s Hs0. destruct (Hs s Hs0) as (s1 & H1 & Hp1 & Hl1 & Hc1).
    destruct (IHs s1 H1) as (s2 & H2 & Hp2 & Hl2 & Hc2).
    exists s2. split; [exact H2|].
    split; [congruence|]. split; [congruence|]. auto.
Qed.

Lemma serve_keeps_sessions_witness :
  exists s', Workflow.serve Sample.table MoreSample.three_requests !! Sample.sid
             = Some s'
             /\ plan s' = Sample.mouse_plan /\ products s' = Sample.catalogue
             /\ (@None Product <> None -> chosen s' <> None).
Proof.
  apply (proj2 (serve_keeps_sessions MoreSample.three_requests Sample.table
                  Sample.sid) _ sample_table_sid).
Defined.

(** X7. A [checkout] that answers was made on a session with a chosen
    product; it leaves the table as it was, reports ["at_checkout"] or
    ["could_not_navigate_to_checkout"], always carries the note that the
    agent stopped before payment, and reports shipping as filled only if the
    request carried shipping fields. *)
Theorem checkout_response (S S' : App.sessions) (sid : text)
    (body : CheckoutRequest) (w : Product -> App.CheckoutWorld)
    (r : CheckoutResponse) :
  App.checkout S sid body w = (inr r, S') ->
  S' = S
  /\ (exists session p, S !! sid = Some session /\ chosen session = Some p)
  /\ (k_status r = str "at_checkout"
      \/ k_status r = str "could_not_navigate_to_checkout")
  /\ k_note r = App.payment_note
  /\ (k_filled_shipping r = true ->
      exists field fields, shipping body = Some (field :: fields)).
Proof.
  unfold App.checkout. destruct (S !! sid) as [session|]; [|discriminate].
  destruct (chosen session) as [p|] eqn:Hc; [|discriminate].
  destruct (App.drive_checkout (w p)) as [e|[[[proceeded fill] u] shot]];
    [discriminate|].
  destruct (App.checkout_exit (w p)); [discriminate|].
  intros [= <- <-]. cbn.
  split; [reflexivity|]. split; [exists session, p; auto|].
  split; [destruct proceeded; [left|right]; reflexivity|].
  split; [reflexivity|].
  destruct (shipping body) as [[|field fields]|]; try discriminate.
  intros _. eauto.
Qed.

Lemma checkout_response_witness :
  (exists session p,
      MoreSample.chosen_table !! Sample.sid = Some session
      /\ chosen session = Some p)
  /\ (str "at_checkout" = str "at_checkout"
      \/ str "at_checkout" = str "could_not_navigate_to_checkout").
Proof.
  destruct (checkout_response MoreSample.chosen_table MoreSample.chosen_table
              Sample.sid (mkCheckoutRequest None) Sample.smooth_checkout
              (mkCheckoutResponse (str "at_checkout") (url Sample.mouse_a) false
                 (str "iVBORw0KGgo=") App.payment_note))
    as (_ & H1 & H2 & _).
  - vm_compute. reflexivity.
  - split; [exact H1|exact H2].
Defined.

(** * Further properties of [ProductSelector.rank] *)

Module RankMore.
Import ProductSelector.

Lemma sorted_snoc {A : Type} (R : A -> A -> Prop) (l : list A) (x : A) :
  StronglySorted R l -> Forall (fun y => R y x) l ->
  StronglySorted R (l ++ [x]).
Proof.
  induction 1 as [|y l Hs IH Hy]; cbn; intros Hall.
  - repeat constructor.
  - apply Forall_cons_iff in Hall as [Hyx Hall]. constructor; [auto|].
    apply Forall_app. split; [exact Hy|]. repeat constructor. exact Hyx.
Qed.

Lemma sorted_rev {A : Type} (R : A -> A -> Prop) (l : list A) :
  StronglySorted R l -> StronglySorted (fun a b => R b a) (rev l).
Proof.
  induction 1 as [|x l Hs IH Hx]; cbn; [constructor|].
  apply sorted_snoc; [exact IH|].
  rewrite List.Forall_forall in *. intros y Hy. apply Hx.
  apply in_rev. exact Hy.
Qed.

Lemma score_ok_perm (l l' : list Product) :
  Permutation l' l ->
  Forall (fun p => PyFloat.is_nan (score p) = false) l ->
  Forall (fun p => PyFloat.is_nan (score p) = false) l'.
Proof.
  intros Hp Hl. rewrite List.Forall_forall in *. intros p Hin.
  apply Hl. apply (Permutation_in _ Hp). exact Hin.
Qed.

Lemma score_ok_of_numbers (l : list Product) :
  Forall price_is_number l ->
  Forall (fun p => PyFloat.is_nan (score p) = false) l.
Proof.
  intros H. rewrite List.Forall_forall in *. intros p Hp.
  apply RankFacts.score_is_number. auto.
Qed.

(** What [list.sort] does to a list in either direction. *)
Lemma sort_sorted_stable (reverse : bool) (l : list Product) :
  Forall (fun p => PyFloat.is_nan (score p) = false) l ->
  StronglySorted
    (if reverse then (fun a b => PyFloat.ltb (score a) (score b) = false)
     else PySort.before PyFloat.ltb score)
    (PySort.sort PyFloat.ltb score reverse l)
  /\ forall k, PyFloat.is_nan k = false ->
       List.filter (PySort.same_key PyFloat.ltb score k)
         (PySort.sort PyFloat.ltb score reverse l)
       = List.filter (PySort.same_key PyFloat.ltb score k) l.
Proof.
  intros Hok. destruct reverse; unfold PySort.sort.
  - assert (Hrev : Forall (fun p => PyFloat.is_nan (score p) = false) (rev l)).
    { apply (score_ok_perm l); [symmetry; apply Permutation_rev|exact Hok]. }
    split.
    + apply (sorted_rev (PySort.before PyFloat.ltb score)).
      apply (PySortFacts.sort_forward_sorted PyFloat.ltb score
               (fun k => PyFloat.is_nan k = false)
               PyFloatFacts.ltb_asym PyFloatFacts.ltb_negtrans _ Hrev).
    + intros k Hk. rewrite List.filter_rev.
      rewrite (PySortFacts.sort_forward_stable PyFloat.ltb score
                 (fun k => PyFloat.is_nan k = false)
                 PyFloatFacts.ltb_asym PyFloatFacts.ltb_negtrans k _ Hk Hrev).
      rewrite List.filter_rev. apply rev_involutive.
  - split.
    + apply (PySortFacts.sort_forward_sorted PyFloat.ltb score
               (fun k => PyFloat.is_nan k = false)
               PyFloatFacts.ltb_asym PyFloatFacts.ltb_negtrans _ Hok).
    + intros k Hk.
      apply (PySortFacts.sort_forward_stable PyFloat.ltb score
               (fun k => PyFloat.is_nan k = false)
               PyFloatFacts.ltb_asym PyFloatFacts.ltb_negtrans k _ Hk Hok).
Qed.

(** Sorting what is sorted changes nothing. *)
Lemma sort_forward_fixed (l : list Product) :
  Forall (fun p => PyFloat.is_nan (score p) = false) l ->
  StronglySorted (PySort.before PyFloat.ltb score) l ->
  PySort.sort_forward PyFloat.ltb score l = l.
Proof.
  intros Hok Hs. symmetry.
  apply (PySortUnique.sort_forward_unique PyFloat.ltb score
           (fun k => PyFloat.is_nan k = false)
           PyFloatFacts.ltb_asym PyFloatFacts.ltb_negtrans l l Hok Hok Hs).
  reflexivity.
Qed.

Lemma sort_idempotent (reverse : bool) (l : list Product) :
  Forall (fun p => PyFloat.is_nan (score p) = false) l ->
  PySort.sort PyFloat.ltb score reverse (PySort.sort PyFloat.ltb score reverse l)
  = PySort.sort PyFloat.ltb score reverse l.
Proof.
  intros Hok. destruct reverse; unfold PySort.sort.
  - rewrite rev_involutive. f_equal.
    assert (Hrev : Forall (fun p => PyFloat.is_nan (score p) = false) (rev l)).
    { apply (score_ok_perm l); [symmetry; apply Permutation_rev|exact Hok]. }
    apply sort_forward_fixed.
    + apply (score_ok_perm (rev l)); [apply PySortFacts.sort_forward_perm|exact Hrev].
    + apply (PySortFacts.sort_forward_sorted PyFloat.ltb score
               (fun k => PyFloat.is_nan k = false)
               PyFloatFacts.ltb_asym PyFloatFacts.ltb_negtrans _ Hrev).
  - apply sort_forward_fixed.
    + apply (score_ok_perm l); [apply PySortFacts.sort_forward_perm|exact Hok].
    + apply (PySortFacts.sort_forward_sorted PyFloat.ltb score
               (fun k => PyFloat.is_nan k = false)
               PyFloatFacts.ltb_asym PyFloatFacts.ltb_negtrans _ Hok).
Qed.

Section Filter.
Variable lower : text -> text.

Lemma filter_pass_perm (l l' : list Product) (c : Constraints) :
  Permutation l' l ->
  Permutation (filter_pass lower l' c) (filter_pass lower l c).
Proof.
  unfold filter_pass. induction 1; cbn.
  - constructor.
  - destruct (keep lower c x); [constructor|]; assumption.
  - destruct (keep lower c x), (keep lower c y); try reflexivity. apply perm_swap.
  - etransitivity; eassumption.
Qed.

(** The candidates of a ranked list are the ranked list itself. *)
Lemma filtered_or_all_of_ranked (b : bool) (l : list Product) (c : Constraints) :
  filtered_or_all lower (rank lower b l c) c = rank lower b l c.
Proof.
  pose proof (RankFacts.rank_perm lower b l c) as Hperm.
  unfold filtered_or_all at 1.
  destruct (filter_pass lower l c) as [|p0 l0] eqn:Hf.
  - (* fallback: nothing passes, before or after *)
    rewrite (RankFacts.filtered_or_all_fallback lower l c Hf) in Hperm.
    pose proof (filter_pass_perm _ _ c Hperm) as Hp. rewrite Hf in Hp.
    apply Permutation_sym, Permutation_nil in Hp. rewrite Hp. reflexivity.
  - (* everything ranked passes *)
    assert (Hne : filter_pass lower l c <> []) by (rewrite Hf; discriminate).
    rewrite (RankFacts.filtered_or_all_filtered lower l c Hne) in Hperm.
    assert (Hall : forallb (keep lower c) (rank lower b l c) = true).
    { apply forallb_forall. intros p Hp.
      apply (Permutation_in _ Hperm) in Hp.
      apply List.filter_In in Hp as [_ Hk]. exact Hk. }
    unfold filter_pass at 1. rewrite (List.forallb_filter_id _ _ Hall).
    destruct (rank lower b l c) eqn:E; reflexivity.
Qed.
End Filter.

End RankMore.

(** X8. With [prefer_low_price=False] the ranking is in descending order of
    effective price and still stable: no product stands before one with a
    greater score, and the products of one price class keep their input
    order.  Prices are taken to be numbers. *)
Theorem rank_descending_stable (lower : text -> text)
    (products : list Product) (c : Constraints) :
  Forall ProductSelector.price_is_number products ->
  StronglySorted
    (fun a b => PyFloat.ltb (ProductSelector.score a) (ProductSelector.score b)
                = false)
    (ProductSelector.rank lower false products c)
  /\ forall k, PyFloat.is_nan k = false ->
       List.filter (PySort.same_key PyFloat.ltb ProductSelector.score k)
         (ProductSelector.rank lower false products c)
       = List.filter (PySort.same_key PyFloat.ltb ProductSelector.score k)
           (ProductSelector.filtered_or_all lower products c).
Proof.
  intros Hnum.
  assert (Hok : Forall (fun p => PyFloat.is_nan (ProductSelector.score p) = false)
                  (ProductSelector.filtered_or_all lower products c)).
  { apply RankMore.score_ok_of_numbers.
    rewrite List.Forall_forall in *. intros p Hp. apply Hnum.
    apply list_elem_of_In.
    eapply elem_of_sublist; [apply list_elem_of_In; exact Hp|].
    apply RankFacts.filtered_or_all_sublist. }
  exact (RankMore.sort_sorted_stable true _ Hok).
Qed.

Lemma rank_descending_stable_witness :
  StronglySorted
    (fun a b => PyFloat.ltb (ProductSelector.score a) (ProductSelector.score b)
                = false)
    (ProductSelector.rank ascii_lower false Sample.catalogue
       (mkConstraints None [])).
Proof.
  apply (rank_descending_stable ascii_lower Sample.catalogue
           (mkConstraints None [])).
  repeat constructor; discriminate.
Defined.

(** X9. Ranking is idempotent: ranking an already ranked list again, under
    the same constraints and in the same direction, returns it unchanged.
    Prices are taken to be numbers. *)
Theorem rank_idempotent (lower : text -> text) (prefer_low_price : bool)
    (products : list Product) (c : Constraints) :
  Forall ProductSelector.price_is_number products ->
  ProductSelector.rank lower prefer_low_price
    (ProductSelector.rank lower prefer_low_price products c) c
  = ProductSelector.rank lower prefer_low_price products c.
Proof.
  intros Hnum. unfold ProductSelector.rank at 1.
  rewrite RankMore.filtered_or_all_of_ranked.
  unfold ProductSelector.rank. apply RankMore.sort_idempotent.
  apply RankMore.score_ok_of_numbers.
  rewrite List.Forall_forall in *. intros p Hp. apply Hnum.
  apply list_elem_of_In.
  eapply elem_of_sublist; [apply list_elem_of_In; exact Hp|].
  apply RankFacts.filtered_or_all_sublist.
Qed.

Lemma rank_idempotent_witness :
  ProductSelector.rank ascii_lower false
    (ProductSelector.rank ascii_lower false Sample.catalogue Sample.under_twenty)
    Sample.under_twenty
  = ProductSelector.rank ascii_lower false Sample.catalogue Sample.under_twenty.
Proof.
  apply rank_idempotent. repeat constructor; discriminate.
Defined.

(** X10. When the filter pass leaves something, the ranking is exactly the
    products that pass, reordered: none is lost, none is added, and the
    lower-cased title of every ranked product contains every lower-cased
    keyword of [must_have].  In every case the ranking is a reordering of a
    subsequence of the input. *)
Theorem rank_keeps_passing_products (lower : text -> text)
    (prefer_low_price : bool) (products : list Product) (c : Constraints) :
  (exists sub, sublist sub products
               /\ Permutation (ProductSelector.rank lower prefer_low_price
                                 products c) sub)
  /\ (ProductSelector.filter_pass lower products c <> [] ->
      Permutation (ProductSelector.rank lower prefer_low_price products c)
        (List.filter (ProductSelector.keep lower c) products)
      /\ forall p k,
           In p (ProductSelector.rank lower prefer_low_price products c) ->
           In k (must_have c) ->
           contains (lower k) (lower (title p)) = true).
Proof.
  split.
  - exists (ProductSelector.filtered_or_all lower products c).
    split; [apply RankFacts.filtered_or_all_sublist|apply RankFacts.rank_perm].
  - intros Hne.
    pose proof (RankFacts.rank_perm lower prefer_low_price products c) as Hperm.
    rewrite (RankFacts.filtered_or_all_filtered lower products c Hne) in Hperm.
    split; [exact Hperm|].
    intros p k Hp Hk. apply (Permutation_in _ Hperm) in Hp.
    apply List.filter_In in Hp as [_ Hkeep].
    unfold ProductSelector.keep in Hkeep. apply andb_prop in Hkeep as [_ Hkw].
    apply negb_true_iff in Hkw. unfold ProductSelector.lacks_keyword in Hkw.
    destruct (must_have c) as [|k0 ks] eqn:E; [destruct Hk|].
    apply negb_false_iff in Hkw.
    rewrite forallb_forall in Hkw. apply Hkw. exact Hk.
Qed.

Lemma rank_keeps_passing_products_witness :
  Forall (fun p => contains (str "wireless") (ascii_lower (title p)) = true)
    (ProductSelector.rank ascii_lower true Sample.catalogue
       MoreSample.wireless_only).
Proof.
  apply List.Forall_forall. intros p Hp.
  apply (proj2 (proj2 (rank_keeps_passing_products ascii_lower true
                         Sample.catalogue MoreSample.wireless_only)
                  ltac:(vm_compute; discriminate))
           p (str "Wireless") Hp).
  left. reflexivity.
Defined.

(** * Further properties of [parse_price] *)

Module PriceParserMore.
Import PriceParser.

Lemma span_snd_exists (p q : N -> bool) (t : text) :
  existsb p (snd (span q t)) = true -> existsb p t = true.
Proof.
  induction t as [|c t IH]; cbn; [auto|].
  destruct (q c).
  - destruct (span q t) as [a b]. cbn in *. intros H.
    rewrite (IH H). apply orb_true_r.
  - cbn. auto.
Qed.

Lemma span_fst_head (p : N -> bool) (t : text) (d : N) (ds : text) :
  fst (span p t) = d :: ds -> exists r, t = d :: r /\ p d = true.
Proof.
  destruct t as [|c t]; cbn; [discriminate|].
  destruct (p c) eqn:E; [|discriminate].
  destruct (span p t) as [a b]. cbn. intros [= <- _]. eauto.
Qed.

(** A match starts at a digit of the text (after the optional symbol and
    blanks), and consists of digits and at most one dot. *)
Lemma match_here_digit (t : text) (r : option text * text) :
  match_here t = Some r -> existsb is_digit t = true.
Proof.
  unfold match_here.
  set (ct := match t with
             | c :: r0 => if is_currency c then (Some [c], r0) else (None, t)
             | [] => (None, t)
             end).
  assert (Hsub : existsb is_digit (snd ct) = true -> existsb is_digit t = true).
  { subst ct. destruct t as [|c t]; [auto|].
    destruct (is_currency c); cbn; [|auto]. intros ->. apply orb_true_r. }
  destruct ct as [cur t1]. cbn in Hsub.
  destruct (span is_digit (snd (span is_space t1))) as [ds t3] eqn:E.
  destruct ds as [|d ds]; [discriminate|]. intros _.
  apply Hsub. apply (span_snd_exists is_digit is_space).
  assert (E1 : fst (span is_digit (snd (span is_space t1))) = d :: ds)
    by (rewrite E; reflexivity).
  apply span_fst_head in E1 as (r0 & -> & Hd). cbn. rewrite Hd. reflexivity.
Qed.

Lemma match_here_at_digit (d : N) (t : text) :
  is_digit d = true -> exists r, match_here (d :: t) = Some r.
Proof.
  intros Hd. unfold match_here.
  assert (Hc : is_currency d = false) by (PriceParserFacts.by_digit Hd).
  rewrite Hc. rewrite (PriceParserFacts.span_space_digit d t Hd). cbn [snd].
  cbn [span]. rewrite Hd. destruct (span is_digit t) as [a b]. eauto.
Qed.

Lemma re_search_none_iff (t : text) :
  re_search t = None <-> existsb is_digit t = false.
Proof.
  induction t as [|c t IH]; cbn [re_search existsb].
  - split; [reflexivity|]. intros _. reflexivity.
  - destruct (match_here (c :: t)) as [r|] eqn:E.
    + apply match_here_digit in E. cbn in E. rewrite E.
      split; discriminate.
    + rewrite IH. destruct (is_digit c) eqn:Hd; cbn; [|reflexivity].
      destruct (match_here_at_digit c t Hd) as (r & Hr). congruence.
Qed.

Lemma remove_commas_has_digit (t : text) :
  existsb is_digit (remove_char comma t) = existsb is_digit t.
Proof.
  unfold remove_char. induction t as [|c t IH]; cbn; [reflexivity|].
  destruct (c =? comma) eqn:E; cbn; rewrite IH; [|reflexivity].
  apply N.eqb_eq in E. subst c. reflexivity.
Qed.

Lemma of_ratio_nonneg (num den : Z) :
  Shape.nonneg_number (PyFloat.of_ratio num den) = true.
Proof.
  unfold PyFloat.of_ratio.
  destruct num as [|n|n]; try reflexivity.
  destruct den as [|d|d]; try reflexivity.
  pose proof (PriceIsNumber.of_ratio_number (Zpos n) (Zpos d)) as Hn.
  unfold PyFloat.of_ratio in Hn. revert Hn.
  unfold SFdiv. destruct (SFdiv_core_binary _ _ _ _ _ _) as [[mz ez] lz].
  cbn [xorb]. unfold binary_round_aux.
  destruct (shr_fexp _ _ mz ez lz) as [mrs' e'].
  destruct (shr_fexp _ _ _ e' loc_Exact) as [mrs'' e''].
  destruct (shr_m mrs''); cbn; try discriminate; [reflexivity|].
  destruct (_ <=? _)%Z; reflexivity.
Qed.

Lemma match_here_currency (t : text) (cur : option text) (num : text) :
  match_here t = Some (cur, num) ->
  match cur with Some c => Shape.currency_symbol c = true | None => True end.
Proof.
  unfold match_here. destruct t as [|c t].
  - cbn. discriminate.
  - destruct (is_currency c) eqn:Hc.
    + destruct (span is_digit _) as [[|d ds] t3]; [discriminate|].
      intros [= <- _]. cbn. exact Hc.
    + destruct (span is_digit _) as [[|d ds] t3]; [discriminate|].
      intros [= <- _]. exact I.
Qed.

Lemma re_search_currency (t : text) (cur : option text) (num : text) :
  re_search t = Some (cur, num) ->
  match cur with Some c => Shape.currency_symbol c = true | None => True end.
Proof.
  induction t as [|c t IH]; cbn [re_search].
  - destruct (match_here []) eqn:E; [|discriminate].
    intros [= ->]. apply (match_here_currency _ _ _ E).
  - destruct (match_here (c :: t)) eqn:E.
    + intros [= ->]. apply (match_here_currency _ _ _ E).
    + exact IH.
Qed.

End PriceParserMore.

(** X11. [parse_price] returns no price exactly when the text is absent or
    contains no ASCII digit, and then it returns no currency either: a
    currency symbol alone is not a price. *)
Theorem parse_price_none_iff_no_digit (txt : option text) :
  (fst (PriceParser.parse_price txt) = None
   <-> match txt with
       | None => True
       | Some s => Shape.has_digit s = false
       end)
  /\ (fst (PriceParser.parse_price txt) = None ->
      snd (PriceParser.parse_price txt) = None).
Proof.
  unfold PriceParser.parse_price, Shape.has_digit.
  destruct txt as [[|c s]|]; cbn [fst snd]; try (split; [split|]; reflexivity).
  pose proof (PriceParserMore.re_search_none_iff (remove_char comma (c :: s))) as H.
  rewrite PriceParserMore.remove_commas_has_digit in H.
  destruct (PriceParser.re_search (remove_char comma (c :: s))) as [[cur num]|];
    cbn [fst snd].
  - split; [|discriminate]. split; [discriminate|].
    intros E. apply H in E. discriminate.
  - split; [|reflexivity]. split; [intros _; apply H; reflexivity|reflexivity].
Qed.

(** X12. Whatever the text, a price that [parse_price] returns is [0.0], a
    positive number or positive infinity, never negative and never a NaN; and
    a currency it returns is one of the three symbols, as a one-character
    string. *)
Theorem parse_price_result_shape (txt : option text) :
  match fst (PriceParser.parse_price txt) with
  | Some x => Shape.nonneg_number x = true
  | None => True
  end
  /\ match snd (PriceParser.parse_price txt) with
     | Some c => Shape.currency_symbol c = true
     | None => True
     end.
Proof.
  unfold PriceParser.parse_price.
  destruct txt as [[|c s]|]; cbn [fst snd]; try (split; exact I).
  destruct (PriceParser.re_search (remove_char comma (c :: s)))
    as [[cur num]|] eqn:E; cbn [fst snd]; [|split; exact I].
  split.
  - unfold PyFloat.of_decimal. destruct (span is_digit num) as [ip rest].
    apply PriceParserMore.of_ratio_nonneg.
  - apply (PriceParserMore.re_search_currency _ _ _ E).
Qed.

(** X13. Whatever follows the second fraction digit is ignored: a price
    with more than two fraction digits is cut after the second one, not
    rounded, and trailing text does not matter. *)
Theorem parse_price_cuts_after_two_digits (sym : N) (body : text) (d1 d2 : N)
    (tail : text) :
  PriceParser.is_currency sym = true ->
  PriceParser.is_grouped_digits body = true ->
  is_digit d1 = true -> is_digit d2 = true ->
  PriceParser.parse_price (Some (sym :: body ++ [dot; d1; d2] ++ tail))
  = (Some (PyFloat.of_decimal (remove_char comma body ++ [dot; d1; d2])),
     Some [sym]).
Proof.
  intros Hsym Hbody H1 H2.
  unfold PriceParser.is_grouped_digits in Hbody.
  apply andb_prop in Hbody as [Hall Hex].
  pose proof (PriceParserFacts.remove_commas_digits body Hall) as Hds.
  pose proof (PriceParserFacts.remove_commas_nonempty body Hex) as Hne.
  unfold PriceParser.parse_price.
  assert (Hrm : remove_char comma (sym :: body ++ [dot; d1; d2] ++ tail)
                = sym :: remove_char comma body
                         ++ dot :: d1 :: d2 :: remove_char comma tail).
  { unfold remove_char. cbn [List.filter].
    rewrite (PriceParserFacts.currency_not_comma sym Hsym). cbn [negb].
    rewrite List.filter_app. cbn [app List.filter].
    rewrite (PriceParserFacts.digit_not_comma d1 H1),
            (PriceParserFacts.digit_not_comma d2 H2).
    reflexivity. }
  rewrite Hrm.
  destruct (remove_char comma body) as [|d ds] eqn:Eds; [congruence|].
  assert (Hd : is_digit d = true).
  { cbn in Hds. apply andb_prop in Hds as [Hd _]. exact Hd. }
  cbn [PriceParser.re_search]. unfold PriceParser.match_here.
  rewrite Hsym.
  change ((d :: ds) ++ dot :: d1 :: d2 :: remove_char comma tail)
    with (d :: (ds ++ dot :: d1 :: d2 :: remove_char comma tail)).
  rewrite (PriceParserFacts.span_space_digit d _ Hd). cbn [snd].
  change (d :: (ds ++ dot :: d1 :: d2 :: remove_char comma tail))
    with ((d :: ds) ++ dot :: d1 :: d2 :: remove_char comma tail).
  rewrite (PriceParserFacts.span_digits_app (d :: ds)
             (dot :: d1 :: d2 :: remove_char comma tail) Hds eq_refl).
  unfold PriceParser.match_fraction.
  rewrite N.eqb_refl, H1, H2. reflexivity.
Qed.

Lemma parse_price_cuts_after_two_digits_witness :
  PriceParser.parse_price (Some (str "$1.999 each"))
  = (Some (PyFloat.of_decimal (str "1.99")), Some (str "$")).
Proof.
  apply (parse_price_cuts_after_two_digits dollar (str "1") 57 57 (str "9 each"));
    reflexivity.
Defined.

(** * Further properties of [LLMPlanner.plan] *)

Module PlannerMore.
Import LLMPlanner.

Lemma prefixb_contains (s t : text) : prefixb s t = true -> contains s t = true.
Proof. intros H. destruct t; cbn; rewrite H; reflexivity. Qed.

Lemma match_under_prefix (t g : text) :
  match_under_here t = Some g -> prefixb (str "under") t = true.
Proof.
  unfold match_under_here. destruct (prefixb (str "under") t); [reflexivity|].
  discriminate.
Qed.

Lemma search_under_contains (t g : text) :
  search_under t = Some g -> contains (str "under") t = true.
Proof.
  induction t as [|c t IH]; cbn [search_under].
  - destruct (match_under_here []) eqn:E; [|discriminate]. intros _.
    apply prefixb_contains. apply (match_under_prefix _ _ E).
  - destruct (match_under_here (c :: t)) eqn:E.
    + intros _. apply prefixb_contains. apply (match_under_prefix _ _ E).
    + intros H. cbn [contains]. rewrite (IH H). apply orb_true_r.
Qed.

End PlannerMore.

(** X14. In the fallback plan the store is read off the lower-cased request
    with a fixed priority, whatever the order of the names in the text:
    walmart before ebay before amazon, and no store if none is named; and
    [plan_and_search] turns to the caller's [site_hint] only in that last
    case. *)
Theorem fallback_store_priority (lower : text -> text) (request : text)
    (hint : option text) :
  plan_store (LLMPlanner.fallback lower request)
  = (if contains (str "walmart") (lower request) then Some (str "walmart")
     else if contains (str "ebay") (lower request) then Some (str "ebay")
     else if contains (str "amazon") (lower request) then Some (str "amazon")
     else None)
  /\ App.or_else (plan_store (LLMPlanner.fallback lower request)) hint
     = match plan_store (LLMPlanner.fallback lower request) with
       | Some s => Some s
       | None => hint
       end.
Proof.
  unfold LLMPlanner.fallback. cbn [plan_store fold_left].
  destruct (contains (str "walmart") (lower request)),
           (contains (str "ebay") (lower request)),
           (contains (str "amazon") (lower request)); split; reflexivity.
Qed.

(** X15. The fallback plan carries no keywords and the whole request as
    query; its price ceiling, when there is one, is a float that is zero or
    positive, never a NaN, so the price test of the ranking always compares
    numbers; and there is no ceiling unless the request contains the
    lower-case word "under". *)
Theorem fallback_plan_shape (lower : text -> text) (request : text) :
  plan_query (LLMPlanner.fallback lower request) = Some request
  /\ plan_must_have (LLMPlanner.fallback lower request) = []
  /\ match plan_max_price (LLMPlanner.fallback lower request) with
     | Some P => exists x, P = PyFloat x /\ Shape.nonneg_number x = true
                           /\ ProductSelector.number_is_nan P = false
     | None => True
     end
  /\ (contains (str "under") request = false ->
      plan_max_price (LLMPlanner.fallback lower request) = None).
Proof.
  unfold LLMPlanner.fallback. cbn [plan_query plan_must_have plan_max_price].
  split; [reflexivity|]. split; [reflexivity|]. split.
  - destruct (LLMPlanner.search_under request) as [g|]; [|exact I].
    exists (PyFloat.of_decimal g).
    assert (Hn : Shape.nonneg_number (PyFloat.of_decimal g) = true).
    { unfold PyFloat.of_decimal. destruct (span is_digit g) as [ip rest].
      apply PriceParserMore.of_ratio_nonneg. }
    split; [reflexivity|]. split; [exact Hn|].
    cbn. destruct (PyFloat.of_decimal g) as [| | |[] ? ?]; try discriminate;
      reflexivity.
  - intros Hno. destruct (LLMPlanner.search_under request) as [g|] eqn:E;
      [|reflexivity].
    apply PlannerMore.search_under_contains in E. congruence.
Qed.

Lemma fallback_plan_shape_witness :
  plan_max_price (LLMPlanner.fallback ascii_lower (str "Mouse Under $20")) = None.
Proof.
  apply (fallback_plan_shape ascii_lower (str "Mouse Under $20")). reflexivity.
Defined.

Module JsonTextFacts.
Import LLMPlanner.

Lemma span_app (p : N -> bool) (t : text) :
  t = fst (span p t) ++ snd (span p t).
Proof.
  induction t as [|c t IH]; cbn; [reflexivity|].
  destruct (p c); [|reflexivity].
  destruct (span p t) as [a b]. cbn in *. congruence.
Qed.

Lemma span_fst_all (p : N -> bool) (t : text) :
  forallb p (fst (span p t)) = true.
Proof.
  induction t as [|c t IH]; cbn; [reflexivity|].
  destruct (p c) eqn:E; [|reflexivity].
  destruct (span p t) as [a b]. cbn in *. rewrite E. exact IH.
Qed.

Lemma span_snd_head (p : N -> bool) (t : text) (c : N) (r : text) :
  snd (span p t) = c :: r -> p c = false.
Proof.
  induction t as [|x t IH]; cbn; [discriminate|].
  destruct (p x) eqn:E.
  - destruct (span p t) as [a b]. cbn in *. exact IH.
  - cbn. intros [= <- _]. exact E.
Qed.

(** Passing over a prefix on which [p] holds. *)
Lemma span_snd_skip (p : N -> bool) (a t : text) :
  forallb p a = true -> snd (span p (a ++ t)) = snd (span p t).
Proof.
  induction a as [|x a IH]; cbn; [reflexivity|].
  intros H. apply andb_prop in H as [Hx Ha]. rewrite Hx.
  specialize (IH Ha).
  destruct (span p (a ++ t)) as [u v]. cbn in *. exact IH.
Qed.

(** Stopping inside the first part. *)
Lemma span_snd_app (p : N -> bool) (t u : text) :
  snd (span p t) <> [] -> snd (span p (t ++ u)) = snd (span p t) ++ u.
Proof.
  induction t as [|x t IH]; cbn; [congruence|].
  destruct (p x).
  - destruct (span p t) as [a b], (span p (t ++ u)) as [a' b']. cbn in *. exact IH.
  - reflexivity.
Qed.

Lemma span_snd_nil (p : N -> bool) (t : text) :
  snd (span p t) = [] <-> forallb p t = true.
Proof.
  induction t as [|x t IH]; cbn; [split; reflexivity|].
  destruct (p x); cbn.
  - destruct (span p t) as [a b]. cbn in *. exact IH.
  - split; discriminate.
Qed.

Lemma space_not_lbrace (ws : text) :
  forallb is_space ws = true ->
  forallb (fun c => negb (c =? lbrace)) ws = true.
Proof.
  induction ws as [|c ws IH]; cbn; [reflexivity|].
  intros H. apply andb_prop in H as [Hc H]. rewrite (IH H), andb_true_r.
  destruct (c =? lbrace) eqn:E; [|reflexivity].
  apply N.eqb_eq in E. subst c. discriminate.
Qed.

Lemma space_no_rbrace (ws : text) :
  forallb is_space ws = true ->
  existsb (fun c => c =? rbrace) ws = false.
Proof.
  induction ws as [|c ws IH]; cbn; [reflexivity|].
  intros H. apply andb_prop in H as [Hc H]. rewrite (IH H), orb_false_r.
  destruct (c =? rbrace) eqn:E; [|reflexivity].
  apply N.eqb_eq in E. subst c. discriminate.
Qed.

Lemma brace_pair_skip_space (ws t : text) :
  forallb is_space ws = true ->
  Shape.brace_pair (ws ++ t) = Shape.brace_pair t.
Proof.
  intros H. unfold Shape.brace_pair.
  rewrite (span_snd_skip _ ws t (space_not_lbrace ws H)). reflexivity.
Qed.

Lemma brace_pair_drop_space (t ws : text) :
  forallb is_space ws = true ->
  Shape.brace_pair (t ++ ws) = Shape.brace_pair t.
Proof.
  intros H. unfold Shape.brace_pair.
  destruct (snd (span (fun c => negb (c =? lbrace)) t)) as [|c r] eqn:E.
  - apply span_snd_nil in E.
    rewrite (span_snd_skip _ t ws E).
    assert (E' : snd (span (fun c => negb (c =? lbrace)) ws) = []).
    { apply span_snd_nil. apply space_not_lbrace. exact H. }
    rewrite E'. reflexivity.
  - rewrite span_snd_app by (rewrite E; discriminate). rewrite E. cbn.
    rewrite existsb_app, (space_no_rbrace ws H), orb_false_r. reflexivity.
Qed.

(** [strip] removes a run of blanks at either end and nothing else. *)
Lemma strip_decompose (t : text) :
  exists ws1 ws2,
    t = ws1 ++ strip t ++ ws2
    /\ forallb is_space ws1 = true /\ forallb is_space ws2 = true.
Proof.
  unfold strip.
  exists (fst (span is_space t)),
         (rev (fst (span is_space (rev (snd (span is_space t)))))).
  split; [|split].
  - rewrite <- rev_app_distr, <- span_app, rev_involutive. apply span_app.
  - apply span_fst_all.
  - rewrite forallb_forall. intros c Hc. apply in_rev in Hc.
    pose proof (span_fst_all is_space (rev (snd (span is_space t)))) as H.
    rewrite forallb_forall in H. auto.
Qed.

Lemma brace_pair_strip (t : text) :
  Shape.brace_pair (strip t) = Shape.brace_pair t.
Proof.
  destruct (strip_decompose t) as (ws1 & ws2 & E & H1 & H2).
  rewrite E at 2.
  rewrite (brace_pair_skip_space ws1 _ H1), (brace_pair_drop_space _ ws2 H2).
  reflexivity.
Qed.

Lemma existsb_rev {A : Type} (f : A -> bool) (l : list A) :
  existsb f (rev l) = existsb f l.
Proof.
  induction l as [|x l IH]; cbn; [reflexivity|].
  rewrite existsb_app, IH. cbn. rewrite orb_false_r. apply orb_comm.
Qed.

Lemma span_snd_exists_not (p : N -> bool) (t : text) :
  existsb (fun c => negb (p c)) t = true -> snd (span p t) <> [].
Proof.
  intros H E. apply span_snd_nil in E.
  rewrite forallb_forall in E. apply existsb_exists in H as (c & Hc & Hn).
  rewrite (E c Hc) in Hn. discriminate.
Qed.

(** What [search_braces] finds: a part of the text from an opening to a
    closing brace; and it finds one whenever there is a brace pair. *)
Lemma search_braces_some (t j : text) :
  search_braces t = Some j ->
  exists pre post inner,
    t = pre ++ j ++ post /\ j = lbrace :: inner ++ [rbrace].
Proof.
  unfold search_braces.
  destruct (snd (span (fun c => negb (c =? lbrace)) t)) as [|c r] eqn:E;
    [discriminate|].
  pose proof (span_snd_head _ _ _ _ E) as Hc.
  apply negb_false_iff, N.eqb_eq in Hc. subst c.
  destruct (snd (span (fun c => negb (c =? rbrace)) (rev r))) as [|c back] eqn:E';
    [discriminate|].
  pose proof (span_snd_head _ _ _ _ E') as Hc.
  apply negb_false_iff, N.eqb_eq in Hc. subst c.
  intros [= <-].
  exists (fst (span (fun c => negb (c =? lbrace)) t)),
         (rev (fst (span (fun c => negb (c =? rbrace)) (rev r)))),
         (rev back).
  split; [|reflexivity].
  rewrite (span_app (fun c => negb (c =? lbrace)) t) at 1. rewrite E.
  f_equal. cbn [app]. f_equal.
  rewrite <- (rev_involutive r) at 1.
  rewrite (span_app (fun c => negb (c =? rbrace)) (rev r)) at 1.
  rewrite E', rev_app_distr. reflexivity.
Qed.

Lemma search_braces_pair (t : text) :
  Shape.brace_pair t = true -> exists j, search_braces t = Some j.
Proof.
  unfold Shape.brace_pair, search_braces.
  destruct (snd (span (fun c => negb (c =? lbrace)) t)) as [|c r];
    [discriminate|].
  intros H.
  assert (Hne : snd (span (fun c => negb (c =? rbrace)) (rev r)) <> []).
  { apply span_snd_exists_not. rewrite existsb_rev.
    rewrite <- H. clear H. induction r as [|x r IH]; cbn; [reflexivity|].
    rewrite negb_involutive, IH. reflexivity. }
  destruct (snd (span (fun c => negb (c =? rbrace)) (rev r))); [congruence|].
  eauto.
Qed.

Lemma brace_pair_intro (a b c : text) :
  Shape.brace_pair (a ++ lbrace :: b ++ rbrace :: c) = true.
Proof.
  assert (Hex : forall pre,
            existsb (fun y => y =? rbrace) (pre ++ b ++ rbrace :: c) = true).
  { intros pre. rewrite !existsb_app. cbn. rewrite !orb_true_r. reflexivity. }
  unfold Shape.brace_pair. induction a as [|y a IH]; cbn.
  - apply (Hex []).
  - destruct (y =? lbrace) eqn:E; cbn.
    + rewrite <- (Hex (a ++ [lbrace])), <- app_assoc. reflexivity.
    + destruct (span _ (a ++ lbrace :: b ++ rbrace :: c)) as [u v]. exact IH.
Qed.

End JsonTextFacts.

(** X16. The text that [plan] hands to [json.loads] is always a contiguous
    part of the model's answer.  If the answer has an opening brace with a
    closing brace somewhere behind it, that text starts with an opening and
    ends with a closing brace, whatever prose or fencing surrounds them;
    otherwise it is the answer with the blanks at both ends removed. *)
Theorem json_text_part_of_answer (resp_text : text) :
  (exists pre post, resp_text = pre ++ LLMPlanner.json_text resp_text ++ post)
  /\ (forall a b c,
        resp_text = a ++ LLMPlanner.lbrace :: b ++ LLMPlanner.rbrace :: c ->
        exists inner,
          LLMPlanner.json_text resp_text
          = LLMPlanner.lbrace :: inner ++ [LLMPlanner.rbrace])
  /\ (Shape.brace_pair resp_text = false ->
      LLMPlanner.json_text resp_text = LLMPlanner.strip resp_text).
Proof.
  unfold LLMPlanner.json_text.
  destruct (JsonTextFacts.strip_decompose resp_text) as (ws1 & ws2 & E & _ & _).
  destruct (LLMPlanner.search_braces (LLMPlanner.strip resp_text)) as [j|] eqn:Ej.
  - destruct (JsonTextFacts.search_braces_some _ _ Ej)
      as (pre & post & inner & Hs & Hj).
    split; [|split].
    + exists (ws1 ++ pre), (post ++ ws2).
      rewrite E at 1. rewrite Hs. rewrite <- !app_assoc. reflexivity.
    + intros _ _ _ _. exists inner. exact Hj.
    + intros Hno. rewrite <- JsonTextFacts.brace_pair_strip in Hno.
      rewrite Hs, Hj in Hno. cbn [app] in Hno.
      rewrite <- app_assoc in Hno. cbn [app] in Hno.
      rewrite (JsonTextFacts.brace_pair_intro pre inner post) in Hno.
      discriminate.
  - split; [|split].
    + exists ws1, ws2. exact E.
    + intros a b c Habc.
      pose proof (JsonTextFacts.brace_pair_intro a b c) as Hp.
      rewrite <- Habc, <- JsonTextFacts.brace_pair_strip in Hp.
      destruct (JsonTextFacts.search_braces_pair _ Hp) as (j & Hj). congruence.
    + reflexivity.
Qed.

Lemma json_text_part_of_answer_witness :
  exists inner,
    LLMPlanner.json_text
      (str "Here you go: {'query': 'mouse'} - anything else?")
    = LLMPlanner.lbrace :: inner ++ [LLMPlanner.rbrace].
Proof.
  apply (proj1 (proj2 (json_text_part_of_answer
                         (str "Here you go: {'query': 'mouse'} - anything else?")))
           (str "Here you go: ") (str "'query': 'mouse'")
           (str " - anything else?")).
  reflexivity.
Defined.

(** * [ActionExecutor] *)

Module ActionFacts.
Import ActionExecutor.

(** One turn of a selector loop never raises: it queries, interacts if the
    element exists, and reports whether that went through. *)
Lemma try_candidate_cases (pg : page) (i : call * option exn) (sel : text) :
  try_candidate pg i sel
  = (QuerySelector sel
       :: match query pg sel with inr true => [fst i] | _ => [] end,
     inr match query pg sel, snd i with
         | inr true, None => true
         | _, _ => false
         end).
Proof.
  unfold try_candidate, Exc.try_except, Exc.perform, Eff.bind, Eff.call, Eff.ret.
  destruct (query pg sel) as [e|[]]; cbn; try reflexivity.
  destruct (snd i); reflexivity.
Qed.

Lemma first_hit_cons (pg : page) (i : text -> call * option exn) (sel : text)
    (rest : list text) :
  first_hit pg i (sel :: rest)
  = if hits pg i sel
    then ([QuerySelector sel; fst (i sel)], inr true)
    else (QuerySelector sel
            :: match query pg sel with inr true => [fst (i sel)] | _ => [] end
            ++ fst (first_hit pg i rest),
          snd (first_hit pg i rest)).
Proof.
  cbn [first_hit]. rewrite try_candidate_cases. unfold hits, Eff.bind, Eff.ret.
  destruct (query pg sel) as [e|[]]; cbn;
    try (destruct (first_hit pg i rest); reflexivity).
  destruct (snd (i sel)); cbn; [|reflexivity].
  destruct (first_hit pg i rest); reflexivity.
Qed.

(** The loop never raises and succeeds exactly when some selector hits. *)
Lemma first_hit_outcome (pg : page) (i : text -> call * option exn)
    (sels : list text) :
  snd (first_hit pg i sels) = inr (existsb (hits pg i) sels).
Proof.
  induction sels as [|sel rest IH]; [reflexivity|].
  rewrite first_hit_cons. cbn [existsb].
  destruct (hits pg i sel); [reflexivity|exact IH].
Qed.

(** The selectors are queried in order, up to and including the first hit. *)
Lemma first_hit_queried (pg : page) (i : text -> call * option exn)
    (sels : list text) :
  (forall sel, queried [fst (i sel)] = []) ->
  (existsb (hits pg i) sels = false -> queried (fst (first_hit pg i sels)) = sels)
  /\ (existsb (hits pg i) sels = true ->
      exists pre sel post,
        sels = pre ++ sel :: post
        /\ hits pg i sel = true
        /\ existsb (hits pg i) pre = false
        /\ queried (fst (first_hit pg i sels)) = pre ++ [sel]
        /\ List.last (fst (first_hit pg i sels)) (QuerySelector []) = fst (i sel)).
Proof.
  intros Hi. induction sels as [|sel rest [IH0 IH1]].
  - split; [reflexivity|discriminate].
  - rewrite first_hit_cons. cbn [existsb].
    assert (Hq : forall tr,
              queried (match query pg sel with
                       | inr true => [fst (i sel)] | _ => [] end ++ tr)
              = queried tr).
    { intros tr. destruct (query pg sel) as [e|[]]; try reflexivity.
      unfold queried in *. cbn [flat_map app]. specialize (Hi sel).
      cbn [flat_map] in Hi. rewrite app_nil_r in Hi. rewrite Hi. reflexivity. }
    destruct (hits pg i sel) eqn:Hh; cbn [orb fst].
    + split; [discriminate|]. intros _. exists [], sel, rest.
      split; [reflexivity|]. split; [exact Hh|]. split; [reflexivity|].
      split; [|reflexivity].
      specialize (Hi sel). unfold queried in *. cbn [flat_map] in *.
      rewrite app_nil_r in Hi. rewrite Hi. reflexivity.
    + split.
      * intros Hno. change (queried (QuerySelector sel :: ?l)) with (sel :: queried l).
        rewrite Hq, (IH0 Hno). reflexivity.
      * intros Hyes. destruct (IH1 Hyes) as (pre & s & post & -> & Hs & Hpre & Hqd & Hlast).
        exists (sel :: pre), s, post.
        split; [reflexivity|]. split; [exact Hs|].
        split; [cbn; rewrite Hh; exact Hpre|].
        split.
        -- change (queried (QuerySelector sel :: ?l)) with (sel :: queried l).
           rewrite Hq, Hqd. reflexivity.
        -- assert (Hne : fst (first_hit pg i (pre ++ s :: post)) <> []).
           { intros E. rewrite E in Hqd. destruct pre; discriminate. }
           revert Hne Hlast.
           generalize (fst (first_hit pg i (pre ++ s :: post))). intros tr Hne Hlast.
           rewrite <- Hlast.
           destruct (query pg sel) as [e|[]]; cbn [app];
             destruct tr; try congruence; reflexivity.
Qed.

(** Every call of the loop is a query of one of the selectors or the
    interaction that belongs to it. *)
Lemma first_hit_calls (pg : page) (i : text -> call * option exn)
    (sels : list text) (c : call) :
  In c (fst (first_hit pg i sels)) ->
  exists sel, In sel sels /\ (c = QuerySelector sel \/ c = fst (i sel)).
Proof.
  induction sels as [|sel rest IH]; [intros []|].
  rewrite first_hit_cons.
  assert (Hhead : forall tr,
            In c (QuerySelector sel
                    :: match query pg sel with
                       | inr true => [fst (i sel)] | _ => [] end ++ tr) ->
            c = QuerySelector sel \/ c = fst (i sel) \/ In c tr).
  { intros tr [<-|H]; [auto|].
    apply in_app_or in H as [H|H]; [|auto].
    destruct (query pg sel) as [e|[]]; cbn in H; try tauto.
    destruct H as [<-|[]]. auto. }
  destruct (hits pg i sel); cbn [fst].
  - intros [<-|[<-|[]]]; exists sel; split; auto; left; reflexivity.
  - intros H. apply Hhead in H as [->|[->|H]].
    + exists sel. split; [left; reflexivity|auto].
    + exists sel. split; [left; reflexivity|auto].
    + destruct (IH H) as (s & Hs & Hc). exists s. split; [right; exact Hs|exact Hc].
Qed.

End ActionFacts.

(** X17. [attempt_add_to_cart] never raises.  It returns [True] exactly when
    one of the seven locators finds an element whose scroll-and-click
    completes; the locators are tried in their fixed order, failures of
    earlier ones do not stop the search, and nothing is queried after the
    first success. *)
Theorem attempt_add_to_cart_first_success (pg : ActionExecutor.page) :
  Eff.outcome (ActionExecutor.attempt_add_to_cart pg)
  = inr (existsb (ActionExecutor.hits pg (ActionExecutor.click pg))
           ActionExecutor.add_selectors)
  /\ (Eff.outcome (ActionExecutor.attempt_add_to_cart pg) = inr false ->
      ActionExecutor.queried (Eff.trace (ActionExecutor.attempt_add_to_cart pg))
      = ActionExecutor.add_selectors)
  /\ (Eff.outcome (ActionExecutor.attempt_add_to_cart pg) = inr true ->
      exists pre sel post,
        ActionExecutor.add_selectors = pre ++ sel :: post
        /\ ActionExecutor.hits pg (ActionExecutor.click pg) sel = true
        /\ existsb (ActionExecutor.hits pg (ActionExecutor.click pg)) pre = false
        /\ ActionExecutor.queried
             (Eff.trace (ActionExecutor.attempt_add_to_cart pg)) = pre ++ [sel]
        /\ List.last (Eff.trace (ActionExecutor.attempt_add_to_cart pg))
             (ActionExecutor.QuerySelector []) = ActionExecutor.Act sel).
Proof.
  unfold ActionExecutor.attempt_add_to_cart, Eff.outcome, Eff.trace.
  pose proof (ActionFacts.first_hit_outcome pg (ActionExecutor.click pg)
                ActionExecutor.add_selectors) as Ho.
  destruct (ActionFacts.first_hit_queried pg (ActionExecutor.click pg)
              ActionExecutor.add_selectors (fun _ => eq_refl)) as [H0 H1].
  split; [exact Ho|]. rewrite Ho. split.
  - intros [= E]. apply H0. exact E.
  - intros [= E]. apply H1. exact E.
Qed.

Module TwoTier.
Import ActionExecutor.

Lemma direct_cases (pg : page) (path : text) :
  direct pg path
  = ([Goto (base_of (current_url pg) ++ path)],
     inr (completes (navigate pg (base_of (current_url pg) ++ path)))).
Proof.
  unfold direct, Exc.try_except, Eff.bind, Eff.call, Eff.ret, completes.
  destruct (navigate pg _); reflexivity.
Qed.

Lemma two_tier (pg : page) (sels : list text) (path : text) :
  Eff.bind (first_hit pg (click pg) sels)
    (fun hit => if hit : bool then Eff.ret true else direct pg path)
  = (fst (first_hit pg (click pg) sels)
       ++ (if existsb (hits pg (click pg)) sels then []
           else [Goto (base_of (current_url pg) ++ path)]),
     inr (existsb (hits pg (click pg)) sels
          || completes (navigate pg (base_of (current_url pg) ++ path)))).
Proof.
  pose proof (ActionFacts.first_hit_outcome pg (click pg) sels) as Ho.
  destruct (first_hit pg (click pg) sels) as [tr r]. cbn in Ho. subst r.
  unfold Eff.bind. destruct (existsb (hits pg (click pg)) sels); cbn.
  - reflexivity.
  - rewrite direct_cases. reflexivity.
Qed.

Lemma split_on_nonempty (c : N) (t : text) : split_on c t <> [].
Proof.
  induction t as [|x t IH]; cbn; [discriminate|].
  destruct (x =? c); [discriminate|].
  destruct (split_on c t); [congruence|discriminate].
Qed.

(** Splitting up to the first separator. *)
Lemma split_on_app (c : N) (a r : text) :
  forallb (fun x => negb (x =? c)) a = true ->
  split_on c (a ++ c :: r) = a :: split_on c r.
Proof.
  induction a as [|x a IH]; cbn.
  - intros _. rewrite N.eqb_refl. reflexivity.
  - intros H. apply andb_prop in H as [Hx Ha]. apply negb_true_iff in Hx.
    rewrite Hx, (IH Ha). reflexivity.
Qed.

Lemma split_on_sep (c : N) (r : text) :
  split_on c (c :: r) = [] :: split_on c r.
Proof. cbn. rewrite N.eqb_refl. reflexivity. Qed.

Lemma split_on_none (c : N) (a : text) :
  forallb (fun x => negb (x =? c)) a = true -> split_on c a = [a].
Proof.
  induction a as [|x a IH]; cbn; [reflexivity|].
  intros H. apply andb_prop in H as [Hx Ha]. apply negb_true_iff in Hx.
  rewrite Hx, (IH Ha). reflexivity.
Qed.

Lemma join_split (c : N) (t : text) : join [c] (split_on c t) = t.
Proof.
  induction t as [|x t IH]; cbn [split_on]; [reflexivity|].
  pose proof (split_on_nonempty c t) as Hne.
  destruct (x =? c) eqn:E.
  - apply N.eqb_eq in E. subst x.
    destruct (split_on c t) as [|part parts]; [congruence|].
    change (join [c] ([] :: part :: parts)) with (c :: join [c] (part :: parts)).
    rewrite IH. reflexivity.
  - destruct (split_on c t) as [|part parts]; [congruence|].
    destruct parts as [|q parts].
    + cbn [join] in *. rewrite IH. reflexivity.
    + change (join [c] ((x :: part) :: q :: parts))
        with (x :: join [c] (part :: q :: parts)).
      rewrite IH. reflexivity.
Qed.

End TwoTier.

(** X18. [go_to_cart] and [proceed_to_checkout] never raise.  Each first
    tries its locators like [attempt_add_to_cart]; only if none succeeds
    does it navigate, once, to [/cart] (resp. [/checkout]) below the origin
    of the current page, and it returns [False] only if that navigation
    raises as well. *)
Theorem cart_and_checkout_two_tiers (pg : ActionExecutor.page) :
  ActionExecutor.go_to_cart pg
  = (fst (ActionExecutor.first_hit pg (ActionExecutor.click pg)
            ActionExecutor.cart_selectors)
       ++ (if existsb (ActionExecutor.hits pg (ActionExecutor.click pg))
                ActionExecutor.cart_selectors
           then []
           else [ActionExecutor.Goto
                   (ActionExecutor.base_of (ActionExecutor.current_url pg)
                      ++ str "/cart")]),
     inr (existsb (ActionExecutor.hits pg (ActionExecutor.click pg))
            ActionExecutor.cart_selectors
          || ActionExecutor.completes
               (ActionExecutor.navigate pg
                  (ActionExecutor.base_of (ActionExecutor.current_url pg)
                     ++ str "/cart"))))
  /\ ActionExecutor.proceed_to_checkout pg
     = (fst (ActionExecutor.first_hit pg (ActionExecutor.click pg)
               ActionExecutor.checkout_selectors)
          ++ (if existsb (ActionExecutor.hits pg (ActionExecutor.click pg))
                   ActionExecutor.checkout_selectors
              then []
              else [ActionExecutor.Goto
                      (ActionExecutor.base_of (ActionExecutor.current_url pg)
                         ++ str "/checkout")]),
        inr (existsb (ActionExecutor.hits pg (ActionExecutor.click pg))
               ActionExecutor.checkout_selectors
             || ActionExecutor.completes
                  (ActionExecutor.navigate pg
                     (ActionExecutor.base_of (ActionExecutor.current_url pg)
                        ++ str "/checkout")))).
Proof.
  split; apply TwoTier.two_tier.
Qed.

(** X19. The base that the direct navigation starts from is the origin of
    the current url: for a url made of a scheme, two slashes, a host and a
    path it is scheme, slashes and host, and a url without a path is its own
    base.  Joining the parts of a split url with the separator gives the url
    back. *)
Theorem base_of_is_origin (scheme host path : text) :
  forallb (fun x => negb (x =? ActionExecutor.slash)) scheme = true ->
  forallb (fun x => negb (x =? ActionExecutor.slash)) host = true ->
  ActionExecutor.base_of
    (scheme ++ ActionExecutor.slash :: ActionExecutor.slash
            :: host ++ ActionExecutor.slash :: path)
  = scheme ++ ActionExecutor.slash :: ActionExecutor.slash :: host
  /\ ActionExecutor.base_of
       (scheme ++ ActionExecutor.slash :: ActionExecutor.slash :: host)
     = scheme ++ ActionExecutor.slash :: ActionExecutor.slash :: host
  /\ ActionExecutor.join [ActionExecutor.slash]
       (ActionExecutor.split_on ActionExecutor.slash
          (scheme ++ ActionExecutor.slash :: ActionExecutor.slash
                  :: host ++ ActionExecutor.slash :: path))
     = scheme ++ ActionExecutor.slash :: ActionExecutor.slash
              :: host ++ ActionExecutor.slash :: path.
Proof.
  intros Hs Hh. unfold ActionExecutor.base_of. split; [|split].
  - rewrite (TwoTier.split_on_app _ scheme _ Hs).
    rewrite TwoTier.split_on_sep.
    rewrite (TwoTier.split_on_app _ host _ Hh).
    reflexivity.
  - rewrite (TwoTier.split_on_app _ scheme _ Hs).
    rewrite TwoTier.split_on_sep.
    rewrite (TwoTier.split_on_none _ host Hh).
    reflexivity.
  - apply TwoTier.join_split.
Qed.

Lemma base_of_is_origin_witness :
  ActionExecutor.base_of (str "https://www.amazon.com/dp/B0C1?th=1")
  = str "https://www.amazon.com".
Proof.
  apply (base_of_is_origin (str "https:") (str "www.amazon.com")
           (str "dp/B0C1?th=1")); reflexivity.
Defined.

Module FillFacts.
Import ActionExecutor.

Lemma fill_fields_outcome (pg : page) (shipping : gmap text text)
    (fields : list (text * list text)) (success : bool) :
  snd (fill_fields pg shipping fields success)
  = inr (success || existsb (field_filled pg shipping) fields).
Proof.
  revert success. induction fields as [|[key cands] rest IH]; intros success.
  - cbn. rewrite orb_false_r. reflexivity.
  - cbn [fill_fields existsb]. unfold field_filled at 1. cbn [fst snd].
    destruct (shipping !! key) as [[|v val]|].
    + rewrite IH. reflexivity.
    + pose proof (ActionFacts.first_hit_outcome pg
                    (fun sel => (Fill sel (v :: val), fill pg sel (v :: val)))
                    cands) as Ho.
      destruct (first_hit pg _ cands) as [tr r]. cbn in Ho. subst r.
      unfold Eff.bind.
      specialize (IH (success || existsb
                        (hits pg (fun sel => (Fill sel (v :: val),
                                               fill pg sel (v :: val)))) cands)).
      destruct (fill_fields pg shipping rest _) as [tr' r']. cbn in *.
      rewrite IH, orb_assoc. reflexivity.
    + rewrite IH. reflexivity.
Qed.

Lemma fill_fields_calls (pg : page) (shipping : gmap text text)
    (fields : list (text * list text)) (success : bool) (c : call) :
  In c (fst (fill_fields pg shipping fields success)) ->
  exists key cands val sel,
    In (key, cands) fields /\ shipping !! key = Some val /\ val <> []
    /\ In sel cands /\ (c = QuerySelector sel \/ c = Fill sel val).
Proof.
  revert success. induction fields as [|[key cands] rest IH]; intros success.
  - intros [].
  - cbn [fill_fields].
    assert (Hrest : forall s,
              In c (fst (fill_fields pg shipping rest s)) ->
              exists key0 cands0 val sel,
                In (key0, cands0) ((key, cands) :: rest)
                /\ shipping !! key0 = Some val /\ val <> []
                /\ In sel cands0 /\ (c = QuerySelector sel \/ c = Fill sel val)).
    { intros s H. destruct (IH s H) as (k & cs & val & sel & Hin & Hrest).
      exists k, cs, val, sel. split; [right; exact Hin|exact Hrest]. }
    destruct (shipping !! key) as [[|v val]|] eqn:Hk; try apply Hrest.
    pose proof (ActionFacts.first_hit_calls pg
                  (fun sel => (Fill sel (v :: val), fill pg sel (v :: val)))
                  cands c) as Hc.
    destruct (first_hit pg _ cands) as [tr [e|hit]]; cbn in *.
    + intros H. destruct (Hc H) as (sel & Hsel & Hcs).
      exists key, cands, (v :: val), sel.
      split; [left; reflexivity|]. split; [exact Hk|]. split; [discriminate|].
      split; [exact Hsel|exact Hcs].
    + destruct (fill_fields pg shipping rest (success || hit)) as [tr' r'] eqn:E.
      cbn. intros H. apply in_app_or in H as [H|H].
      * destruct (Hc H) as (sel & Hsel & Hcs).
        exists key, cands, (v :: val), sel.
        split; [left; reflexivity|]. split; [exact Hk|]. split; [discriminate|].
        split; [exact Hsel|exact Hcs].
      * apply (Hrest (success || hit)). rewrite E. exact H.
Qed.

End FillFacts.

(** X20. [fill_shipping] never raises and reports success exactly when at
    least one field that the caller supplied with a non-empty value found an
    input that took it.  It only ever queries the candidate inputs of
    supplied fields and only ever types the value supplied for the field an
    input belongs to; it never clicks and never navigates. *)
Theorem fill_shipping_only_supplied_fields (pg : ActionExecutor.page)
    (shipping : gmap text text) :
  Eff.outcome (ActionExecutor.fill_shipping pg shipping)
  = inr (existsb (ActionExecutor.field_filled pg shipping)
           ActionExecutor.mapping)
  /\ forall c,
       In c (Eff.trace (ActionExecutor.fill_shipping pg shipping)) ->
       exists key cands val sel,
         In (key, cands) ActionExecutor.mapping
         /\ shipping !! key = Some val /\ val <> []
         /\ In sel cands
         /\ (c = ActionExecutor.QuerySelector sel
             \/ c = ActionExecutor.Fill sel val).
Proof.
  unfold ActionExecutor.fill_shipping, Eff.outcome, Eff.trace. split.
  - apply (FillFacts.fill_fields_outcome pg shipping ActionExecutor.mapping false).
  - intros c. apply FillFacts.fill_fields_calls.
Qed.

(** * [async with BrowserController] *)

(** X21. When [__aenter__] has returned, the statement makes its calls in
    the order: start, launch, new context; the body's calls; close context,
    close browser unless closing the context raised, stop Playwright.
    Playwright is stopped exactly once, last, whatever the body did, and an
    exception raised by the teardown replaces the outcome of the body, even
    a successful one; otherwise the statement ends as the body did. *)
Theorem async_with_releases {B A : Type} (ew : BrowserSession.enter_world)
    (tw : BrowserController.teardown_world)
    (body : Eff.t (C:=B) (E:=exn) A) :
  BrowserSession.enters ew = true ->
  Eff.trace (BrowserSession.async_with ew tw body)
  = List.map BrowserSession.Enter
      [BrowserSession.StartPlaywright; BrowserSession.LaunchChromium;
       BrowserSession.NewContext]
    ++ List.map BrowserSession.Body (Eff.trace body)
    ++ BrowserSession.Exit BrowserController.CloseContext
       :: (if ActionExecutor.completes (BrowserController.context_close tw)
           then [BrowserSession.Exit BrowserController.CloseBrowser] else [])
    ++ [BrowserSession.Exit BrowserController.StopPlaywright]
  /\ Eff.outcome (BrowserSession.async_with ew tw body)
     = match BrowserController.playwright_stop tw,
             BrowserController.context_close tw,
             BrowserController.browser_close tw with
       | Some e, _, _ => inl e
       | None, Some e, _ => inl e
       | None, None, Some e => inl e
       | None, None, None => Eff.outcome body
       end.
Proof.
  unfold BrowserSession.enters. destruct ew as [[e1|] [e2|] [e3|]];
    try discriminate. intros _.
  destruct body as [trb rb].
  destruct tw as [[c1|] [c2|] [c3|]]; split; reflexivity.
Qed.

Lemma async_with_releases_witness :
  Eff.outcome
    (BrowserSession.async_with (BrowserSession.mkEnterWorld None None None)
       (BrowserController.mkWorld (Some Sample.boom) None None)
       (ActionExecutor.attempt_add_to_cart
          (ActionExecutor.mkPage (fun _ => inr false) (fun _ => None)
             (fun _ _ => None) (fun _ => None) (str "about:blank"))))
  = inl Sample.boom.
Proof.
  apply (async_with_releases (BrowserSession.mkEnterWorld None None None)
           (BrowserController.mkWorld (Some Sample.boom) None None)).
  reflexivity.
Defined.

(** X22. When [__aenter__] raises, the statement raises that exception and
    neither the body nor any teardown call is made: a Playwright that was
    started, and a browser that was launched, before the failing call are
    never stopped or closed. *)
Theorem async_with_enter_failure {B A : Type} (ew : BrowserSession.enter_world)
    (tw : BrowserController.teardown_world)
    (body : Eff.t (C:=B) (E:=exn) A) :
  BrowserSession.enters ew = false ->
  (exists e, Eff.outcome (BrowserSession.async_with ew tw body) = inl e)
  /\ (forall c, In c (Eff.trace (BrowserSession.async_with ew tw body)) ->
        exists c', c = BrowserSession.Enter c')
  /\ (BrowserSession.start ew = None ->
      In (BrowserSession.Enter BrowserSession.StartPlaywright)
        (Eff.trace (BrowserSession.async_with ew tw body)))
  /\ (BrowserSession.start ew = None -> BrowserSession.launch ew = None ->
      In (BrowserSession.Enter BrowserSession.LaunchChromium)
        (Eff.trace (BrowserSession.async_with ew tw body))).
Proof.
  unfold BrowserSession.enters. destruct ew as [[e1|] [e2|] [e3|]];
    try discriminate; intros _; cbn;
    (split; [eexists; reflexivity|]);
    (split; [intros c Hc; repeat (destruct Hc as [<-|Hc]; [eexists; reflexivity|]);
             destruct Hc|]);
    split; intros; try discriminate; auto.
Qed.

Lemma async_with_enter_failure_witness :
  In (BrowserSession.Enter BrowserSession.StartPlaywright)
    (Eff.trace
       (BrowserSession.async_with
          (BrowserSession.mkEnterWorld None (Some Sample.boom) None)
          (BrowserController.mkWorld None None None)
          (ActionExecutor.attempt_add_to_cart
             (ActionExecutor.mkPage (fun _ => inr false) (fun _ => None)
                (fun _ _ => None) (fun _ => None) (str "about:blank"))))).
Proof.
  apply (async_with_enter_failure
           (BrowserSession.mkEnterWorld None (Some Sample.boom) None)
           (BrowserController.mkWorld None None None)); reflexivity.
Defined.

(** * [StoreScraper] *)

Module ScraperFacts.
Import StoreScraper.

Lemma prefixb_app (r t : text) : prefixb r (r ++ t) = true.
Proof.
  induction r as [|c r IH]; cbn; [destruct t; reflexivity|].
  rewrite N.eqb_refl. exact IH.
Qed.

Lemma price_of_number (t : option text) :
  fst (price_of t) <> Some S754_nan.
Proof.
  unfold price_of. destruct t as [[|c t]|]; try discriminate.
  apply PriceIsNumber.parse_price_number.
Qed.

Lemma price_of_product (t : option text) (ti u st : text) :
  ProductSelector.price_is_number
    (let '(pr, cu) := price_of t in mkProduct ti pr cu u st).
Proof.
  pose proof (price_of_number t) as H. destruct (price_of t) as [pr cu].
  exact H.
Qed.

Lemma ebay_item_ok (item : Item) (p : Product) :
  ebay_item item = Some p -> ebay_ok p.
Proof.
  unfold ebay_item. pose proof (price_of_number (i_price item)) as Hn.
  destruct (price_of (i_price item)) as [pr cu].
  destruct (i_link item) as [[[|c u]|]|]; try discriminate.
  destruct (i_title item) as [[|d t]|]; try discriminate.
  intros [= <-]. repeat split; try discriminate. exact Hn.
Qed.

Lemma walmart_loop_ok (tiles : list Item) (out : list Product) :
  walmart_loop tiles = inr out -> Forall walmart_ok out.
Proof.
  revert out. induction tiles as [|tile rest IH]; intros out; cbn.
  - intros [= <-]. constructor.
  - pose proof (price_of_number (i_price tile)) as Hn.
    destruct (i_link tile) as [[href|]|]; [|discriminate|].
    + destruct (price_of (i_price tile)) as [pr cu].
      destruct (walmart_loop rest) as [e|ps]; [discriminate|]. cbn.
      specialize (IH ps eq_refl).
      destruct (i_title tile) as [[|d t]|]; intros [= <-]; try exact IH.
      constructor; [|exact IH].
      repeat split; try discriminate; try apply prefixb_app; try exact Hn.
    + destruct (price_of (i_price tile)) as [pr cu].
      destruct (walmart_loop rest) as [e|ps]; [discriminate|]. cbn.
      intros [= <-]. exact (IH ps eq_refl).
Qed.

Lemma walmart_loop_broken (tiles : list Item) :
  existsb (fun t => broken_link (i_link t)) tiles = true ->
  walmart_loop tiles = inl type_error.
Proof.
  induction tiles as [|tile rest IH]; cbn; [discriminate|].
  destruct (i_link tile) as [[href|]|]; cbn; try reflexivity;
    intros H; rewrite (IH H); destruct (price_of _); reflexivity.
Qed.

Lemma amazon_loop_ok (cards : list AmazonCard) (u : text) (out : list Product) :
  prefixb amazon_root u = true ->
  amazon_loop u cards = inr out ->
  Forall amazon_ok out
  /\ length out = length (List.filter has_asin cards).
Proof.
  revert u out. induction cards as [|card rest IH]; intros u out Hu;
    cbn [amazon_loop List.filter].
  - intros [= <-]. split; [constructor|reflexivity].
  - unfold has_asin at 1.
    destruct (asin card) as [[|c a]|]; try apply (IH u out Hu).
    pose proof (price_of_number (a_price card)) as Hn.
    destruct (price_of (a_price card)) as [pr cu].
    destruct (a_link card) as [[href|]|]; [|discriminate|].
    + destruct (amazon_loop (amazon_root ++ href) rest) as [e|ps] eqn:E;
        unfold App.bind_sum; [discriminate|]. intros [= <-].
      destruct (IH _ ps (prefixb_app amazon_root href) E) as [Hall Hlen].
      split; [|cbn [length]; rewrite Hlen; reflexivity].
      constructor; [|exact Hall].
      unfold amazon_ok, ProductSelector.price_is_number. cbn [url store price].
      split; [exact (prefixb_app amazon_root href)|].
      split; [reflexivity|exact Hn].
    + destruct (amazon_loop u rest) as [e|ps] eqn:E;
        unfold App.bind_sum; [discriminate|]. intros [= <-].
      destruct (IH _ ps Hu E) as [Hall Hlen].
      split; [|cbn [length]; rewrite Hlen; reflexivity].
      constructor; [|exact Hall].
      unfold amazon_ok, ProductSelector.price_is_number. cbn [url store price].
      split; [exact Hu|]. split; [reflexivity|exact Hn].
Qed.

End ScraperFacts.

(** X23. Every product that [search_ebay] returns has a non-empty title and
    a non-empty url, and every product that [search_walmart] returns has a
    non-empty title and a url below [https://www.walmart.com]; their prices
    are numbers or absent.  A single Walmart tile whose link has no [href]
    makes the whole search raise [TypeError], losing every product of the
    page. *)
Theorem ebay_walmart_products (w : StoreScraper.web) (query : text) :
  (forall out, StoreScraper.search_ebay w query = inr out ->
     Forall (fun p => title p <> [] /\ url p <> [] /\ store p = str "ebay"
                      /\ ProductSelector.price_is_number p) out)
  /\ (forall out, StoreScraper.search_walmart w query = inr out ->
        Forall (fun p => title p <> []
                         /\ prefixb StoreScraper.walmart_root (url p) = true
                         /\ store p = str "walmart"
                         /\ ProductSelector.price_is_number p) out)
  /\ (forall page,
        w (StoreScraper.walmart_url query) = inr page ->
        existsb (fun t => StoreScraper.broken_link (StoreScraper.i_link t))
          (StoreScraper.walmart_tiles page) = true ->
        StoreScraper.search_walmart w query = inl StoreScraper.type_error).
Proof.
  split; [|split].
  - intros out. unfold StoreScraper.search_ebay.
    destruct (w (StoreScraper.ebay_url query)) as [e|page]; [discriminate|].
    cbn. intros [= <-]. apply List.Forall_forall. intros p Hp.
    apply list_elem_of_In, list_elem_of_omap in Hp as (item & _ & Hitem).
    apply (ScraperFacts.ebay_item_ok item p Hitem).
  - intros out. unfold StoreScraper.search_walmart.
    destruct (w (StoreScraper.walmart_url query)) as [e|page]; [discriminate|].
    cbn. apply ScraperFacts.walmart_loop_ok.
  - intros page Hpage Hbroken. unfold StoreScraper.search_walmart.
    rewrite Hpage. cbn. apply ScraperFacts.walmart_loop_broken. exact Hbroken.
Qed.

Lemma amazon_loop_head (u : text) (card : StoreScraper.AmazonCard)
    (rest : list StoreScraper.AmazonCard) (out : list Product) :
  StoreScraper.has_asin card = true ->
  StoreScraper.amazon_loop u (card :: rest) = inr out ->
  exists p out',
    out = p :: out'
    /\ url p = match StoreScraper.a_link card with
               | Some (Some href) => StoreScraper.amazon_root ++ href
               | _ => u
               end
    /\ StoreScraper.amazon_loop (url p) rest = inr out'.
Proof.
  unfold StoreScraper.has_asin. cbn [StoreScraper.amazon_loop].
  destruct (StoreScraper.asin card) as [[|c a]|]; try discriminate. intros _.
  destruct (StoreScraper.price_of (StoreScraper.a_price card)) as [pr cu].
  destruct (StoreScraper.a_link card) as [[href|]|]; [|discriminate|].
  - destruct (StoreScraper.amazon_loop (StoreScraper.amazon_root ++ href) rest)
      as [e|ps] eqn:E; unfold App.bind_sum; [discriminate|].
    intros [= <-]. eexists _, ps. split; [reflexivity|]. split; [reflexivity|].
    exact E.
  - destruct (StoreScraper.amazon_loop u rest) as [e|ps] eqn:E;
      unfold App.bind_sum; [discriminate|].
    intros [= <-]. eexists _, ps. split; [reflexivity|]. split; [reflexivity|].
    exact E.
Qed.

(** X24. [search_amazon] returns one product per card with a non-empty
    [data-asin], each with store ["amazon"], a price that is a number or
    absent, and a url below [https://www.amazon.com].  A card without a link
    does not get a url of its own: it takes the url left in the loop
    variable, that is the search url for the first cards and otherwise the
    url of the last card that had a link, so that two products can carry one
    url. *)
Theorem amazon_products (w : StoreScraper.web) (query : text) :
  (forall page out,
      w (StoreScraper.amazon_url query) = inr page ->
      StoreScraper.search_amazon w query = inr out ->
      Forall (fun p => prefixb StoreScraper.amazon_root (url p) = true
                       /\ store p = str "amazon"
                       /\ ProductSelector.price_is_number p) out
      /\ length out
         = length (List.filter StoreScraper.has_asin
                     (StoreScraper.amazon_cards page)))
  /\ (forall page card rest out,
        w (StoreScraper.amazon_url query) = inr page ->
        StoreScraper.amazon_cards page = card :: rest ->
        StoreScraper.has_asin card = true ->
        StoreScraper.a_link card = None ->
        StoreScraper.search_amazon w query = inr out ->
        exists p out', out = p :: out'
                       /\ url p = StoreScraper.amazon_url query)
  /\ (forall u c1 c2 rest href out,
        StoreScraper.has_asin c1 = true -> StoreScraper.has_asin c2 = true ->
        StoreScraper.a_link c1 = Some (Some href) ->
        StoreScraper.a_link c2 = None ->
        StoreScraper.amazon_loop u (c1 :: c2 :: rest) = inr out ->
        exists p1 p2 out',
          out = p1 :: p2 :: out'
          /\ url p1 = StoreScraper.amazon_root ++ href
          /\ url p2 = StoreScraper.amazon_root ++ href).
Proof.
  split; [|split].
  - intros page out Hpage. unfold StoreScraper.search_amazon. rewrite Hpage.
    unfold App.bind_sum. apply ScraperFacts.amazon_loop_ok. reflexivity.
  - intros page card rest out Hpage Hcards Hasin Hlink.
    unfold StoreScraper.search_amazon. rewrite Hpage. unfold App.bind_sum.
    rewrite Hcards. intros Hloop.
    destruct (amazon_loop_head _ _ _ _ Hasin Hloop) as (p & out' & -> & Hu & _).
    rewrite Hlink in Hu. eauto.
  - intros u c1 c2 rest href out H1 H2 Hl1 Hl2 Hloop.
    destruct (amazon_loop_head _ _ _ _ H1 Hloop) as (p1 & out1 & -> & Hu1 & Hrest).
    rewrite Hl1 in Hu1.
    destruct (amazon_loop_head _ _ _ _ H2 Hrest) as (p2 & out2 & -> & Hu2 & _).
    rewrite Hl2 in Hu2. exists p1, p2, out2.
    split; [reflexivity|]. split; [exact Hu1|]. rewrite Hu2. exact Hu1.
Qed.

Module GenericFacts.
Import StoreScraper.
Section Facts.
Variable lower : text -> text.

Lemma generic_anchor_ok (site_url : text) (a : Anchor) (p : Product) :
  generic_anchor lower site_url a = Some p -> generic_ok site_url p.
Proof.
  unfold generic_anchor.
  destruct (g_href a) as [[|c href]|]; try discriminate.
  destruct (g_text a) as [|d t]; try discriminate.
  match goal with
  | |- context [PriceParser.parse_price ?x] =>
      pose proof (PriceIsNumber.parse_price_number x) as Hn;
      destruct (PriceParser.parse_price x) as [pr cu]
  end.
  destruct (price_truthy pr || _); try discriminate.
  destruct (prefixb (str "http") (c :: href)) eqn:E;
    intros [= <-]; unfold generic_ok, ProductSelector.price_is_number;
    cbn [title store url price];
    (split; [discriminate|]); (split; [reflexivity|]); (split; [|exact Hn]).
  - left. exact E.
  - right. apply ScraperFacts.prefixb_app.
Qed.

Lemma found_ok (w : web) (site_url u : text) :
  Forall (generic_ok site_url) (found lower w site_url u).
Proof.
  unfold found. destruct (w u) as [e|page]; [constructor|].
  apply List.Forall_forall. intros p Hp.
  apply list_elem_of_In, list_elem_of_omap in Hp as (a & _ & Ha).
  exact (generic_anchor_ok _ _ _ Ha).
Qed.

(** One turn of the loop that starts without results. *)
Lemma try_url_empty (w : web) (site_url u : text) :
  try_url lower w site_url [] u
  = ([u], inr (found lower w site_url u,
               match found lower w site_url u with
               | [] => false
               | _ :: _ => true
               end)).
Proof.
  unfold try_url, found, Exc.try_except, Exc.perform, Eff.bind, Eff.ret.
  destruct (w u) as [e|page]; reflexivity.
Qed.

Lemma generic_loop_spec (w : web) (site_url : text) (urls : list text) :
  (Forall (fun u => found lower w site_url u = []) urls
   /\ generic_loop lower w site_url urls [] = (urls, inr []))
  \/ (exists pre u post,
        urls = pre ++ u :: post
        /\ Forall (fun u' => found lower w site_url u' = []) pre
        /\ found lower w site_url u <> []
        /\ generic_loop lower w site_url urls []
           = (pre ++ [u], inr (found lower w site_url u))).
Proof.
  induction urls as [|u rest IH].
  - left. split; [constructor|reflexivity].
  - cbn [generic_loop]. rewrite try_url_empty.
    destruct (found lower w site_url u) as [|p ps] eqn:E.
    + unfold Eff.bind.
      destruct IH as [[Hall Hloop]|(pre & u' & post & -> & Hpre & Hu' & Hloop)];
        rewrite Hloop.
      * left. split; [constructor; assumption|reflexivity].
      * right. exists (u :: pre), u', post.
        split; [reflexivity|]. split; [constructor; assumption|].
        split; [exact Hu'|reflexivity].
    + right. exists [], u, rest.
      split; [reflexivity|]. split; [constructor|].
      rewrite E. split; [discriminate|reflexivity].
Qed.

End Facts.
End GenericFacts.

(** X25. [search_generic] never raises: a page that fails to load is skipped.
    It visits its three url templates in order and returns the products of
    the first page whose anchors give any, without visiting the templates
    after it; when no page gives a product it has visited all three and
    returns the empty list.  Every product it returns has a non-empty title,
    store ["generic"], a price that is a number or absent, and a url that
    starts with ["http"] or with the site url stripped of its trailing
    slashes. *)
Theorem search_generic_first_template (lower : text -> text)
    (w : StoreScraper.web) (site_url query : text) :
  exists out,
    Eff.outcome (StoreScraper.search_generic lower w site_url query) = inr out
    /\ Forall (StoreScraper.generic_ok site_url) out
    /\ ((out = []
         /\ Eff.trace (StoreScraper.search_generic lower w site_url query)
            = StoreScraper.try_urls site_url query
         /\ Forall (fun u => StoreScraper.found lower w site_url u = [])
              (StoreScraper.try_urls site_url query))
        \/ (out <> []
            /\ exists pre u post,
                 StoreScraper.try_urls site_url query = pre ++ u :: post
                 /\ Eff.trace (StoreScraper.search_generic lower w site_url query)
                    = pre ++ [u]
                 /\ out = StoreScraper.found lower w site_url u
                 /\ Forall (fun u' => StoreScraper.found lower w site_url u' = [])
                      pre)).
Proof.
  unfold StoreScraper.search_generic.
  destruct (GenericFacts.generic_loop_spec lower w site_url
              (StoreScraper.try_urls site_url query))
    as [[Hall Hloop]|(pre & u & post & Hsplit & Hpre & Hu & Hloop)];
    rewrite Hloop; unfold Eff.outcome, Eff.trace; cbn [fst snd].
  - exists []. split; [reflexivity|]. split; [constructor|].
    left. split; [reflexivity|]. split; [reflexivity|exact Hall].
  - exists (StoreScraper.found lower w site_url u).
    split; [reflexivity|]. split; [apply GenericFacts.found_ok|].
    right. split; [exact Hu|]. exists pre, u, post.
    split; [exact Hsplit|]. split; [reflexivity|]. split; [reflexivity|exact Hpre].
Qed.

(** * From the scrapers to the session *)

Module PipelineFacts.
Import StoreScraper.

Lemma amazon_scraped (w : web) (query : text) (out : list Product) :
  search_amazon w query = inr out -> Forall scraped_ok out.
Proof.
  unfold search_amazon. destruct (w (amazon_url query)) as [e|page];
    [discriminate|]. unfold App.bind_sum. intros H.
  apply ScraperFacts.amazon_loop_ok in H as [H _]; [|reflexivity].
  eapply List.Forall_impl; [|exact H]. intros p (_ & Hs & Hn).
  split; [exact Hn|]. rewrite Hs. left. reflexivity.
Qed.

Lemma ebay_scraped (w : web) (query : text) (out : list Product) :
  search_ebay w query = inr out -> Forall scraped_ok out.
Proof.
  unfold search_ebay. destruct (w (ebay_url query)) as [e|page];
    [discriminate|]. unfold App.bind_sum. intros [= <-].
  apply List.Forall_forall. intros p Hp.
  apply list_elem_of_In, list_elem_of_omap in Hp as (item & _ & Hitem).
  destruct (ScraperFacts.ebay_item_ok item p Hitem) as (_ & _ & Hs & Hn).
  split; [exact Hn|]. rewrite Hs. right. left. reflexivity.
Qed.

Lemma walmart_scraped (w : web) (query : text) (out : list Product) :
  search_walmart w query = inr out -> Forall scraped_ok out.
Proof.
  unfold search_walmart. destruct (w (walmart_url query)) as [e|page];
    [discriminate|]. unfold App.bind_sum. intros H.
  apply ScraperFacts.walmart_loop_ok in H.
  eapply List.Forall_impl; [|exact H]. intros p (_ & _ & Hs & Hn).
  split; [exact Hn|]. rewrite Hs. right. right. left. reflexivity.
Qed.

Lemma generic_scraped (lower : text -> text) (w : web) (site_url query : text)
    (out : list Product) :
  Eff.outcome (search_generic lower w site_url query) = inr out ->
  Forall scraped_ok out.
Proof.
  unfold search_generic.
  destruct (GenericFacts.generic_loop_spec lower w site_url
              (try_urls site_url query))
    as [[_ Hloop]|(pre & u & post & _ & _ & _ & Hloop)];
    rewrite Hloop; unfold Eff.outcome; cbn [snd]; intros [= <-];
    [constructor|].
  eapply List.Forall_impl; [|apply GenericFacts.found_ok].
  intros p (_ & Hs & _ & Hn).
  split; [exact Hn|]. rewrite Hs. right. right. right. left. reflexivity.
Qed.

(** Whatever the dispatch of [plan_and_search] collects from the scrapers. *)
Lemma scrape_scraped (lower : text -> text) (w : web) (store : option text)
    (query : text) (out : list Product) :
  App.scrape (scraper_of lower w) store query = inr out ->
  Forall scraped_ok out.
Proof.
  unfold App.scrape, scraper_of.
  cbn [App.search_amazon App.search_ebay App.search_walmart App.search_generic].
  destruct (bool_decide _); [apply amazon_scraped|].
  destruct (bool_decide _); [apply ebay_scraped|].
  destruct (bool_decide _); [apply walmart_scraped|].
  destruct (search_amazon w query) as [e|a] eqn:Ea; [discriminate|].
  apply amazon_scraped in Ea. unfold App.bind_sum at 1.
  assert (H2 : forall ps,
             (if (length a <? 4)%nat
              then App.bind_sum (search_ebay w query) (fun more => inr (a ++ more))
              else inr a) = inr ps -> Forall scraped_ok ps).
  { intros ps. destruct (length a <? 4)%nat; [|intros [= <-]; exact Ea].
    destruct (search_ebay w query) as [e|b] eqn:Eb; [discriminate|].
    intros [= <-]. apply Forall_app. split; [exact Ea|].
    exact (ebay_scraped _ _ _ Eb). }
  destruct (if (length a <? 4)%nat then _ else _) as [e|ps2]; [discriminate|].
  specialize (H2 ps2 eq_refl). unfold App.bind_sum at 1.
  assert (H3 : forall ps,
             (if (length ps2 <? 6)%nat
              then App.bind_sum (search_walmart w query)
                     (fun more => inr (ps2 ++ more))
              else inr ps2) = inr ps -> Forall scraped_ok ps).
  { intros ps. destruct (length ps2 <? 6)%nat; [|intros [= <-]; exact H2].
    destruct (search_walmart w query) as [e|b] eqn:Eb; [discriminate|].
    intros [= <-]. apply Forall_app. split; [exact H2|].
    exact (walmart_scraped _ _ _ Eb). }
  destruct (if (length ps2 <? 6)%nat then _ else _) as [e|ps3]; [discriminate|].
  specialize (H3 ps3 eq_refl). unfold App.bind_sum at 1.
  destruct (length ps3 <? 6)%nat; [|intros [= <-]; exact H3].
  destruct (Eff.outcome _) as [e|g] eqn:Eg; [discriminate|].
  intros [= <-]. apply Forall_app. split; [exact H3|].
  exact (generic_scraped _ _ _ _ _ Eg).
Qed.

(** A [plan_and_search] that answers, with what it scraped. *)
Lemma plan_and_search_scraped (lower : text -> text)
    (json_loads : text -> option Plan) (S S' : App.sessions) (req : PlanRequest)
    (w : App.SearchWorld) (r : PlanResponse) :
  App.plan_and_search lower json_loads S req w = (inr r, S') ->
  exists store query scraped,
    App.scrape (App.scraper w) store query = inr scraped
    /\ S' !! r_session_id r
       = Some (mkSession (r_plan r)
                 (ProductSelector.rank lower true scraped
                    (App.constraints_of (r_plan r))) None None None).
Proof.
  unfold App.plan_and_search.
  destruct (App.oracle_text w) as [e|resp_text]; [discriminate|].
  destruct (App.browser_enter w); [discriminate|].
  destruct (App.scrape _ _ _) as [e|scraped] eqn:E; [discriminate|].
  destruct (App.browser_exit w); [discriminate|].
  intros [= <- <-]. eexists _, _, scraped. split; [exact E|].
  cbn [r_session_id r_plan]. apply lookup_insert_eq.
Qed.

End PipelineFacts.

(** X26. With the scrapers of [StoreScraper] behind it, a [plan_and_search]
    that answers has stored a list in which every price is a number or
    absent, every product carries the name of one of the four scrapers as
    its store, and the products stand in ascending order of effective price:
    no product is cheaper than one that stands before it.  No scraped page
    can put a price into a session that is not a number. *)
Theorem scraped_session_sorted (lower : text -> text)
    (json_loads : text -> option Plan) (web : StoreScraper.web)
    (S S' : App.sessions) (req : PlanRequest) (sw : App.SearchWorld)
    (r : PlanResponse) :
  App.scraper sw = StoreScraper.scraper_of lower web ->
  App.plan_and_search lower json_loads S req sw = (inr r, S') ->
  exists session,
    S' !! r_session_id r = Some session
    /\ Forall StoreScraper.scraped_ok (products session)
    /\ StronglySorted (PySort.before PyFloat.ltb ProductSelector.score)
         (products session).
Proof.
  intros Hsc Hps.
  destruct (PipelineFacts.plan_and_search_scraped _ _ _ _ _ _ _ Hps)
    as (store & query & scraped & Hscrape & Hlook).
  rewrite Hsc in Hscrape. apply PipelineFacts.scrape_scraped in Hscrape.
  eexists. split; [exact Hlook|]. cbn [products].
  assert (Hfil : Forall StoreScraper.scraped_ok
                   (ProductSelector.filtered_or_all lower scraped
                      (App.constraints_of (r_plan r)))).
  { rewrite List.Forall_forall in *. intros p Hp. apply Hscrape.
    apply list_elem_of_In.
    eapply elem_of_sublist; [apply list_elem_of_In; exact Hp|].
    apply RankFacts.filtered_or_all_sublist. }
  split.
  - rewrite List.Forall_forall in *. intros p Hp. apply Hfil.
    exact (Permutation_in _ (RankFacts.rank_perm lower _ _ _) Hp).
  - apply (PySortFacts.sort_forward_sorted PyFloat.ltb ProductSelector.score
             (fun k => PyFloat.is_nan k = false)
             PyFloatFacts.ltb_asym PyFloatFacts.ltb_negtrans).
    eapply List.Forall_impl; [|exact Hfil].
    intros p [Hn _]. exact (RankFacts.score_is_number p Hn).
Qed.

Lemma scraped_session_sorted_witness :
  length (r_products MoreSample.shop_response) = 3%nat
  /\ exists session,
       snd MoreSample.shop_outcome !! r_session_id MoreSample.shop_response
       = Some session
       /\ Forall StoreScraper.scraped_ok (products session)
       /\ StronglySorted (PySort.before PyFloat.ltb ProductSelector.score)
            (products session).
Proof.
  split; [vm_compute; reflexivity|].
  apply (scraped_session_sorted ascii_lower Sample.rejects MoreSample.shop_web ∅
           (snd MoreSample.shop_outcome) Sample.mouse_search
           MoreSample.shop_world MoreSample.shop_response).
  - reflexivity.
  - vm_compute. reflexivity.
Defined.

(** * The store dispatch *)

Module DispatchFacts.

(** One step of the dispatch extends what was collected so far. *)
Lemma extend_prefix (ps cur out : list Product) (b : bool)
    (m : exn + list Product) :
  (exists more, cur = ps ++ more) ->
  (if b then App.bind_sum m (fun more => inr (cur ++ more)) else inr cur)
  = inr out ->
  exists more, out = ps ++ more.
Proof.
  intros [x ->]. destruct b; [destruct m as [e|y]; [discriminate|]|];
    unfold App.bind_sum; intros [= <-].
  - exists (x ++ y). symmetry. apply app_assoc.
  - exists x. reflexivity.
Qed.

End DispatchFacts.

(** X27. A store that is none of ["amazon"], ["ebay"] and ["walmart"] --
    an absent one, ["generic"], or any other name -- selects no scraper: the
    search is the one made without a store.  That search asks Amazon first:
    when Amazon raises, the search raises the same exception whatever the
    other stores hold; when Amazon returns six products or more, they are
    the result; and every result begins with the products of Amazon. *)
Theorem scrape_without_named_store (sc : App.Scraper) (store : option text)
    (query : text) :
  store <> Some (str "amazon") ->
  store <> Some (str "ebay") ->
  store <> Some (str "walmart") ->
  App.scrape sc store query = App.scrape sc None query
  /\ (forall e, App.search_amazon sc query = inl e ->
        App.scrape sc store query = inl e)
  /\ (forall ps, App.search_amazon sc query = inr ps ->
        (6 <= length ps)%nat ->
        App.scrape sc store query = inr ps)
  /\ (forall out, App.scrape sc store query = inr out ->
        exists ps more,
          App.search_amazon sc query = inr ps /\ out = ps ++ more).
Proof.
  intros Ha He Hw.
  assert (Hsame : App.scrape sc store query = App.scrape sc None query).
  { unfold App.scrape.
    rewrite (bool_decide_eq_false_2 _ Ha), (bool_decide_eq_false_2 _ He),
      (bool_decide_eq_false_2 _ Hw).
    reflexivity. }
  split; [exact Hsame|]. rewrite Hsame. unfold App.scrape.
  change (bool_decide (None = Some (str "amazon"))) with false.
  change (bool_decide (None = Some (str "ebay"))) with false.
  change (bool_decide (None = Some (str "walmart"))) with false.
  cbv iota.
  split; [|split].
  - intros e ->. reflexivity.
  - intros ps -> Hlen. unfold App.bind_sum.
    assert (H4 : (length ps <? 4)%nat = false) by (apply Nat.ltb_ge; lia).
    assert (H6 : (length ps <? 6)%nat = false) by (apply Nat.ltb_ge; lia).
    rewrite H4. cbv beta iota. rewrite H6. cbv beta iota. rewrite H6.
    reflexivity.
  - intros out. destruct (App.search_amazon sc query) as [e|ps];
      [discriminate|]. unfold App.bind_sum at 1.
    destruct (if (length ps <? 4)%nat then _ else _) as [e|p2] eqn:E2;
      [discriminate|].
    apply (DispatchFacts.extend_prefix ps) in E2;
      [|exists []; symmetry; apply app_nil_r].
    unfold App.bind_sum at 1.
    destruct (if (length p2 <? 6)%nat then _ else _) as [e|p3] eqn:E3;
      [discriminate|].
    apply (DispatchFacts.extend_prefix ps) in E3; [|exact E2].
    intros E4. apply (DispatchFacts.extend_prefix ps) in E4; [|exact E3].
    destruct E4 as [more ->]. exists ps, more. split; reflexivity.
Qed.

Lemma scrape_without_named_store_witness :
  App.scrape (App.scraper Sample.shelf_world) (Some (str "generic"))
    (str "mouse")
  = App.scrape (App.scraper Sample.shelf_world) None (str "mouse").
Proof.
  apply (proj1 (scrape_without_named_store (App.scraper Sample.shelf_world)
                  (Some (str "generic")) (str "mouse")
                  ltac:(intros H; vm_compute in H; discriminate)
                  ltac:(intros H; vm_compute in H; discriminate)
                  ltac:(intros H; vm_compute in H; discriminate))).
Defined.
